(** * BOB (Baseline Object Broker): detection and calibration core

    A shallow embedding of the measurement core of the repository:

    - [src/opencvUtils.js]: [calculatePPM], [calculatePixelDistance],
      [applyPPMToObject], and the contour loops of [detectContours] and
      [detectCoin];
    - [src/hooks/useDetectionState.jsx]: [finishManualObject] and
      [addManualObjectPoint].

    JavaScript numbers are kept behind the interface [JSNumber].  Its first
    instance is IEEE-754 binary64 (Rocq's primitive floats), which is what a
    JavaScript engine computes with and which evaluates inside Rocq; its
    second instance reads the same program over the real numbers, the exact
    arithmetic that the approximate statements of the specification are
    about. *)

From Stdlib Require Import List ZArith Bool String Lia.
From Stdlib Require Import Reals Lra.
From Stdlib Require Import Floats.
From Stdlib Require Uint63.
From Stdlib Require DecimalString.
Import ListNotations.

Set Implicit Arguments.

(** ** JavaScript numbers *)

Declare Scope js_scope.
Delimit Scope js_scope with js.

Class JSNumber (num : Type) : Type := {
  lit : Z -> num;                 (* an integer literal *)
  dec : Z -> nat -> num;          (* a decimal literal [m]e-[k], e.g. 26.5 = dec 265 1 *)
  Math_PI : num;
  nadd : num -> num -> num;
  nsub : num -> num -> num;
  nmul : num -> num -> num;
  ndiv : num -> num -> num;
  Math_sqrt : num -> num;
  Math_abs : num -> num;
  Math_round : num -> num;
  Math_hypot : num -> num -> num;
  Math_min : list num -> num;     (* Math.min(...xs) *)
  Math_max : list num -> num;     (* Math.max(...xs) *)
  nlt : num -> num -> bool;       (* a < b *)
  nle : num -> num -> bool;       (* a <= b *)
  falsy : num -> bool             (* !a *)
}.

Infix "+" := nadd : js_scope.
Infix "-" := nsub : js_scope.
Infix "*" := nmul : js_scope.
Infix "/" := ndiv : js_scope.
Infix "<?" := nlt : js_scope.
Infix "<=?" := nle : js_scope.
Notation "a >? b" := (nlt b a) (at level 70, no associativity, only parsing) : js_scope.
Notation "a >=? b" := (nle b a) (at level 70, no associativity, only parsing) : js_scope.

(** What the guards of the program rely on: a number above zero is truthy
    and is not [<= 0].  Both hold for binary64 (where they exclude NaN and
    the two zeros) and for the reals. *)
Class JSNumberLaws (num : Type) {JN : JSNumber num} : Prop := {
  pos_truthy : forall a : num, (lit 0 <? a)%js = true -> falsy a = false;
  pos_not_le : forall a : num, (lit 0 <? a)%js = true -> (a <=? lit 0)%js = false
}.
Arguments JSNumberLaws num {JN}.

(** What a search for the least or the greatest of several numbers relies
    on: [<] is irreflexive and transitive, and [Math.min] and [Math.max] of
    numbers none of which is NaN (a number is NaN exactly when [v <= v] is
    false) bound each of them.  Both hold for binary64 and for the
    reals. *)
Class JSNumberOrder (num : Type) {JN : JSNumber num} : Prop := {
  nlt_irrefl : forall a : num, (a <? a)%js = false;
  nlt_trans : forall a b c : num,
    (a <? b)%js = true -> (b <? c)%js = true -> (a <? c)%js = true;
  Math_min_lower : forall (l : list num) (a : num),
    Forall (fun v => (v <=? v)%js = true) l -> In a l -> (Math_min l <=? a)%js = true;
  Math_max_upper : forall (l : list num) (a : num),
    Forall (fun v => (v <=? v)%js = true) l -> In a l -> (a <=? Math_max l)%js = true
}.
Arguments JSNumberOrder num {JN}.

(** *** Instance 1: IEEE-754 binary64 *)

Module F64.
Local Open Scope float_scope.

(** Integer literals; exact below 2^53. *)
Definition of_Z (z : Z) : float :=
  match z with
  | Z0 => 0
  | Zpos _ => of_uint63 (Uint63.of_Z z)
  | Zneg p => - of_uint63 (Uint63.of_Z (Zpos p))
  end.

(** A decimal literal is the double nearest to its value: one correctly
    rounded division of two exactly represented integers. *)
Definition of_decimal (m : Z) (k : nat) : float := of_Z m / of_Z (10 ^ Z.of_nat k).

(** [Math.round]: the integer nearest to [a], ties towards +infinity;
    NaN, the infinities and integral values are returned as they are.
    Computed exactly on the mantissa and exponent of [a]. *)
Definition round (a : float) : float :=
  match Prim2SF a with
  | S754_finite s m e =>
      if (0 <=? e)%Z then a
      else
        let den := Z.shiftl 1 (- e) in
        let num := if s then Zneg m else Zpos m in
        let n := ((2 * num + den) / (2 * den))%Z in
        if (n =? 0)%Z then (if s then neg_zero else zero) else of_Z n
  | _ => a
  end.

(** [Math.hypot] of two arguments.  ECMAScript leaves the finite case
    implementation-approximated; it is taken as the rounded square root of
    the rounded sum of squares. *)
Definition hypot (a b : float) : float :=
  if is_infinity a || is_infinity b then infinity
  else PrimFloat.sqrt (a * a + b * b).

Definition min2 (a b : float) : float :=
  if is_nan a then a else if is_nan b then b
  else if b <? a then b else if a <? b then a
  else if get_sign a then a else b.

Definition max2 (a b : float) : float :=
  if is_nan a then a else if is_nan b then b
  else if a <? b then b else if b <? a then a
  else if get_sign a then b else a.

Definition min (l : list float) : float := fold_left min2 l infinity.
Definition max (l : list float) : float := fold_left max2 l neg_infinity.

(** [!a] is true for +0, -0 and NaN. *)
Definition not (a : float) : bool := PrimFloat.is_zero a || PrimFloat.is_nan a.

(** Every value but NaN. *)
Definition is_number (a : float) : Prop := Prim2SF a <> S754_nan.

(** The finite values: the zeros and the signed mantissas. *)
Definition SFfinite (u : spec_float) : Prop :=
  match u with
  | S754_zero _ | S754_finite _ _ _ => True
  | _ => False
  end.

(** The values a zero divided by gives a zero: neither zero nor NaN. *)
Definition SFnonzero (u : spec_float) : Prop :=
  match u with
  | S754_infinity _ | S754_finite _ _ _ => True
  | _ => False
  end.
End F64.

#[export] Instance float_number : JSNumber float := {|
  lit := F64.of_Z;
  dec := F64.of_decimal;
  Math_PI := 0x1.921fb54442d18p+1%float;
  nadd := PrimFloat.add;
  nsub := PrimFloat.sub;
  nmul := PrimFloat.mul;
  ndiv := PrimFloat.div;
  Math_sqrt := PrimFloat.sqrt;
  Math_abs := PrimFloat.abs;
  Math_round := F64.round;
  Math_hypot := F64.hypot;
  Math_min := F64.min;
  Math_max := F64.max;
  nlt := PrimFloat.ltb;
  nle := PrimFloat.leb;
  falsy := F64.not
|}.

(** *** Instance 2: exact arithmetic

    The same program read over the real numbers: no rounding, no overflow
    or underflow, no NaN, and decimal literals that are exact.  A statement
    proved for this instance alone says what the formulas of the program
    mean, not what binary64 computes; each one says so. *)

Module Exact.
Local Open Scope R_scope.

Definition ltb (a b : R) : bool := if Rlt_dec a b then true else false.
Definition leb (a b : R) : bool := if Rle_dec a b then true else false.
Definition not (a : R) : bool := if Req_dec_T a 0 then true else false.

(** floor (a + 1/2) *)
Definition round (a : R) : R := IZR (Int_part (a + / 2)).

Definition hypot (a b : R) : R := R_sqrt.sqrt (a * a + b * b).

(** There is no infinity among the reals: the empty call, which the
    program never makes, is given 0. *)
Definition min (l : list R) : R :=
  match l with [] => 0 | a :: r => fold_left Rmin r a end.
Definition max (l : list R) : R :=
  match l with [] => 0 | a :: r => fold_left Rmax r a end.
End Exact.

#[export] Instance real_number : JSNumber R := {|
  lit := IZR;
  dec := fun m k => (IZR m / 10 ^ k)%R;
  Math_PI := PI;
  nadd := Rplus;
  nsub := Rminus;
  nmul := Rmult;
  ndiv := Rdiv;
  Math_sqrt := R_sqrt.sqrt;
  Math_abs := Rabs;
  Math_round := Exact.round;
  Math_hypot := Exact.hypot;
  Math_min := Exact.min;
  Math_max := Exact.max;
  nlt := Exact.ltb;
  nle := Exact.leb;
  falsy := Exact.not
|}.

(** ** Data model *)

Section DataModel.
Context {num : Type}.

(** [{x, y}] in image pixel coordinates. *)
Record Point : Type := { x : num; y : num }.

(** [{start, end, pixelLength, realLength}]; [realLength] is [null]
    until a scale has been applied. *)
Record Edge : Type := {
  start : Point;
  end_ : Point;
  pixelLength : num;
  realLength : option num
}.

(** The bounding rectangle [{x, y, width, height}] kept in the field
    [contour] of an object. *)
Record Rect : Type := {
  rect_x : num;
  rect_y : num;
  width : num;
  height : num
}.

(** One entry [{pixelLength, realLength}] of [measurements.edges]. *)
Record EdgeMeasure : Type := {
  m_pixelLength : num;
  m_realLength : option num
}.

(** [measurements: {edges, perimeter}]. *)
Record Measurements : Type := {
  m_edges : list EdgeMeasure;
  m_perimeter : option num
}.

(** An object as [detectContours] and [finishManualObject] build it.
    [circularity] is absent from manually drawn objects. *)
Record DetectedObject : Type := {
  id : string;
  name : string;
  color : string;
  contour : Rect;
  points : list Point;
  edges : list Edge;
  area : num;
  perimeter : num;
  isCoin : bool;
  circularity : option num;
  measurements : Measurements
}.
End DataModel.

Arguments Point : clear implicits.
Arguments Edge : clear implicits.
Arguments Rect : clear implicits.
Arguments EdgeMeasure : clear implicits.
Arguments Measurements : clear implicits.
Arguments DetectedObject : clear implicits.

(** ** Calibration: [src/opencvUtils.js] *)

Section Calibration.
Context {num : Type} {JN : JSNumber num}.
Local Open Scope js_scope.

(** [export const COIN_DIAMETER_MM = 26.5] *)
Definition COIN_DIAMETER_MM : num := dec 265 1.

(** [calculatePPM(pixelDistance)] *)
Definition calculatePPM (pixelDistance : num) : num :=
  pixelDistance / COIN_DIAMETER_MM.

(** [calculatePixelDistance(p1, p2)] *)
Definition calculatePixelDistance (p1 p2 : Point num) : num :=
  let dx := x p2 - x p1 in
  let dy := y p2 - y p1 in
  Math_sqrt (dx * dx + dy * dy).

(** The truth value of a value that is [null] or a number. *)
Definition truthy (v : option num) : bool :=
  match v with
  | None => false
  | Some a => negb (falsy a)
  end.

(** The idiom [Math.round(v * 100) / 100] ("round to 2 decimal places"). *)
Definition round2 (v : num) : num := Math_round (v * lit 100) / lit 100.

(** [{...edge, realLength: r}] *)
Definition with_realLength (edge : Edge num) (r : num) : Edge num :=
  {| start := start edge; end_ := end_ edge;
     pixelLength := pixelLength edge; realLength := Some r |}.

(** [e => ({pixelLength: e.pixelLength, realLength: e.realLength})] *)
Definition measure_of (e : Edge num) : EdgeMeasure num :=
  {| m_pixelLength := pixelLength e; m_realLength := realLength e |}.

(** [applyPPMToObject(obj, ppm)]; [ppm] is [null] or a number. *)
Definition applyPPMToObject (obj : DetectedObject num) (ppm : option num)
  : DetectedObject num :=
  match ppm with
  | None => obj
  | Some p =>
      if falsy p || (p <=? lit 0) then obj
      else
        let updatedEdges :=
          map (fun edge => with_realLength edge (round2 (pixelLength edge / p)))
              (edges obj) in
        let realPerimeter := round2 (perimeter obj / p) in
        {| id := id obj; name := name obj; color := color obj;
           contour := contour obj; points := points obj;
           edges := updatedEdges;
           area := area obj; perimeter := perimeter obj;
           isCoin := isCoin obj; circularity := circularity obj;
           measurements :=
             {| m_edges := map measure_of updatedEdges;
                m_perimeter := Some realPerimeter |} |}
  end.

(** An object as it was before any scale was applied: every [realLength]
    and the calibrated view are forgotten.  Used to state that a result
    does not depend on them. *)
Definition uncalibrated (obj : DetectedObject num) : DetectedObject num :=
  let es :=
    map (fun e => {| start := start e; end_ := end_ e;
                     pixelLength := pixelLength e; realLength := None |})
        (edges obj) in
  {| id := id obj; name := name obj; color := color obj;
     contour := contour obj; points := points obj;
     edges := es;
     area := area obj; perimeter := perimeter obj;
     isCoin := isCoin obj; circularity := circularity obj;
     measurements := {| m_edges := map measure_of es; m_perimeter := None |} |}.
End Calibration.

(** ** Helpers shared by the detection pass and the manual polygon builder *)

(** A template substitution [${n}] of a non-negative integer. *)
Definition string_of_nat (n : nat) : string :=
  DecimalString.NilEmpty.string_of_uint (Nat.to_uint n).

Section Polygon.
Context {num : Type} {JN : JSNumber num}.
Local Open Scope js_scope.

(** Stands for [points[j]] at an index outside the array; every loop below
    keeps its indices inside. *)
Definition origin : Point num := {| x := lit 0; y := lit 0 |}.

(** The edge pushed at index [j]:
    [{start: p1, end: p2, pixelLength: length, realLength: null}] with
    [p1 = points[j]] and [p2 = points[(j + 1) % points.length]]. *)
Definition edge_at (points : list (Point num)) (j : nat) : Edge num :=
  let p1 := nth j points origin in
  let p2 := nth ((j + 1) mod List.length points) points origin in
  {| start := p1; end_ := p2;
     pixelLength := calculatePixelDistance p1 p2; realLength := None |}.

(** [for (let j = 0; j < points.length; j++) edgesList.push(...)] *)
Definition build_edges (points : list (Point num)) : list (Edge num) :=
  map (edge_at points) (seq 0 (List.length points)).

(** [edges.map(e => ({pixelLength: e.pixelLength, realLength: null}))] *)
Definition pixel_measures (es : list (Edge num)) : list (EdgeMeasure num) :=
  map (fun e => {| m_pixelLength := pixelLength e; m_realLength := None |}) es.

(** [es.reduce((s, e) => s + e.pixelLength, 0)] *)
Definition sum_pixelLength (es : list (Edge num)) : num :=
  fold_left (fun s e => s + pixelLength e) es (lit 0).
End Polygon.

(** ** The detection pass: [detectContours] and [detectCoin] of
       [src/opencvUtils.js] *)

(** How an [async] function ends. *)
Inductive Completion (A : Type) : Type :=
| Returned (value : A)
| Thrown (message : string).
Arguments Returned {A} value.
Arguments Thrown {A} message.

Section Detection.
Context {num : Type} {JN : JSNumber num}.
Local Open Scope js_scope.

(** OpenCV is outside the repository.  A traced contour is known to the
    program by what the library answers about it. *)
Record Contour : Type := {
  contourArea : num;                       (* cv.contourArea(contour) *)
  boundingRect : Rect num;                 (* cv.boundingRect(contour) *)
  arcLength : num;                         (* cv.arcLength(contour, true) *)
  approxPolyDP : num -> list (Point num)   (* the rows cv.approxPolyDP(contour, approx, epsilon, true) writes *)
}.

(** What happens before the contour loop: [await initOpenCV()] may
    reject (outside [try]); loading and preprocessing may throw (inside
    [try]); otherwise [cv.findContours] has filled [contours]. *)
Inductive Capture : Type :=
| InitRejected (message : string)
| ProcessingThrew (message : string)
| Traced (canvasWidth canvasHeight : num) (contours : list Contour).

Definition palette8 : list string :=
  ["#3B82F6"; "#EF4444"; "#10B981"; "#F59E0B";
   "#8B5CF6"; "#EC4899"; "#06B6D4"; "#F97316"]%string.

(** FILTER 2 of [detectContours], COIN FILTER 3 of [detectCoin]:
    [imageBoundary = {left: 10, right: canvasWidth - 10, top: 10,
    bottom: canvasHeight - 10}]. *)
Definition touches_border (canvasWidth canvasHeight : num) (rect : Rect num) : bool :=
  let left := lit 10 in
  let right := canvasWidth - lit 10 in
  let top := lit 10 in
  let bottom := canvasHeight - lit 10 in
  (rect_x rect <=? left) || (rect_y rect <=? top) ||
  (rect_x rect + width rect >=? right) ||
  (rect_y rect + height rect >=? bottom).

(** One turn of the loop of [detectContours] on [contours.get(i)];
    [now] is the value of [Date.now()] in that turn.  A [continue]
    leaves [objects] as it is. *)
Definition detectContours_step (canvasWidth canvasHeight : num) (now : nat)
    (objects : list (DetectedObject num)) (i : nat) (contour : Contour)
  : list (DetectedObject num) :=
  let imageArea := canvasWidth * canvasHeight in
  let area := contourArea contour in
  if (area <? lit 3000) || (area >? imageArea * dec 5 1) then objects
  else
    let rect := boundingRect contour in
    if touches_border canvasWidth canvasHeight rect then objects
    else if (width rect <? lit 30) || (height rect <? lit 30) then objects
    else
      let epsilon := dec 15 3 * arcLength contour in
      let points := approxPolyDP contour epsilon in
      let perimeter := arcLength contour in
      let circularity := (lit 4 * Math_PI * area) / (perimeter * perimeter) in
      let aspectRatio := width rect / height rect in
      let isCoin' :=
        (circularity >? dec 60 2) && (area >? lit 2500) &&
        (area <? imageArea * dec 4 1) &&
        (aspectRatio >? dec 65 2) && (aspectRatio <? dec 135 2) in
      let edgesList := build_edges points in
      objects ++
      [ {| id := "obj_" ++ string_of_nat now ++ "_" ++ string_of_nat i;
           name := if isCoin' then "Coin"
                   else "Object " ++
                        string_of_nat
                          (List.length (filter (fun o => negb (isCoin o)) objects) + 1);
           color := nth (List.length objects mod 8) palette8 "";
           contour := rect;
           points := points;
           edges := edgesList;
           area := area;
           perimeter := perimeter;
           isCoin := isCoin';
           circularity := Some circularity;
           measurements :=
             {| m_edges := pixel_measures edgesList; m_perimeter := None |} |} ]%string.

(** [for (let i = 0; i < contours.size(); i++) ...] from index [i]. *)
Fixpoint detectContours_loop (canvasWidth canvasHeight : num) (Date_now : nat -> nat)
    (objects : list (DetectedObject num)) (i : nat) (contours : list Contour)
  : list (DetectedObject num) :=
  match contours with
  | [] => objects
  | contour :: rest =>
      detectContours_loop canvasWidth canvasHeight Date_now
        (detectContours_step canvasWidth canvasHeight (Date_now i) objects i contour)
        (S i) rest
  end.

(** [detectContours(imageDataUrl)] *)
Definition detectContours (Date_now : nat -> nat) (capture : Capture)
  : Completion (list (DetectedObject num)) :=
  match capture with
  | InitRejected message => Thrown message
  | ProcessingThrew message =>
      Thrown ("Contour detection failed during processing: " ++ message)
  | Traced canvasWidth canvasHeight contours =>
      Returned (detectContours_loop canvasWidth canvasHeight Date_now [] 0 contours)
  end.

(** [{pixelDiameter, found, message}] *)
Record CoinResult : Type := {
  pixelDiameter : option num;
  found : bool;
  message : string
}.

(** One turn of the loop of [detectCoin], on the pair
    [(coinDiameter, bestCircularity)]. *)
Definition detectCoin_step (canvasWidth canvasHeight : num)
    (st : option num * num) (contour : Contour) : option num * num :=
  let '(coinDiameter, bestCircularity) := st in
  let imageArea := canvasWidth * canvasHeight in
  let area := contourArea contour in
  if (area <? lit 3000) || (area >? imageArea * dec 4 1) then st
  else
    let rect := boundingRect contour in
    if (width rect <? lit 40) || (height rect <? lit 40) then st
    else if touches_border canvasWidth canvasHeight rect then st
    else
      let perimeter := arcLength contour in
      let circularity := (lit 4 * Math_PI * area) / (perimeter * perimeter) in
      let aspectRatio := width rect / height rect in
      if (circularity >? dec 45 2) && (aspectRatio >? dec 6 1) &&
         (aspectRatio <? dec 14 1)
      then
        if circularity >? bestCircularity
        then (Some (Math_max [width rect; height rect]), circularity)
        else st
      else st.

(** [detectCoin(imageDataUrl)] *)
Definition detectCoin (capture : Capture) : Completion CoinResult :=
  match capture with
  | InitRejected message => Thrown message
  | ProcessingThrew message =>
      Returned {| pixelDiameter := None; found := false;
                  message := "Coin detection failed during processing: " ++ message |}
  | Traced canvasWidth canvasHeight contours =>
      let '(coinDiameter, _) :=
        fold_left (detectCoin_step canvasWidth canvasHeight) contours (None, lit 0) in
      if truthy coinDiameter
      then Returned {| pixelDiameter := coinDiameter; found := true;
                       message := "Coin successfully detected for calibration." |}
      else Returned {| pixelDiameter := None; found := false;
                       message := "No suitable coin found for calibration." |}
  end.

(** A contour that passes every filter of [detectCoin]. *)
Definition coin_candidate (canvasWidth canvasHeight : num) (contour : Contour) : bool :=
  let imageArea := canvasWidth * canvasHeight in
  let area := contourArea contour in
  let rect := boundingRect contour in
  let perimeter := arcLength contour in
  let circularity := (lit 4 * Math_PI * area) / (perimeter * perimeter) in
  let aspectRatio := width rect / height rect in
  negb ((area <? lit 3000) || (area >? imageArea * dec 4 1)) &&
  negb ((width rect <? lit 40) || (height rect <? lit 40)) &&
  negb (touches_border canvasWidth canvasHeight rect) &&
  ((circularity >? dec 45 2) && (aspectRatio >? dec 6 1) && (aspectRatio <? dec 14 1)).
End Detection.

Arguments Contour : clear implicits.
Arguments Capture : clear implicits.
Arguments CoinResult : clear implicits.

(** ** Session state and the manual polygon builder:
       [src/hooks/useDetectionState.jsx] *)

Section Session.
Context {num : Type} {JN : JSNumber num}.
Local Open Scope js_scope.

(** [mode: 'select' | 'manual_coin' | 'create_object'] *)
Inductive Mode : Type := select | manual_coin | create_object.

(** The reference object the calibration actions put in front of the
    collection: [{id, name: 'Coin (Reference)', isCoin: true,
    pixelDistance, measurements: {diameter}, color, center}]. *)
Record CoinReference : Type := {
  ref_id : string;
  ref_name : string;
  ref_color : string;
  ref_pixelDistance : num;
  ref_center : option (Point num)
}.

(** A member of [state.objects]. *)
Inductive SessionObject : Type :=
| Reference (coin : CoinReference)
| Measured (obj : DetectedObject num).

(** [o.isCoin] *)
Definition so_isCoin (o : SessionObject) : bool :=
  match o with
  | Reference _ => true
  | Measured obj => isCoin obj
  end.

(** The part of the provider's state that the manual builder reads or
    writes; the image and the [processing] flags are carried along
    untouched by every updater below and are left out. *)
Record State : Type := {
  objects : list SessionObject;
  ppm : option num;
  coinDiameter : option num;
  mode : Mode;
  manualCoinPoints : list (Point num);
  creatingPoints : list (Point num)
}.

Definition palette5 : list string :=
  ["#3B82F6"; "#EF4444"; "#10B981"; "#F59E0B"; "#8B5CF6"]%string.

(** The first loop of [finishManualObject]: [perimeter += len] and
    [edges.push(...)], turn [i]. *)
Definition perimeter_step (pts : list (Point num))
    (acc : list (Edge num) * num) (i : nat) : list (Edge num) * num :=
  let '(edges, perimeter) := acc in
  let a := nth i pts origin in
  let b := nth ((i + 1) mod List.length pts) pts origin in
  let len := calculatePixelDistance a b in
  (edges ++ [ {| start := a; end_ := b; pixelLength := len; realLength := None |} ],
   perimeter + len).

(** The second loop: [area += pts[i].x * pts[j].y - pts[j].x * pts[i].y]
    with [j = (i + 1) % pts.length]. *)
Definition shoelace_step (pts : list (Point num)) (area : num) (i : nat) : num :=
  let j := (i + 1) mod List.length pts in
  area + (x (nth i pts origin) * y (nth j pts origin)
          - x (nth j pts origin) * y (nth i pts origin)).

(** The updater of [finishManualObject(points)]: the next state and the
    messages passed to [alert].  [points] is [null] (the default) or an
    array, and an array is truthy even when empty; [now] is the value of
    [Date.now()]. *)
Definition finishManualObject (now : nat) (points : option (list (Point num)))
    (prev : State) : State * list string :=
  let pts := match points with Some l => l | None => creatingPoints prev end in
  if (List.length pts <? 3)%nat then
    ({| objects := objects prev; ppm := ppm prev; coinDiameter := coinDiameter prev;
        mode := mode prev; manualCoinPoints := manualCoinPoints prev;
        creatingPoints := [] |},
     ["At least 3 points are needed to create an object"%string])
  else
    let xs := map x pts in
    let ys := map y pts in
    let minX := Math_min xs in
    let maxX := Math_max xs in
    let minY := Math_min ys in
    let maxY := Math_max ys in
    let '(edges', perimeter') :=
      fold_left (perimeter_step pts) (seq 0 (List.length pts)) ([], lit 0) in
    let area' :=
      Math_abs (fold_left (shoelace_step pts) (seq 0 (List.length pts)) (lit 0))
      / lit 2 in
    let nextIndex :=
      (List.length (filter (fun o => negb (so_isCoin o)) (objects prev)) + 1)%nat in
    let newObj :=
      {| id := "manual_" ++ string_of_nat now ++ "_" ++ string_of_nat nextIndex;
         name := "Object " ++ string_of_nat nextIndex;
         color := nth (nextIndex mod 5) palette5 "";
         contour := {| rect_x := minX; rect_y := minY;
                       width := maxX - minX; height := maxY - minY |};
         points := pts;
         edges := edges';
         area := area';
         perimeter := perimeter';
         isCoin := false;
         circularity := None;
         measurements :=
           {| m_edges := pixel_measures edges'; m_perimeter := Some perimeter' |} |}%string in
    let final :=
      if truthy (ppm prev) then applyPPMToObject newObj (ppm prev) else newObj in
    ({| objects := objects prev ++ [Measured final]; ppm := ppm prev;
        coinDiameter := coinDiameter prev; mode := select;
        manualCoinPoints := manualCoinPoints prev; creatingPoints := [] |},
     []).

(** The updater of [addManualObjectPoint(p)]: the state it returns and
    the calls of [finishManualObject] it makes, each of which queues an
    update of its own. *)
Definition addManualObjectPoint_updater (p : Point num) (prev : State)
  : State * list (list (Point num)) :=
  let pts := creatingPoints prev ++ [p] in
  let keep :=
    ({| objects := objects prev; ppm := ppm prev; coinDiameter := coinDiameter prev;
        mode := mode prev; manualCoinPoints := manualCoinPoints prev;
        creatingPoints := pts |}, []) in
  if (2 <? List.length pts)%nat then
    match pts with
    | first :: _ =>
        let dx := x p - x first in
        let dy := y p - y first in
        if Math_hypot dx dy <? lit 10 then
          ({| objects := objects prev; ppm := ppm prev;
              coinDiameter := coinDiameter prev; mode := mode prev;
              manualCoinPoints := manualCoinPoints prev; creatingPoints := [] |},
           [removelast pts])
        else keep
    | [] => keep
    end
  else keep.

(** [addManualObjectPoint(p)] once React has settled: its updater runs,
    then the updates queued by the calls it made, in order. *)
Definition addManualObjectPoint (now : nat) (p : Point num) (prev : State)
  : State * list string :=
  let '(s, queued) := addManualObjectPoint_updater p prev in
  fold_left
    (fun (acc : State * list string) pts =>
       let '(s', alerts') := finishManualObject now (Some pts) (fst acc) in
       (s', snd acc ++ alerts'))
    queued (s, []).

(** Clicking the points of [clicks] one after the other. *)
Definition addManualObjectPoints (now : nat) (clicks : list (Point num))
    (prev : State) : State * list string :=
  fold_left
    (fun (acc : State * list string) p =>
       let '(s', alerts') := addManualObjectPoint now p (fst acc) in
       (s', snd acc ++ alerts'))
    clicks (prev, []).
End Session.

Arguments CoinReference : clear implicits.
Arguments SessionObject : clear implicits.
Arguments State : clear implicits.

(** ** The closed loop of a polygon, as the specification words it *)

Section ClosedLoop.
Context {num : Type} {JN : JSNumber num}.
Local Open Scope js_scope.

(** Consecutive vertices paired in order, the last one with the first. *)
Definition closed_pairs (pts : list (Point num)) : list (Point num * Point num) :=
  match pts with
  | [] => []
  | first :: rest => combine pts (rest ++ [first])
  end.

(** One edge per consecutive pair. *)
Definition closed_edges (pts : list (Point num)) : list (Edge num) :=
  map (fun ab => {| start := fst ab; end_ := snd ab;
                    pixelLength := calculatePixelDistance (fst ab) (snd ab);
                    realLength := None |})
      (closed_pairs pts).

(** The sum of [x_i * y_(i+1) - x_(i+1) * y_i] over the closed loop,
    added up in vertex order from 0. *)
Definition shoelace_sum (pts : list (Point num)) : num :=
  fold_left (fun s ab => s + (x (fst ab) * y (snd ab) - x (snd ab) * y (fst ab)))
            (closed_pairs pts) (lit 0).
End ClosedLoop.

(** ** The older copy of the calibration module ([unnamed/part_000])

    The repository keeps earlier copies of [opencvUtils.js].  Two of their
    functions differ from the current module in what they hand back; they
    are kept here so that the difference is stated and not only remarked. *)

Module Legacy.
Section Legacy.
Context {num : Type} {JN : JSNumber num}.
Local Open Scope js_scope.

(** [applyPPMToObject(object, ppm)] of the older copy: the spread keeps
    [object.edges] as it is and only [measurements] is written. *)
Definition applyPPMToObject (object : DetectedObject num) (ppm : option num)
  : DetectedObject num :=
  match ppm with
  | None => object
  | Some p =>
      if falsy p || (p <=? lit 0) then object
      else
        let updatedEdges :=
          map (fun edge => with_realLength edge (round2 (pixelLength edge / p)))
              (edges object) in
        let realPerimeter := round2 (perimeter object / p) in
        {| id := id object; name := name object; color := color object;
           contour := contour object; points := points object;
           edges := edges object;
           area := area object; perimeter := perimeter object;
           isCoin := isCoin object; circularity := circularity object;
           measurements :=
             {| m_edges := map measure_of updatedEdges;
                m_perimeter := Some realPerimeter |} |}
  end.

(** The loop of the older [detectCoin]: the first contour with an area in
    [1000, 50000] and a circularity above 0.7 sets [coinDiameter] and
    [break]s. *)
Fixpoint detectCoin_loop (contours : list (Contour num)) : option num :=
  match contours with
  | [] => None
  | contour :: rest =>
      let area := contourArea contour in
      if (area <? lit 1000) || (area >? lit 50000) then detectCoin_loop rest
      else
        let perimeter := arcLength contour in
        let circularity := (lit 4 * Math_PI * area) / (perimeter * perimeter) in
        if circularity >? dec 7 1 then
          let rect := boundingRect contour in
          Some (Math_max [width rect; height rect])
        else detectCoin_loop rest
  end.

(** The older [detectCoin] once the contours are traced:
    [if (coinDiameter) resolve(coinDiameter); else reject(new Error('No coin
    detected'))]. *)
Definition detectCoin (contours : list (Contour num)) : Completion num :=
  match detectCoin_loop contours with
  | Some coinDiameter =>
      if falsy coinDiameter then Thrown "No coin detected" else Returned coinDiameter
  | None => Thrown "No coin detected"
  end.
End Legacy.
End Legacy.

(** ** What the detection pass records *)

Section Provenance.
Context {num : Type} {JN : JSNumber num}.
Local Open Scope js_scope.

(** The object [detectContours] pushes for a contour it accepts at turn
    [i], as far as the contour alone determines it ([name] and [color]
    depend on the objects pushed before). *)
Definition traced_from (canvasWidth canvasHeight : num) (Date_now : nat -> nat)
    (i : nat) (c : Contour num) (o : DetectedObject num) : Prop :=
  touches_border canvasWidth canvasHeight (boundingRect c) = false
  /\ id o = ("obj_" ++ string_of_nat (Date_now i) ++ "_" ++ string_of_nat i)%string
  /\ contour o = boundingRect c
  /\ points o = approxPolyDP c (dec 15 3 * arcLength c)
  /\ edges o = closed_edges (points o)
  /\ m_edges (measurements o) = pixel_measures (edges o)
  /\ area o = contourArea c
  /\ perimeter o = arcLength c
  /\ circularity o =
     Some ((lit 4 * Math_PI * contourArea c) / (arcLength c * arcLength c)).
End Provenance.

(** ** Sample inputs (binary64) *)

Module Sample.
Definition pt (a b : Z) : Point float := {| x := lit a; y := lit b |}.

(** The square [(0,0), (10,0), (10,10), (0,10)]. *)
Definition square10 : list (Point float) := [pt 0 0; pt 10 0; pt 10 10; pt 0 10].

(** The clicks [(0,0), (50,0), (50,50), (0,50), (2,1)]. *)
Definition clicks : list (Point float) :=
  [pt 0 0; pt 50 0; pt 50 50; pt 0 50; pt 2 1].

(** A session in which nothing was detected or calibrated yet. *)
Definition fresh : State float :=
  {| objects := []; ppm := None; coinDiameter := None; mode := create_object;
     manualCoinPoints := []; creatingPoints := [] |}.

(** An uncalibrated object over [square10]. *)
Definition square_object : DetectedObject float :=
  {| id := "obj_0_0"; name := "Object 1"; color := "#3B82F6";
     contour := {| rect_x := lit 0; rect_y := lit 0;
                   width := lit 10; height := lit 10 |};
     points := square10;
     edges := build_edges square10;
     area := lit 100; perimeter := lit 40;
     isCoin := false; circularity := None;
     measurements := {| m_edges := pixel_measures (build_edges square10);
                        m_perimeter := None |} |}.

(** The session after the first four of [clicks]. *)
Definition four_clicked : State float :=
  {| objects := []; ppm := None; coinDiameter := None; mode := create_object;
     manualCoinPoints := []; creatingPoints := firstn 4 clicks |}.

(** What OpenCV answers about a filled rectangle with corners (100,100)
    and (300,200) that carries a bump two pixels wide and one pixel high
    on its upper side: the traced outline
    (100,100) (199,100) (199,99) (201,99) (201,100) (300,100) (300,200)
    (100,200) is 602 pixels long, and with a tolerance of 1.5 percent of
    that length the simplified polygon keeps the four corners only. *)
Definition bumped_rectangle : Contour float :=
  {| contourArea := lit 20002;
     boundingRect := {| rect_x := lit 100; rect_y := lit 99;
                        width := lit 201; height := lit 102 |};
     arcLength := lit 602;
     approxPolyDP := fun _ => [pt 100 100; pt 300 100; pt 300 200; pt 100 200] |}.

(** A disc of radius 60 whose bounding rectangle starts in pixel column 0
    of a 500 x 500 image. *)
Definition disc_at_column0 : Contour float :=
  {| contourArea := lit 11310;
     boundingRect := {| rect_x := lit 0; rect_y := lit 190;
                        width := lit 120; height := lit 120 |};
     arcLength := lit 377;
     approxPolyDP := fun _ => [pt 0 250; pt 60 190; pt 119 250; pt 60 309] |}.

(** Over the reals: the side from (0,0) to (30,0), and the right triangle
    with sides 30, 40 and 50 that it belongs to. *)
Definition triangle_base : Edge R :=
  {| start := {| x := 0%R; y := 0%R |}; end_ := {| x := 30%R; y := 0%R |};
     pixelLength := 30%R; realLength := None |}.

Definition triangle : DetectedObject R :=
  let a := {| x := 0%R; y := 0%R |} in
  let b := {| x := 30%R; y := 0%R |} in
  let c := {| x := 30%R; y := 40%R |} in
  let es := [ triangle_base;
              {| start := b; end_ := c; pixelLength := 40%R; realLength := None |};
              {| start := c; end_ := a; pixelLength := 50%R; realLength := None |} ] in
  {| id := "manual_0_1"; name := "Object 1"; color := "#EF4444";
     contour := {| rect_x := 0%R; rect_y := 0%R; width := 30%R; height := 40%R |};
     points := [a; b; c];
     edges := es;
     area := 600%R; perimeter := 120%R;
     isCoin := false; circularity := None;
     measurements := {| m_edges := pixel_measures es; m_perimeter := None |} |}.
End Sample.

(** ** More of the session: the other updaters of
       [src/hooks/useDetectionState.jsx] and the click dispatch of
       [src/components/DetectionCanvas.jsx] *)

Section SessionActions.
Context {num : Type} {JN : JSNumber num}.
Local Open Scope js_scope.

(** [o.id] *)
Definition so_id (o : SessionObject num) : string :=
  match o with
  | Reference coin => ref_id coin
  | Measured obj => id obj
  end.

(** [setMode(m)]: [{...prev, mode: m}] *)
Definition setMode (m : Mode) (prev : State num) : State num :=
  {| objects := objects prev; ppm := ppm prev; coinDiameter := coinDiameter prev;
     mode := m; manualCoinPoints := manualCoinPoints prev;
     creatingPoints := creatingPoints prev |}.

(** [undoLastPoint()]:
    [{...prev, creatingPoints: prev.creatingPoints.slice(0, -1)}] *)
Definition undoLastPoint (prev : State num) : State num :=
  {| objects := objects prev; ppm := ppm prev; coinDiameter := coinDiameter prev;
     mode := mode prev; manualCoinPoints := manualCoinPoints prev;
     creatingPoints := removelast (creatingPoints prev) |}.

(** [deleteObject(id)]:
    [{...prev, objects: prev.objects.filter(o => o.id !== id)}] *)
Definition deleteObject (target : string) (prev : State num) : State num :=
  {| objects := filter (fun o => negb (String.eqb (so_id o) target)) (objects prev);
     ppm := ppm prev; coinDiameter := coinDiameter prev; mode := mode prev;
     manualCoinPoints := manualCoinPoints prev;
     creatingPoints := creatingPoints prev |}.

(** [o => cvUtils.applyPPMToObject(o, ppm)] on a member that passed
    [filter(o => !o.isCoin)]; a coin reference never reaches it. *)
Definition calibrate_member (scale : option num) (o : SessionObject num)
  : SessionObject num :=
  match o with
  | Measured obj => Measured (applyPPMToObject obj scale)
  | Reference coin => Reference coin
  end.

(** [prev.objects.filter(o => !o.isCoin).map(o =>
    cvUtils.applyPPMToObject(o, ppm))] *)
Definition calibrated_members (scale : option num) (members : list (SessionObject num))
  : list (SessionObject num) :=
  map (calibrate_member scale) (filter (fun o => negb (so_isCoin o)) members).

(** The updater of [setManualCoinPoints({x, y})]; [now] is the value of
    [Date.now()].  The reference object also carries
    [measurements: {diameter: COIN_DIAMETER_MM}], a constant. *)
Definition setManualCoinPoints (now : nat) (p : Point num) (prev : State num)
  : State num :=
  let pts := manualCoinPoints prev ++ [ {| x := x p; y := y p |} ] in
  if (List.length pts =? 2)%nat then
    let pixelDistance := calculatePixelDistance (nth 0 pts origin) (nth 1 pts origin) in
    let ppm' := calculatePPM pixelDistance in
    let coinObj :=
      {| ref_id := "coin_" ++ string_of_nat now;
         ref_name := "Coin (Reference)";
         ref_color := "#F59E0B";
         ref_pixelDistance := pixelDistance;
         ref_center :=
           Some {| x := (x (nth 0 pts origin) + x (nth 1 pts origin)) / lit 2;
                   y := (y (nth 0 pts origin) + y (nth 1 pts origin)) / lit 2 |} |}%string in
    let calibrated := calibrated_members (Some ppm') (objects prev) in
    {| objects := Reference coinObj :: calibrated; ppm := Some ppm';
       coinDiameter := Some pixelDistance; mode := select;
       manualCoinPoints := []; creatingPoints := creatingPoints prev |}
  else
    {| objects := objects prev; ppm := ppm prev; coinDiameter := coinDiameter prev;
       mode := mode prev; manualCoinPoints := pts;
       creatingPoints := creatingPoints prev |}.

(** [handleClick] of the canvas, from the point already converted to image
    coordinates: a click is a calibration point in mode ['manual_coin'], a
    polygon vertex in mode ['create_object'], and nothing otherwise. *)
Definition handleClick (now : nat) (p : Point num) (s : State num)
  : State num * list string :=
  match mode s with
  | manual_coin => (setManualCoinPoints now p s, [])
  | create_object => addManualObjectPoint now p s
  | select => (s, [])
  end.

(** Canvas clicks one after the other. *)
Definition handleClicks (now : nat) (clicks : list (Point num)) (s : State num)
  : State num * list string :=
  fold_left
    (fun (acc : State num * list string) p =>
       let '(s', alerts') := handleClick now p (fst acc) in
       (s', snd acc ++ alerts'))
    clicks (s, []).
End SessionActions.

(** ** Hit testing: [isPointInPolygon] of [unnamed/part_005] *)

Section HitTest.
Context {num : Type} {JN : JSNumber num}.
Local Open Scope js_scope.

(** [intersect] for the edge from [polygon[j]] to [polygon[i]]:
    [((yi > point.y) !== (yj > point.y)) &&
     (point.x < (xj - xi) * (point.y - yi) / (yj - yi) + xi)] *)
Definition intersect (point vi vj : Point num) : bool :=
  xorb (y vi >? y point) (y vj >? y point)
  && (x point <? (x vj - x vi) * (y point - y vi) / (y vj - y vi) + x vi).

(** One turn of [for (let i = 0, j = polygon.length - 1; i <
    polygon.length; j = i++)], on the pair [(inside, j)]. *)
Definition isPointInPolygon_step (point : Point num) (polygon : list (Point num))
    (st : bool * nat) (i : nat) : bool * nat :=
  let '(inside, j) := st in
  ((if intersect point (nth i polygon origin) (nth j polygon origin)
    then negb inside else inside), i).

(** [isPointInPolygon(point, polygon)] *)
Definition isPointInPolygon (point : Point num) (polygon : list (Point num)) : bool :=
  fst (fold_left (isPointInPolygon_step point polygon)
                 (seq 0 (List.length polygon))
                 (false, (List.length polygon - 1)%nat)).
End HitTest.

(** ** Invariants and measures used in the statements *)

Section Invariants.
Context {num : Type} {JN : JSNumber num}.
Local Open Scope js_scope.

(** An object is consistent when it has one edge per point, when
    [measurements.edges] repeats [pixelLength] and [realLength] of its edges
    in order, and when its edges are calibrated all together or not at
    all. *)
Definition consistent (obj : DetectedObject num) : Prop :=
  List.length (edges obj) = List.length (points obj)
  /\ m_edges (measurements obj) = map measure_of (edges obj)
  /\ (Forall (fun e => realLength e = None) (edges obj)
      \/ Forall (fun e => realLength e <> None) (edges obj)).

Definition member_consistent (o : SessionObject num) : Prop :=
  match o with
  | Reference _ => True
  | Measured obj => consistent obj
  end.

(** [4 * Math.PI * area / (perimeter * perimeter)] of a traced contour. *)
Definition circularity_of (c : Contour num) : num :=
  (lit 4 * Math_PI * contourArea c) / (arcLength c * arcLength c).

(** The five tests of the coin check of [detectContours], on the fields of
    an object it returned. *)
Definition coin_tests (canvasWidth canvasHeight : num) (o : DetectedObject num) : bool :=
  match circularity o with
  | None => false
  | Some circ =>
      (circ >? dec 60 2) && (area o >? lit 2500)
      && (area o <? canvasWidth * canvasHeight * dec 4 1)
      && (width (contour o) / height (contour o) >? dec 65 2)
      && (width (contour o) / height (contour o) <? dec 135 2)
  end.

(** The number of objects that are not coins. *)
Definition count_non_coins (objs : list (DetectedObject num)) : nat :=
  List.length (filter (fun o => negb (isCoin o)) objs).

(** What [detectContours] fixes about an object at the moment it pushes
    it, [before] being the objects pushed so far. *)
Definition pushed_after (canvasWidth canvasHeight : num)
    (before : list (DetectedObject num)) (o : DetectedObject num) : Prop :=
  color o = nth (List.length before mod 8) palette8 EmptyString
  /\ name o = (if isCoin o then "Coin"
               else "Object " ++ string_of_nat (count_non_coins before + 1))%string
  /\ isCoin o = coin_tests canvasWidth canvasHeight o
  /\ (area o <? lit 3000) = false
  /\ (area o >? canvasWidth * canvasHeight * dec 5 1) = false
  /\ (width (contour o) <? lit 30) = false
  /\ (height (contour o) <? lit 30) = false
  /\ edges o = closed_edges (points o)
  /\ measurements o = {| m_edges := pixel_measures (edges o); m_perimeter := None |}.

(** A contour that the older [detectCoin] takes. *)
Definition legacy_candidate (c : Contour num) : bool :=
  negb ((contourArea c <? lit 1000) || (contourArea c >? lit 50000))
  && (circularity_of c >? dec 7 1).

End Invariants.

(** ** More sample inputs *)

Module Sample2.
(** One uncalibrated square in the collection, calibration mode, no point
    picked yet. *)
Definition calibrating : State float :=
  {| objects := [Measured Sample.square_object]; ppm := None; coinDiameter := None;
     mode := manual_coin; manualCoinPoints := []; creatingPoints := [] |}.


(** Sessions calibrated at 10 and at 2 pixels per millimetre. *)
Definition calibrated : State float :=
  {| objects := []; ppm := Some (lit 10); coinDiameter := Some (lit 265);
     mode := create_object; manualCoinPoints := []; creatingPoints := [] |}.

(** Three clicked points whose x coordinates are 185.906, 837.6 and
    500. *)
Definition wide_clicks : list (Point float) :=
  [ {| x := dec 185906 3; y := lit 20 |}; {| x := dec 8376 1; y := lit 20 |};
    {| x := lit 500; y := lit 300 |} ].

(** A disc of radius 60 in the middle of a 500 x 500 image. *)
Definition disc : Contour float :=
  {| contourArea := lit 11310;
     boundingRect := {| rect_x := lit 190; rect_y := lit 190;
                        width := lit 120; height := lit 120 |};
     arcLength := lit 377;
     approxPolyDP := fun _ => [Sample.pt 190 250; Sample.pt 250 190;
                               Sample.pt 309 250; Sample.pt 250 309] |}.

(** What the pass traces in an image with the bumped rectangle and the
    disc. *)
Definition two_contours : list (Contour float) := [Sample.bumped_rectangle; disc].

(** What OpenCV answers about a filled square with corners (100,100) and
    (200,200): the outline encloses 100 x 100 pixels and is 400 long, and
    the bounding rectangle counts the pixels of both sides, 101 by 101. *)
Definition square : Contour float :=
  {| contourArea := lit 10000;
     boundingRect := {| rect_x := lit 100; rect_y := lit 100;
                        width := lit 101; height := lit 101 |};
     arcLength := lit 400;
     approxPolyDP := fun _ => [Sample.pt 100 100; Sample.pt 200 100;
                               Sample.pt 200 200; Sample.pt 100 200] |}.


(** The point (2^-600, 0), at a distance from the origin whose square is
    below the least positive binary64 number. *)
Definition close_point : Point float := {| x := 0x1p-600%float; y := lit 0 |}.

(** A rectangle one pixel wide between the heights -1.625 * 2^1023 and
    1.625 * 2^1023, and a point to its left at height 2^1023. *)
Definition tall_rectangle : list (Point float) :=
  [ {| x := lit 0; y := (-0x1.ap1023)%float |}; {| x := lit 1; y := (-0x1.ap1023)%float |};
    {| x := lit 1; y := 0x1.ap1023%float |}; {| x := lit 0; y := 0x1.ap1023%float |} ].

Definition far_left : Point float := {| x := lit (-1); y := 0x1p1023%float |}.

(** The least positive binary64 number, 2^-1074. *)
Definition tiny : float := 0x1p-1074%float.

(** An edge 1.115 pixels long, and an object it belongs to. *)
Definition short_edge : Edge float :=
  {| start := Sample.pt 0 0; end_ := {| x := dec 1115 3; y := lit 0 |};
     pixelLength := dec 1115 3; realLength := None |}.

Definition short_object : DetectedObject float :=
  let a := Sample.pt 0 0 in
  let b := {| x := dec 1115 3; y := lit 0 |} in
  let es := [ short_edge;
              {| start := b; end_ := a; pixelLength := dec 1115 3; realLength := None |} ] in
  {| id := "manual_0_1"; name := "Object 1"; color := "#EF4444";
     contour := {| rect_x := lit 0; rect_y := lit 0;
                   width := dec 1115 3; height := lit 0 |};
     points := [a; b];
     edges := es;
     area := lit 0; perimeter := dec 223 2;
     isCoin := false; circularity := None;
     measurements := {| m_edges := pixel_measures es; m_perimeter := None |} |}.
End Sample2.

(** * Properties *)

(** ** The two number instances satisfy the laws *)

#[export] Instance float_laws : JSNumberLaws float.
Proof.
  split; intros a; cbn [nlt nle falsy lit float_number];
    unfold F64.not, PrimFloat.is_zero, PrimFloat.is_nan;
    rewrite FloatAxioms.ltb_spec, ?FloatAxioms.eqb_spec, ?FloatAxioms.leb_spec;
    change (Prim2SF (F64.of_Z 0)) with (S754_zero false);
    change (Prim2SF PrimFloat.zero) with (S754_zero false);
    destruct (Prim2SF a) as [s|s| |s m e]; try destruct s; cbn;
    try discriminate; intros _; try reflexivity;
    rewrite Z.compare_refl, Pos.compare_refl; reflexivity.
Qed.

#[export] Instance real_laws : JSNumberLaws R.
Proof.
  split; intros a; cbn [nlt nle falsy lit real_number];
    unfold Exact.ltb, Exact.leb, Exact.not;
    destruct (Rlt_dec 0 a); try discriminate; intros _.
  - destruct (Req_dec_T a 0); [lra | reflexivity].
  - destruct (Rle_dec a 0); [lra | reflexivity].
Qed.

(** ** Applying a scale *)

Section CalibrationProperties.
Context {num : Type} {JN : JSNumber num} {JL : JSNumberLaws num}.
Local Open Scope js_scope.

Lemma applyPPMToObject_pos (obj : DetectedObject num) (p : num) :
  (lit 0 <? p) = true ->
  applyPPMToObject obj (Some p) =
  let updatedEdges :=
    map (fun edge => with_realLength edge (round2 (pixelLength edge / p))) (edges obj) in
  {| id := id obj; name := name obj; color := color obj;
     contour := contour obj; points := points obj;
     edges := updatedEdges;
     area := area obj; perimeter := perimeter obj;
     isCoin := isCoin obj; circularity := circularity obj;
     measurements :=
       {| m_edges := map measure_of updatedEdges;
          m_perimeter := Some (round2 (perimeter obj / p)) |} |}.
Proof.
  intros Hpos. unfold applyPPMToObject.
  rewrite (pos_truthy _ Hpos), (pos_not_le _ Hpos). reflexivity.
Qed.

(** Whatever the scale, only [realLength] and [measurements] can differ. *)
Lemma applyPPMToObject_same_frame (obj : DetectedObject num) (ppm : option num) :
  let r := applyPPMToObject obj ppm in
  id r = id obj /\ name r = name obj /\ color r = color obj
  /\ contour r = contour obj /\ points r = points obj
  /\ area r = area obj /\ perimeter r = perimeter obj
  /\ isCoin r = isCoin obj /\ circularity r = circularity obj
  /\ map start (edges r) = map start (edges obj)
  /\ map (@end_ num) (edges r) = map (@end_ num) (edges obj)
  /\ map pixelLength (edges r) = map pixelLength (edges obj).
Proof.
  unfold applyPPMToObject. destruct ppm as [p|]; [|cbn; repeat split; reflexivity].
  destruct (falsy p || (p <=? lit 0)); cbn; rewrite ?map_map; cbn;
    repeat split; reflexivity.
Qed.

Lemma scaled_edges_from_pixels (es es' : list (Edge num)) (f : num -> num) :
  map start es = map start es' -> map (@end_ num) es = map (@end_ num) es' ->
  map pixelLength es = map pixelLength es' ->
  map (fun e => with_realLength e (f (pixelLength e))) es =
  map (fun e => with_realLength e (f (pixelLength e))) es'.
Proof.
  revert es'. induction es as [|e es IH]; intros [|e' es']; cbn; try discriminate.
  - reflexivity.
  - intros Hs He Hp. injection Hs as Hs1 Hs2. injection He as He1 He2.
    injection Hp as Hp1 Hp2. f_equal; [|now apply IH].
    unfold with_realLength. now rewrite Hs1, He1, Hp1.
Qed.

(** C1.  For a scale above zero, [applyPPMToObject] gives every edge, in
    place and in [measurements.edges], the [realLength]
    [Math.round((pixelLength / ppm) * 100) / 100], and gives
    [measurements.perimeter] the value
    [Math.round((perimeter / ppm) * 100) / 100].  The result is computed
    from [pixelLength] and [perimeter] alone: it is the same when every
    stored [realLength] is forgotten first, and the same after any earlier
    application of a scale. *)
Theorem applyPPMToObject_scales (obj : DetectedObject num) (ppm : num) :
  (lit 0 <? ppm) = true ->
  let r := applyPPMToObject obj (Some ppm) in
  List.length (edges r) = List.length (edges obj)
  /\ (forall i e, nth_error (edges obj) i = Some e ->
        exists e', nth_error (edges r) i = Some e'
                   /\ realLength e' = Some (round2 (pixelLength e / ppm))
                   /\ nth_error (m_edges (measurements r)) i =
                      Some {| m_pixelLength := pixelLength e;
                              m_realLength := Some (round2 (pixelLength e / ppm)) |})
  /\ m_perimeter (measurements r) = Some (round2 (perimeter obj / ppm))
  /\ r = applyPPMToObject (uncalibrated obj) (Some ppm)
  /\ (forall earlier, applyPPMToObject (applyPPMToObject obj earlier) (Some ppm) = r).
Proof.
  intros Hpos r. subst r. split; [|split; [|split; [|split]]].
  - rewrite applyPPMToObject_pos by exact Hpos. cbn. now rewrite length_map.
  - intros i e Hi. rewrite applyPPMToObject_pos by exact Hpos. cbn.
    eexists. split; [|split].
    + rewrite nth_error_map, Hi. reflexivity.
    + reflexivity.
    + rewrite !nth_error_map, Hi. reflexivity.
  - rewrite applyPPMToObject_pos by exact Hpos. reflexivity.
  - rewrite !applyPPMToObject_pos by exact Hpos. cbn. rewrite !map_map. reflexivity.
  - intros earlier. rewrite !applyPPMToObject_pos by exact Hpos.
    destruct (applyPPMToObject_same_frame obj earlier)
      as (Hid & Hname & Hcolor & Hcontour & Hpoints & Harea & Hper & Hcoin & Hcirc
          & Hstart & Hend & Hpx).
    cbv zeta in *.
    rewrite (scaled_edges_from_pixels _ _ (fun l => round2 (l / ppm)) Hstart Hend Hpx).
    rewrite Hid, Hname, Hcolor, Hcontour, Hpoints, Harea, Hper, Hcoin, Hcirc.
    reflexivity.
Qed.

(** C3.  With [null], or with a scale that is zero or negative,
    [applyPPMToObject] returns the object it was given: no field changes,
    so every [realLength] keeps the value it had ([null] where it was
    [null]). *)
Theorem applyPPMToObject_noop (obj : DetectedObject num) (ppm : option num) :
  (forall p, ppm = Some p -> (p <=? lit 0) = true) ->
  applyPPMToObject obj ppm = obj
  /\ map realLength (edges (applyPPMToObject obj ppm)) = map realLength (edges obj).
Proof.
  intros Hle.
  assert (H : applyPPMToObject obj ppm = obj).
  { unfold applyPPMToObject. destruct ppm as [p|]; [|reflexivity].
    rewrite (Hle p eq_refl), orb_true_r. reflexivity. }
  now rewrite H.
Qed.

(** C10.  For a scale above zero, [applyPPMToObject] writes only [edges]
    and [measurements]: [id], [name], [color], [contour], [points],
    [area], [perimeter], [isCoin] and [circularity] are those of the
    input, and every edge keeps its [start], [end] and [pixelLength]. *)
Theorem applyPPMToObject_frame (obj : DetectedObject num) (ppm : num) :
  (lit 0 <? ppm) = true ->
  let r := applyPPMToObject obj (Some ppm) in
  id r = id obj /\ name r = name obj /\ color r = color obj
  /\ contour r = contour obj /\ points r = points obj
  /\ area r = area obj /\ perimeter r = perimeter obj
  /\ isCoin r = isCoin obj /\ circularity r = circularity obj
  /\ map start (edges r) = map start (edges obj)
  /\ map (@end_ num) (edges r) = map (@end_ num) (edges obj)
  /\ map pixelLength (edges r) = map pixelLength (edges obj).
Proof.
  intros _. exact (applyPPMToObject_same_frame obj (Some ppm)).
Qed.
End CalibrationProperties.

(** ** The index loops walk the closed loop *)

Section ClosedLoopProperties.
Context {num : Type} {JN : JSNumber num}.
Local Open Scope js_scope.

Lemma map_nth_pair_seq (A : Type) (l1 l2 : list A) (d : A) :
  List.length l2 = List.length l1 ->
  map (fun j => (nth j l1 d, nth j l2 d)) (seq 0 (List.length l1)) = combine l1 l2.
Proof.
  revert l2. induction l1 as [|a l1 IH]; intros [|b l2] Hlen; try discriminate.
  - reflexivity.
  - cbn [List.length seq map nth combine]. f_equal.
    rewrite <- seq_shift, map_map. apply IH. now injection Hlen.
Qed.

(** [points[(j + 1) % n]] is entry [j] of the vertices rotated by one. *)
Lemma nth_successor (first : Point num) (rest : list (Point num)) (j : nat) :
  (j < S (List.length rest))%nat ->
  nth ((j + 1) mod S (List.length rest)) (first :: rest) origin =
  nth j (rest ++ [first]) origin.
Proof.
  intros Hj. destruct (Nat.eq_dec j (List.length rest)) as [->|Hne].
  - replace (List.length rest + 1)%nat with (S (List.length rest)) by lia.
    rewrite Nat.Div0.mod_same, app_nth2, Nat.sub_diag by lia. reflexivity.
  - rewrite Nat.mod_small by lia. rewrite app_nth1 by lia.
    replace (j + 1)%nat with (S j) by lia. reflexivity.
Qed.

Lemma index_pairs_closed (pts : list (Point num)) :
  map (fun j => (nth j pts origin, nth ((j + 1) mod List.length pts) pts origin))
      (seq 0 (List.length pts)) = closed_pairs pts.
Proof.
  destruct pts as [|first rest]; [reflexivity|].
  unfold closed_pairs. set (pts := first :: rest).
  assert (Hlen : List.length (rest ++ [first]) = List.length pts)
    by (rewrite length_app; cbn; lia).
  transitivity
    (map (fun j => (nth j pts origin, nth j (rest ++ [first]) origin))
         (seq 0 (List.length pts))).
  - apply map_ext_in. intros j Hj. apply in_seq in Hj. f_equal.
    apply nth_successor. cbn in Hj. lia.
  - now apply map_nth_pair_seq.
Qed.

Lemma build_edges_closed (pts : list (Point num)) :
  build_edges pts = closed_edges pts.
Proof.
  unfold build_edges, closed_edges. rewrite <- index_pairs_closed, map_map.
  reflexivity.
Qed.

Lemma fold_left_map_in (A B C : Type) (g : A -> C -> A) (h : B -> C) (l : list B) (a : A) :
  fold_left (fun acc j => g acc (h j)) l a = fold_left g (map h l) a.
Proof.
  revert a. induction l as [|j l IH]; intros a; [reflexivity|]. cbn. apply IH.
Qed.

Lemma perimeter_loop (pts : list (Point num)) (l : list nat)
    (es : list (Edge num)) (s : num) :
  fold_left (perimeter_step pts) l (es, s) =
  (es ++ map (edge_at pts) l,
   fold_left (fun s e => s + pixelLength e) (map (edge_at pts) l) s).
Proof.
  revert es s. induction l as [|j l IH]; intros es s; cbn [fold_left map].
  - now rewrite app_nil_r.
  - unfold perimeter_step at 2. rewrite IH, <- app_assoc. reflexivity.
Qed.

(** The first loop of [finishManualObject] yields the edges of the closed
    loop and the sum of their lengths. *)
Lemma perimeter_loop_closed (pts : list (Point num)) :
  fold_left (perimeter_step pts) (seq 0 (List.length pts)) ([], lit 0) =
  (closed_edges pts, sum_pixelLength (closed_edges pts)).
Proof.
  rewrite perimeter_loop. fold (build_edges pts). rewrite build_edges_closed.
  reflexivity.
Qed.

(** The second loop yields the shoelace sum over the closed loop. *)
Lemma shoelace_loop_closed (pts : list (Point num)) :
  fold_left (shoelace_step pts) (seq 0 (List.length pts)) (lit 0) = shoelace_sum pts.
Proof.
  unfold shoelace_sum. rewrite <- index_pairs_closed.
  rewrite <- (fold_left_map_in
                (fun s ab => s + (x (fst ab) * y (snd ab) - x (snd ab) * y (fst ab)))
                (fun j => (nth j pts origin,
                           nth ((j + 1) mod List.length pts) pts origin))).
  reflexivity.
Qed.
End ClosedLoopProperties.

(** ** The detection pass *)

Section DetectionProperties.
Context {num : Type} {JN : JSNumber num}.
Local Open Scope js_scope.

Variables canvasWidth canvasHeight : num.
Variable Date_now : nat -> nat.

Local Abbreviation step := (detectContours_step canvasWidth canvasHeight).
Local Abbreviation loop := (detectContours_loop canvasWidth canvasHeight Date_now).

(** A turn either skips the contour or pushes one object traced from it. *)
Lemma detectContours_step_cases (now : nat) (objects : list (DetectedObject num))
    (i : nat) (c : Contour num) :
  step now objects i c = objects
  \/ exists o, step now objects i c = objects ++ [o]
               /\ touches_border canvasWidth canvasHeight (boundingRect c) = false
               /\ id o = ("obj_" ++ string_of_nat now ++ "_" ++ string_of_nat i)%string
               /\ contour o = boundingRect c
               /\ points o = approxPolyDP c (dec 15 3 * arcLength c)
               /\ edges o = closed_edges (points o)
               /\ m_edges (measurements o) = pixel_measures (edges o)
               /\ area o = contourArea c
               /\ perimeter o = arcLength c
               /\ circularity o =
                  Some ((lit 4 * Math_PI * contourArea c) / (arcLength c * arcLength c)).
Proof.
  unfold detectContours_step.
  destruct ((contourArea c <? lit 3000)
            || (contourArea c >? canvasWidth * canvasHeight * dec 5 1));
    [now left|].
  destruct (touches_border canvasWidth canvasHeight (boundingRect c)) eqn:Hborder;
    [now left|].
  destruct ((width (boundingRect c) <? lit 30) || (height (boundingRect c) <? lit 30));
    [now left|].
  right. eexists. split; [reflexivity|]. cbn.
  rewrite build_edges_closed. repeat split; reflexivity.
Qed.

Lemma detectContours_step_border (now : nat) (objects : list (DetectedObject num))
    (i : nat) (c : Contour num) :
  touches_border canvasWidth canvasHeight (boundingRect c) = true ->
  step now objects i c = objects.
Proof.
  intros Hborder. unfold detectContours_step. rewrite Hborder.
  destruct ((contourArea c <? lit 3000)
            || (contourArea c >? canvasWidth * canvasHeight * dec 5 1));
    reflexivity.
Qed.

Lemma detectContours_loop_app (objects : list (DetectedObject num)) (i : nat)
    (before after : list (Contour num)) :
  loop objects i (before ++ after) =
  loop (loop objects i before) (i + List.length before) after.
Proof.
  revert objects i. induction before as [|c before IH]; intros objects i; cbn.
  - now rewrite Nat.add_0_r.
  - rewrite IH. f_equal. lia.
Qed.

(** Every object of the result is either one the loop started with or was
    traced from the contour of some turn. *)
Lemma detectContours_loop_provenance (contours : list (Contour num)) :
  forall (objects : list (DetectedObject num)) (i : nat) (o : DetectedObject num),
    In o (loop objects i contours) ->
    In o objects
    \/ exists j c, nth_error contours j = Some c
                   /\ traced_from canvasWidth canvasHeight Date_now (i + j) c o.
Proof.
  induction contours as [|c contours IH]; intros objects i o Hin; cbn in Hin.
  - now left.
  - apply IH in Hin. destruct Hin as [Hin | (j & c' & Hj & Hfrom)].
    + destruct (detectContours_step_cases (Date_now i) objects i c)
        as [Heq | (o' & Heq & Hrest)]; rewrite Heq in Hin.
      * now left.
      * apply in_app_or in Hin. destruct Hin as [Hin | [<- | []]]; [now left|].
        right. exists 0%nat, c. split; [reflexivity|].
        rewrite Nat.add_0_r. exact Hrest.
    + right. exists (S j), c'. split; [exact Hj|].
      replace (i + S j)%nat with (S i + j)%nat by lia. exact Hfrom.
Qed.

(** C9.  A contour whose bounding rectangle reaches the 10-pixel margin of
    the image ([x <= 10], [y <= 10], [x + width >= canvasWidth - 10] or
    [y + height >= canvasHeight - 10]) is skipped whatever its area and
    circularity: the pass goes on exactly as if that turn had not taken
    place, and no object of the result has such a bounding rectangle. *)
Theorem border_contour_rejected (before after : list (Contour num)) (c : Contour num) :
  touches_border canvasWidth canvasHeight (boundingRect c) = true ->
  detectContours Date_now (Traced canvasWidth canvasHeight (before ++ c :: after)) =
    Returned (loop (loop [] 0%nat before) (S (List.length before)) after)
  /\ forall result o,
       detectContours Date_now (Traced canvasWidth canvasHeight (before ++ c :: after)) =
         Returned result ->
       In o result ->
       touches_border canvasWidth canvasHeight (contour o) = false.
Proof.
  intros Hborder. split.
  - cbn [detectContours]. f_equal. rewrite detectContours_loop_app.
    cbn [detectContours_loop Nat.add].
    rewrite detectContours_step_border by exact Hborder. reflexivity.
  - intros result o Hresult Hin. cbn [detectContours] in Hresult.
    injection Hresult as <-.
    apply detectContours_loop_provenance in Hin.
    destruct Hin as [[] | (j & c' & _ & Hno & _ & Hrect & _)].
    now rewrite Hrect.
Qed.

(** C4, as the code has it.  Every object [detectContours] returns was
    traced from one of the contours: its [perimeter] is the arc length of
    that contour, which is also what its [circularity] is computed from;
    its [points] are the vertices of the simplified polygon, and its
    [edges] join consecutive vertices, the last one back to the first. *)
Theorem detectContours_perimeter_is_arcLength (contours : list (Contour num))
    (result : list (DetectedObject num)) (o : DetectedObject num) :
  detectContours Date_now (Traced canvasWidth canvasHeight contours) = Returned result ->
  In o result ->
  exists i c,
    nth_error contours i = Some c
    /\ perimeter o = arcLength c
    /\ circularity o =
       Some ((lit 4 * Math_PI * contourArea c) / (perimeter o * perimeter o))
    /\ points o = approxPolyDP c (dec 15 3 * arcLength c)
    /\ edges o = closed_edges (points o)
    /\ m_edges (measurements o) = pixel_measures (edges o).
Proof.
  intros Hresult Hin. cbn [detectContours] in Hresult. injection Hresult as <-.
  apply detectContours_loop_provenance in Hin.
  destruct Hin as [[] | (j & c & Hj & _ & _ & _ & Hpts & Hedges & Hm & _ & Hper & Hcirc)].
  exists j, c. rewrite Hper. repeat split; assumption.
Qed.
End DetectionProperties.

(** ** The coin search *)

Section CoinProperties.
Context {num : Type} {JN : JSNumber num}.
Local Open Scope js_scope.

Lemma detectCoin_step_skips (canvasWidth canvasHeight : num)
    (st : option num * num) (c : Contour num) :
  coin_candidate canvasWidth canvasHeight c = false ->
  detectCoin_step canvasWidth canvasHeight st c = st.
Proof.
  unfold coin_candidate, detectCoin_step. destruct st as [coinDiameter best].
  destruct ((contourArea c <? lit 3000)
            || (contourArea c >? canvasWidth * canvasHeight * dec 4 1));
    [reflexivity|].
  destruct ((width (boundingRect c) <? lit 40) || (height (boundingRect c) <? lit 40));
    [reflexivity|].
  destruct (touches_border canvasWidth canvasHeight (boundingRect c)); [reflexivity|].
  cbn [negb andb]. intros ->. reflexivity.
Qed.

Lemma detectCoin_loop_skips (canvasWidth canvasHeight : num)
    (contours : list (Contour num)) (st : option num * num) :
  (forall c, In c contours -> coin_candidate canvasWidth canvasHeight c = false) ->
  fold_left (detectCoin_step canvasWidth canvasHeight) contours st = st.
Proof.
  revert st. induction contours as [|c contours IH]; intros st Hnone; [reflexivity|].
  cbn [fold_left]. rewrite detectCoin_step_skips by (apply Hnone; now left).
  apply IH. intros c' Hin. apply Hnone. now right.
Qed.

(** X9.  Whatever was traced, and also when processing threw, [detectCoin]
    returns a value; [found] tells whether it carries a diameter. *)
Lemma detectCoin_returns (capture : Capture num) :
  (forall message, capture <> InitRejected message) ->
  exists r, detectCoin capture = Returned r
            /\ (found r = false -> pixelDiameter r = None)
            /\ (found r = true -> exists d, pixelDiameter r = Some d /\ falsy d = false).
Proof.
  intros Hinit. destruct capture as [m|m|w h cs].
  - now destruct (Hinit m).
  - eexists. split; [reflexivity|]. cbn. split; [reflexivity|discriminate].
  - cbn [detectCoin].
    destruct (fold_left (detectCoin_step w h) cs (None, lit 0)) as [coinDiameter best].
    destruct coinDiameter as [d|]; cbn [truthy].
    + destruct (falsy d) eqn:Hd; cbn [negb]; eexists; (split; [reflexivity|]); cbn.
      * split; [reflexivity|discriminate].
      * split; [discriminate|]. intros _. now exists d.
    + eexists. split; [reflexivity|]. cbn. split; [reflexivity|discriminate].
Qed.

(** C5.  When no traced contour passes the filters of [detectCoin], the
    call completes by returning [{pixelDiameter: null, found: false,
    message: 'No suitable coin found for calibration.'}]; nothing is
    thrown. *)
Theorem detectCoin_not_found (canvasWidth canvasHeight : num)
    (contours : list (Contour num)) :
  (forall c, In c contours -> coin_candidate canvasWidth canvasHeight c = false) ->
  detectCoin (Traced canvasWidth canvasHeight contours) =
  Returned {| pixelDiameter := None; found := false;
              message := "No suitable coin found for calibration." |}.
Proof.
  intros Hnone. cbn [detectCoin]. rewrite detectCoin_loop_skips by exact Hnone.
  reflexivity.
Qed.
End CoinProperties.

(** ** The older copy *)

Section LegacyProperties.
Context {num : Type} {JN : JSNumber num}.
Local Open Scope js_scope.

(** X27.  The older [applyPPMToObject] leaves [edges], and so every
    [edge.realLength], as it was; what it writes into [measurements] is
    what the current module writes there. *)
Lemma legacy_applyPPMToObject_keeps_edges (obj : DetectedObject num) (ppm : option num) :
  edges (Legacy.applyPPMToObject obj ppm) = edges obj
  /\ measurements (Legacy.applyPPMToObject obj ppm) = measurements (applyPPMToObject obj ppm).
Proof.
  unfold Legacy.applyPPMToObject, applyPPMToObject.
  destruct ppm as [p|]; [|now split].
  destruct (falsy p || (p <=? lit 0)); now split.
Qed.

(** With nothing traced the older [detectCoin] rejects. *)
Lemma legacy_detectCoin_rejects :
  Legacy.detectCoin (@nil (Contour num)) = Thrown "No coin detected".
Proof. reflexivity. Qed.
End LegacyProperties.

(** ** The manual polygon builder *)

Section SessionProperties.
Context {num : Type} {JN : JSNumber num}.
Local Open Scope js_scope.

(** [{...prev, creatingPoints: []}] *)
Lemma finishManualObject_short (now : nat) (points : option (list (Point num)))
    (prev : State num) :
  (List.length (match points with Some l => l | None => creatingPoints prev end) < 3)%nat ->
  finishManualObject now points prev =
  ({| objects := objects prev; ppm := ppm prev; coinDiameter := coinDiameter prev;
      mode := mode prev; manualCoinPoints := manualCoinPoints prev;
      creatingPoints := [] |},
   ["At least 3 points are needed to create an object"%string]).
Proof.
  intros Hlen. unfold finishManualObject.
  apply Nat.ltb_lt in Hlen. rewrite Hlen. reflexivity.
Qed.

(** The object built from at least three points, before a scale is
    applied to it. *)
Lemma finishManualObject_builds (now : nat) (pts : list (Point num)) (prev : State num) :
  (3 <= List.length pts)%nat ->
  exists newObj,
    finishManualObject now (Some pts) prev =
    ({| objects :=
          objects prev ++
          [Measured (if truthy (ppm prev) then applyPPMToObject newObj (ppm prev)
                     else newObj)];
        ppm := ppm prev; coinDiameter := coinDiameter prev; mode := select;
        manualCoinPoints := manualCoinPoints prev; creatingPoints := [] |}, [])
    /\ points newObj = pts
    /\ isCoin newObj = false
    /\ edges newObj = closed_edges pts
    /\ perimeter newObj = sum_pixelLength (closed_edges pts)
    /\ area newObj = Math_abs (shoelace_sum pts) / lit 2
    /\ contour newObj =
       {| rect_x := Math_min (map x pts); rect_y := Math_min (map y pts);
          width := Math_max (map x pts) - Math_min (map x pts);
          height := Math_max (map y pts) - Math_min (map y pts) |}.
Proof.
  intros Hlen. unfold finishManualObject.
  assert (Hge : (List.length pts <? 3)%nat = false) by (apply Nat.ltb_ge; lia).
  rewrite Hge, perimeter_loop_closed, shoelace_loop_closed.
  eexists. split; [reflexivity|]. cbn. repeat split; reflexivity.
Qed.

(** C6.  From at least three points [finishManualObject] appends one
    object to the collection.  Its [points] are the given ones; its [area]
    is [Math.abs] of the shoelace sum over the closed loop, halved; its
    edges join consecutive points, the last one back to the first, each
    with the Euclidean length of its segment as [pixelLength]; its
    [perimeter] is the sum of these lengths; its bounding rectangle runs
    from the least to the greatest [x] and [y] among the points. *)
Theorem finishManualObject_geometry (now : nat) (pts : list (Point num))
    (prev : State num) :
  (3 <= List.length pts)%nat ->
  exists obj,
    objects (fst (finishManualObject now (Some pts) prev)) = objects prev ++ [Measured obj]
    /\ snd (finishManualObject now (Some pts) prev) = []
    /\ points obj = pts
    /\ isCoin obj = false
    /\ area obj = Math_abs (shoelace_sum pts) / lit 2
    /\ perimeter obj = sum_pixelLength (closed_edges pts)
    /\ map start (edges obj) = map fst (closed_pairs pts)
    /\ map (@end_ num) (edges obj) = map snd (closed_pairs pts)
    /\ map pixelLength (edges obj) =
       map (fun ab => calculatePixelDistance (fst ab) (snd ab)) (closed_pairs pts)
    /\ contour obj =
       {| rect_x := Math_min (map x pts); rect_y := Math_min (map y pts);
          width := Math_max (map x pts) - Math_min (map x pts);
          height := Math_max (map y pts) - Math_min (map y pts) |}.
Proof.
  intros Hlen.
  destruct (@finishManualObject_builds now pts prev Hlen)
    as (newObj & Heq & Hpts & Hcoin & Hedges & Hper & Harea & Hrect).
  rewrite Heq. cbn [fst snd objects]. eexists. split; [reflexivity|].
  split; [reflexivity|].
  assert (Hframe :
    let r := if truthy (ppm prev) then applyPPMToObject newObj (ppm prev) else newObj in
    points r = points newObj /\ isCoin r = isCoin newObj /\ area r = area newObj
    /\ perimeter r = perimeter newObj /\ contour r = contour newObj
    /\ map start (edges r) = map start (edges newObj)
    /\ map (@end_ num) (edges r) = map (@end_ num) (edges newObj)
    /\ map pixelLength (edges r) = map pixelLength (edges newObj)).
  { destruct (truthy (ppm prev)); cbv zeta; [|repeat split; reflexivity].
    destruct (applyPPMToObject_same_frame newObj (ppm prev))
      as (_ & _ & _ & H4 & H5 & H6 & H7 & H8 & _ & H10 & H11 & H12).
    repeat split; assumption. }
  cbv zeta in Hframe.
  destruct Hframe as (F1 & F2 & F3 & F4 & F5 & F6 & F7 & F8).
  rewrite F1, F2, F3, F4, F5, F6, F7, F8, Hpts, Hcoin, Harea, Hper, Hrect, Hedges.
  unfold closed_edges. rewrite !map_map. cbn. repeat split; reflexivity.
Qed.

(** C7.  With fewer than three points [finishManualObject] stops at its
    first check: it raises the alert "At least 3 points are needed to
    create an object" and returns the previous state with only
    [creatingPoints] emptied, so the collection of objects is the one it
    was. *)
Theorem finishManualObject_rejects (now : nat) (points : option (list (Point num)))
    (prev : State num) :
  (List.length (match points with Some l => l | None => creatingPoints prev end) < 3)%nat ->
  objects (fst (finishManualObject now points prev)) = objects prev
  /\ snd (finishManualObject now points prev) =
     ["At least 3 points are needed to create an object"%string]
  /\ ppm (fst (finishManualObject now points prev)) = ppm prev
  /\ mode (fst (finishManualObject now points prev)) = mode prev
  /\ creatingPoints (fst (finishManualObject now points prev)) = [].
Proof.
  intros Hlen. rewrite finishManualObject_short by exact Hlen.
  cbn. repeat split; reflexivity.
Qed.

(** C8.  When the point just added makes more than two and lies less than
    10 pixels from the first one, [addManualObjectPoint] empties
    [creatingPoints] and finishes the polygon with the points gathered
    before it, the closing point left out; with three or more of them the
    object appended to the collection has exactly these points. *)
Theorem addManualObjectPoint_closes (now : nat) (p first : Point num)
    (rest : list (Point num)) (prev : State num) :
  creatingPoints prev = first :: rest ->
  (2 < List.length (creatingPoints prev ++ [p]))%nat ->
  (Math_hypot (x p - x first) (y p - y first) <? lit 10) = true ->
  addManualObjectPoint now p prev =
    finishManualObject now (Some (creatingPoints prev))
      {| objects := objects prev; ppm := ppm prev; coinDiameter := coinDiameter prev;
         mode := mode prev; manualCoinPoints := manualCoinPoints prev;
         creatingPoints := [] |}
  /\ ((3 <= List.length (creatingPoints prev))%nat ->
      exists obj,
        objects (fst (addManualObjectPoint now p prev)) = objects prev ++ [Measured obj]
        /\ points obj = creatingPoints prev
        /\ creatingPoints (fst (addManualObjectPoint now p prev)) = []).
Proof.
  intros Hcreating Hlen Hnear.
  assert (Heq : addManualObjectPoint now p prev =
                finishManualObject now (Some (creatingPoints prev))
                  {| objects := objects prev; ppm := ppm prev;
                     coinDiameter := coinDiameter prev; mode := mode prev;
                     manualCoinPoints := manualCoinPoints prev;
                     creatingPoints := [] |}).
  { unfold addManualObjectPoint, addManualObjectPoint_updater.
    apply Nat.ltb_lt in Hlen. rewrite Hlen.
    rewrite removelast_last. rewrite Hcreating at 1. cbn [app].
    rewrite Hnear. cbn [fold_left fst snd app].
    destruct (finishManualObject now (Some (creatingPoints prev)) _) as [s' alerts'].
    reflexivity. }
  split; [exact Heq|]. intros Hthree. rewrite Heq.
  destruct (@finishManualObject_builds now (creatingPoints prev)
              {| objects := objects prev; ppm := ppm prev;
                 coinDiameter := coinDiameter prev; mode := mode prev;
                 manualCoinPoints := manualCoinPoints prev; creatingPoints := [] |}
              Hthree) as (newObj & Hfin & Hpts & _).
  rewrite Hfin. cbn [fst objects ppm creatingPoints].
  eexists. split; [reflexivity|]. split; [|reflexivity].
  destruct (truthy (ppm prev)); [|exact Hpts].
  destruct (applyPPMToObject_same_frame newObj (ppm prev)) as (_ & _ & _ & _ & H5 & _).
  cbv zeta in H5. now rewrite H5.
Qed.
End SessionProperties.

(** ** The round trip through the coin diameter, in exact arithmetic *)

Section CalibrationComposed.
Context {num : Type} {JN : JSNumber num} {JL : JSNumberLaws num}.
Local Open Scope js_scope.

(** C2.  [calculatePPM] returns the quotient [pixelDistance / 26.5] as
    the number type computes it.  For every pixel distance whose quotient
    is above zero, applying that scale gives an edge of pixel length [L],
    in place and in [measurements.edges], the [realLength]
    [Math.round((L / (pixelDistance / 26.5)) * 100) / 100], and leaves its
    ends and its pixel length as they were.  In exact arithmetic that value
    is [L * 26.5 / pixelDistance] rounded to hundredths
    ([round_trip_exact]); in binary64 a positive distance whose quotient is
    0 calibrates nothing, and the value can be more than 0.005 away from
    [L * 26.5 / pixelDistance] ([calibration_round_trip_counterexample]). *)
Theorem calibration_composes (obj : DetectedObject num) (pixelDistance : num)
    (i : nat) (e : Edge num) :
  (lit 0 <? calculatePPM pixelDistance) = true ->
  nth_error (edges obj) i = Some e ->
  let r := applyPPMToObject obj (Some (calculatePPM pixelDistance)) in
  let real := round2 (pixelLength e / (pixelDistance / COIN_DIAMETER_MM)) in
  calculatePPM pixelDistance = pixelDistance / COIN_DIAMETER_MM
  /\ nth_error (edges r) i =
     Some {| start := start e; end_ := end_ e; pixelLength := pixelLength e;
             realLength := Some real |}
  /\ nth_error (m_edges (measurements r)) i =
     Some {| m_pixelLength := pixelLength e; m_realLength := Some real |}
  /\ m_perimeter (measurements r) =
     Some (round2 (perimeter obj / (pixelDistance / COIN_DIAMETER_MM)))
  /\ List.length (edges r) = List.length (edges obj).
Proof.
  intros Hpos Hi r real. subst r real.
  rewrite (@applyPPMToObject_pos num JN JL obj _ Hpos). cbv zeta.
  cbn [edges measurements m_edges m_perimeter].
  rewrite !nth_error_map, Hi. cbn [option_map]. rewrite !length_map.
  unfold calculatePPM. repeat split; reflexivity.
Qed.
End CalibrationComposed.

Section RoundTrip.
Local Open Scope R_scope.

Lemma calculatePPM_exact (pixelDistance : R) :
  calculatePPM pixelDistance = pixelDistance / 26.5.
Proof.
  unfold calculatePPM, COIN_DIAMETER_MM. cbn [ndiv dec real_number pow]. lra.
Qed.

(** [Math.round(v * 100) / 100] is a whole number of hundredths and lies
    within half a hundredth of [v]. *)
Lemma round2_exact (v : R) :
  (exists k : Z, round2 v = IZR k / 100) /\ Rabs (round2 v - v) <= 1 / 200.
Proof.
  unfold round2. cbn [ndiv nmul lit Math_round real_number]. unfold Exact.round.
  split; [eexists; reflexivity|].
  destruct (base_Int_part (v * 100 + / 2)) as [Hle Hgt].
  apply Rabs_le. lra.
Qed.

Lemma positive_scale (p : R) : 0 < p -> (lit 0 <? p)%js = true.
Proof.
  intros Hp. cbn [nlt lit real_number]. unfold Exact.ltb.
  destruct (Rlt_dec 0 p); [reflexivity|contradiction].
Qed.

(** The round trip in exact arithmetic, for a pixel distance above zero:
    [calculatePPM] returns [pixelDistance / 26.5], and applying that scale
    gives an edge of pixel length [L] the [realLength] that is [L * 26.5 /
    pixelDistance] rounded to hundredths, a whole number of hundredths at
    most 0.005 away from it.  Binary64 rounds each operation and does not
    keep this bound ([calibration_round_trip_counterexample]). *)
Lemma round_trip_exact (obj : DetectedObject R) (pixelDistance : R)
    (i : nat) (e : Edge R) :
  0 < pixelDistance ->
  nth_error (edges obj) i = Some e ->
  calculatePPM pixelDistance = pixelDistance / 26.5
  /\ exists e' r,
       nth_error (edges (applyPPMToObject obj (Some (calculatePPM pixelDistance)))) i
         = Some e'
       /\ realLength e' = Some r
       /\ r = round2 (pixelLength e * 26.5 / pixelDistance)
       /\ (exists k : Z, r = IZR k / 100)
       /\ Rabs (r - pixelLength e * 26.5 / pixelDistance) <= 1 / 200.
Proof.
  intros Hpos Hi. split; [apply calculatePPM_exact|].
  assert (Hppm : 0 < calculatePPM pixelDistance)
    by (rewrite calculatePPM_exact; lra).
  rewrite (@applyPPMToObject_pos R _ _ obj _ (positive_scale Hppm)). cbn [edges].
  rewrite nth_error_map, Hi. cbn [option_map].
  eexists. eexists. split; [reflexivity|]. cbn [realLength with_realLength].
  split; [reflexivity|].
  assert (Hsame : (pixelLength e / calculatePPM pixelDistance)%js
                  = pixelLength e * 26.5 / pixelDistance).
  { rewrite calculatePPM_exact. cbn [ndiv real_number]. field. lra. }
  rewrite Hsame. split; [reflexivity|]. apply round2_exact.
Qed.

Lemma fold_Rmin_le (l : list R) (a : R) :
  fold_left Rmin l a <= a /\ forall b, In b l -> fold_left Rmin l a <= b.
Proof.
  revert a. induction l as [|c l IH]; intros a; cbn [fold_left].
  - split; [lra|intros b []].
  - destruct (IH (Rmin a c)) as [H1 H2].
    pose proof (Rmin_l a c). pose proof (Rmin_r a c).
    split; [lra|]. intros b [<-|Hb]; [lra|now apply H2].
Qed.

Lemma fold_Rmax_ge (l : list R) (a : R) :
  a <= fold_left Rmax l a /\ forall b, In b l -> b <= fold_left Rmax l a.
Proof.
  revert a. induction l as [|c l IH]; intros a; cbn [fold_left].
  - split; [lra|intros b []].
  - destruct (IH (Rmax a c)) as [H1 H2].
    pose proof (Rmax_l a c). pose proof (Rmax_r a c).
    split; [lra|]. intros b [<-|Hb]; [lra|now apply H2].
Qed.

Lemma Math_min_le (l : list R) (a : R) : In a l -> Math_min l <= a.
Proof.
  cbn [Math_min real_number]. destruct l as [|b l]; [intros []|].
  cbn [Exact.min]. destruct (fold_Rmin_le l b) as [H1 H2].
  intros [<-|Ha]; [exact H1|now apply H2].
Qed.

Lemma Math_max_ge (l : list R) (a : R) : In a l -> a <= Math_max l.
Proof.
  cbn [Math_max real_number]. destruct l as [|b l]; [intros []|].
  cbn [Exact.max]. destruct (fold_Rmax_ge l b) as [H1 H2].
  intros [<-|Ha]; [exact H1|now apply H2].
Qed.

End RoundTrip.

(** ** The order of numbers

    The comparisons of binary64 are [SFcompare] on what [Prim2SF] gives:
    the sign, then the exponent, then the mantissa, with no answer where a
    NaN is involved.  That order is read off the definition, case by
    case. *)

Section Binary64Order.

Ltac compare_cases u v w :=
  destruct u as [[]|[]| |[] ?m1 ?e1], v as [[]|[]| |[] ?m2 ?e2], w as [[]|[]| |[] ?m3 ?e3];
  cbn; try discriminate; try reflexivity;
  repeat match goal with
         | |- context [Pos.compare_cont Eq ?a ?b] =>
             change (Pos.compare_cont Eq a b) with (a ?= b)%positive
         end;
  repeat match goal with
         | |- context [(?a ?= ?b)%Z] => destruct (Z.compare_spec a b)
         end;
  try discriminate; try reflexivity; try lia; subst;
  repeat match goal with
         | |- context [(?a ?= ?b)%positive] => destruct (Pos.compare_spec a b)
         end;
  cbn; try discriminate; try reflexivity; try lia.

Lemma SFcompare_refl (u : spec_float) :
  u <> S754_nan -> SFcompare u u = Some Eq.
Proof.
  destruct u as [s|s| |s m e]; intros Hu; try (now destruct Hu); cbn.
  - reflexivity.
  - now destruct s.
  - destruct s; rewrite Z.compare_refl;
      change (Pos.compare_cont Eq m m) with (m ?= m)%positive;
      now rewrite Pos.compare_refl.
Qed.

Lemma SFcompare_Lt_trans (u v w : spec_float) :
  SFcompare u v = Some Lt -> SFcompare v w = Some Lt -> SFcompare u w = Some Lt.
Proof. compare_cases u v w. Qed.

Lemma SFcompare_Eq_Lt (u v w : spec_float) :
  SFcompare u v = Some Eq -> SFcompare v w = Some Lt -> SFcompare u w = Some Lt.
Proof. compare_cases u v w. Qed.

Lemma SFcompare_Lt_Eq (u v w : spec_float) :
  SFcompare u v = Some Lt -> SFcompare v w = Some Eq -> SFcompare u w = Some Lt.
Proof. compare_cases u v w. Qed.

Lemma SFcompare_Eq_trans (u v w : spec_float) :
  SFcompare u v = Some Eq -> SFcompare v w = Some Eq -> SFcompare u w = Some Eq.
Proof. compare_cases u v w. Qed.

Lemma SFcompare_Eq_sym (u v : spec_float) :
  SFcompare u v = Some Eq -> SFcompare v u = Some Eq.
Proof.
  destruct u as [[]|[]| |[] m1 e1], v as [[]|[]| |[] m2 e2]; cbn;
    try discriminate; try reflexivity;
    change (Pos.compare_cont Eq m1 m2) with (m1 ?= m2)%positive;
    change (Pos.compare_cont Eq m2 m1) with (m2 ?= m1)%positive;
    destruct (Z.compare_spec e1 e2), (Z.compare_spec e2 e1);
    try discriminate; try lia; subst;
    destruct (Pos.compare_spec m1 m2), (Pos.compare_spec m2 m1);
    cbn; try discriminate; try reflexivity; try lia.
Qed.

(** Two numbers that are not NaN are comparable. *)
Lemma SFcompare_total (u v : spec_float) :
  u <> S754_nan -> v <> S754_nan -> exists c, SFcompare u v = Some c.
Proof.
  destruct u as [s1|s1| |s1 m1 e1], v as [s2|s2| |s2 m2 e2]; intros Hu Hv;
    try (now destruct Hu); try (now destruct Hv); cbn; eexists; reflexivity.
Qed.

Lemma SFcompare_Gt_Lt (u v : spec_float) :
  SFcompare u v = Some Gt -> SFcompare v u = Some Lt.
Proof.
  destruct u as [[]|[]| |[] m1 e1], v as [[]|[]| |[] m2 e2]; cbn;
    try discriminate; try reflexivity;
    change (Pos.compare_cont Eq m1 m2) with (m1 ?= m2)%positive;
    change (Pos.compare_cont Eq m2 m1) with (m2 ?= m1)%positive;
    destruct (Z.compare_spec e1 e2), (Z.compare_spec e2 e1);
    try discriminate; try reflexivity; try lia; subst;
    destruct (Pos.compare_spec m1 m2), (Pos.compare_spec m2 m1);
    cbn; try discriminate; try reflexivity; try lia.
Qed.

Local Open Scope float_scope.

Lemma leb_self (a : float) : (a <=? a) = true <-> F64.is_number a.
Proof.
  rewrite FloatAxioms.leb_spec. unfold SFleb, F64.is_number. split.
  - intros H Hnan. rewrite Hnan in H. discriminate.
  - intros H. now rewrite (@SFcompare_refl _ H).
Qed.

Lemma is_nan_false (a : float) : F64.is_number a -> PrimFloat.is_nan a = false.
Proof.
  intros H. unfold PrimFloat.is_nan. rewrite FloatAxioms.eqb_spec. unfold SFeqb.
  now rewrite (@SFcompare_refl _ H).
Qed.

Lemma ltb_compare (a b : float) :
  (a <? b) = true <-> SFcompare (Prim2SF a) (Prim2SF b) = Some Lt.
Proof.
  rewrite FloatAxioms.ltb_spec. unfold SFltb.
  destruct (SFcompare (Prim2SF a) (Prim2SF b)) as [[]|]; split; congruence.
Qed.

Lemma leb_compare (a b : float) :
  (a <=? b) = true <->
  SFcompare (Prim2SF a) (Prim2SF b) = Some Lt \/ SFcompare (Prim2SF a) (Prim2SF b) = Some Eq.
Proof.
  rewrite FloatAxioms.leb_spec. unfold SFleb.
  destruct (SFcompare (Prim2SF a) (Prim2SF b)) as [[]|]; split; intros H;
    try discriminate; try reflexivity; try (now left); try (now right);
    destruct H; discriminate.
Qed.

Lemma F64_ltb_irrefl (a : float) : (a <? a) = false.
Proof.
  destruct (a <? a) eqn:H; [|reflexivity]. apply ltb_compare in H.
  assert (Hn : F64.is_number a) by (intros Hn; rewrite Hn in H; discriminate).
  rewrite (@SFcompare_refl _ Hn) in H. discriminate.
Qed.

Lemma F64_ltb_trans (a b c : float) :
  (a <? b) = true -> (b <? c) = true -> (a <? c) = true.
Proof. rewrite !ltb_compare. apply SFcompare_Lt_trans. Qed.

Lemma F64_ltb_leb (a b : float) : (a <? b) = true -> (a <=? b) = true.
Proof. rewrite ltb_compare, leb_compare. now left. Qed.

Lemma F64_leb_trans (a b c : float) :
  (a <=? b) = true -> (b <=? c) = true -> (a <=? c) = true.
Proof.
  rewrite !leb_compare. intros [H1|H1] [H2|H2].
  - left. exact (@SFcompare_Lt_trans _ _ _ H1 H2).
  - left. exact (@SFcompare_Lt_Eq _ _ _ H1 H2).
  - left. exact (@SFcompare_Eq_Lt _ _ _ H1 H2).
  - right. exact (@SFcompare_Eq_trans _ _ _ H1 H2).
Qed.

(** Of two numbers neither of which is below the other, each is at most
    the other. *)
Lemma F64_not_ltb (a b : float) :
  F64.is_number a -> F64.is_number b -> (a <? b) = false -> (b <? a) = false ->
  (a <=? b) = true /\ (b <=? a) = true.
Proof.
  intros Ha Hb Hab Hba. destruct (@SFcompare_total _ _ Ha Hb) as [c Hc].
  destruct c.
  - split; apply leb_compare; right; [exact Hc|now apply SFcompare_Eq_sym].
  - apply ltb_compare in Hc. congruence.
  - apply SFcompare_Gt_Lt, ltb_compare in Hc. congruence.
Qed.

Lemma min2_lower (a b : float) :
  F64.is_number a -> F64.is_number b ->
  F64.is_number (F64.min2 a b) /\ (F64.min2 a b <=? a) = true /\ (F64.min2 a b <=? b) = true.
Proof.
  intros Ha Hb. unfold F64.min2. rewrite (@is_nan_false a Ha), (@is_nan_false b Hb).
  destruct (b <? a) eqn:Hba.
  - split; [exact Hb|]. split; [now apply F64_ltb_leb|now apply leb_self].
  - destruct (a <? b) eqn:Hab.
    + split; [exact Ha|]. split; [now apply leb_self|now apply F64_ltb_leb].
    + destruct (@F64_not_ltb a b Ha Hb Hab Hba) as [H1 H2].
      destruct (get_sign a); (split; [assumption|]); split;
        try assumption; now apply leb_self.
Qed.

Lemma max2_upper (a b : float) :
  F64.is_number a -> F64.is_number b ->
  F64.is_number (F64.max2 a b) /\ (a <=? F64.max2 a b) = true /\ (b <=? F64.max2 a b) = true.
Proof.
  intros Ha Hb. unfold F64.max2. rewrite (@is_nan_false a Ha), (@is_nan_false b Hb).
  destruct (a <? b) eqn:Hab.
  - split; [exact Hb|]. split; [now apply F64_ltb_leb|now apply leb_self].
  - destruct (b <? a) eqn:Hba.
    + split; [exact Ha|]. split; [now apply leb_self|now apply F64_ltb_leb].
    + destruct (@F64_not_ltb a b Ha Hb Hab Hba) as [H1 H2].
      destruct (get_sign a); (split; [assumption|]); split;
        try assumption; now apply leb_self.
Qed.

Lemma fold_min2_lower (l : list float) :
  Forall F64.is_number l -> forall acc, F64.is_number acc ->
  F64.is_number (fold_left F64.min2 l acc)
  /\ (fold_left F64.min2 l acc <=? acc) = true
  /\ forall a, In a l -> (fold_left F64.min2 l acc <=? a) = true.
Proof.
  induction 1 as [|c l Hc Hl IH]; intros acc Hacc; cbn [fold_left].
  - split; [exact Hacc|]. split; [now apply leb_self|intros a []].
  - destruct (@min2_lower acc c Hacc Hc) as (Hn & H1 & H2).
    destruct (IH _ Hn) as (Hr & Hle & Hall).
    split; [exact Hr|]. split; [exact (@F64_leb_trans _ _ _ Hle H1)|].
    intros a [<-|Ha]; [exact (@F64_leb_trans _ _ _ Hle H2)|now apply Hall].
Qed.

Lemma fold_max2_upper (l : list float) :
  Forall F64.is_number l -> forall acc, F64.is_number acc ->
  F64.is_number (fold_left F64.max2 l acc)
  /\ (acc <=? fold_left F64.max2 l acc) = true
  /\ forall a, In a l -> (a <=? fold_left F64.max2 l acc) = true.
Proof.
  induction 1 as [|c l Hc Hl IH]; intros acc Hacc; cbn [fold_left].
  - split; [exact Hacc|]. split; [now apply leb_self|intros a []].
  - destruct (@max2_upper acc c Hacc Hc) as (Hn & H1 & H2).
    destruct (IH _ Hn) as (Hr & Hle & Hall).
    split; [exact Hr|]. split; [exact (@F64_leb_trans _ _ _ H1 Hle)|].
    intros a [<-|Ha]; [exact (@F64_leb_trans _ _ _ H2 Hle)|now apply Hall].
Qed.
End Binary64Order.

#[export] Instance float_order : JSNumberOrder float.
Proof.
  split; cbn [nlt nle Math_min Math_max float_number].
  - exact F64_ltb_irrefl.
  - exact F64_ltb_trans.
  - intros l a Hl Ha. unfold F64.min.
    assert (Hl' : Forall F64.is_number l)
      by (eapply Forall_impl; [|exact Hl]; intros v Hv; now apply leb_self).
    assert (Hinf : F64.is_number infinity) by (vm_compute; discriminate).
    now apply (@fold_min2_lower l Hl' _ Hinf).
  - intros l a Hl Ha. unfold F64.max.
    assert (Hl' : Forall F64.is_number l)
      by (eapply Forall_impl; [|exact Hl]; intros v Hv; now apply leb_self).
    assert (Hinf : F64.is_number neg_infinity) by (vm_compute; discriminate).
    now apply (@fold_max2_upper l Hl' _ Hinf).
Qed.

#[export] Instance real_order : JSNumberOrder R.
Proof.
  split; cbn [nlt nle real_number]; unfold Exact.ltb, Exact.leb.
  - intros a. destruct (Rlt_dec a a); [lra|reflexivity].
  - intros a b c. destruct (Rlt_dec a b), (Rlt_dec b c), (Rlt_dec a c);
      try discriminate; try reflexivity; lra.
  - intros l a _ Ha. pose proof (Math_min_le l a Ha).
    destruct (Rle_dec (Math_min l) a); [reflexivity|contradiction].
  - intros l a _ Ha. pose proof (Math_max_ge l a Ha).
    destruct (Rle_dec a (Math_max l)); [reflexivity|contradiction].
Qed.

(** ** Binary64 arithmetic around zero

    What the formulas of the program need from subtraction, product,
    quotient and square root where no rounding is involved: the sign of a
    swapped difference, the difference of a finite number and itself, and
    what a zero gives when multiplied, divided and added. *)

Section Binary64Arithmetic.

Lemma SFopp_involutive (u : spec_float) : SFopp (SFopp u) = u.
Proof. destruct u as [s|s| |s m e]; cbn; now rewrite ?negb_involutive. Qed.

Lemma binary_round_aux_opp (s : bool) (m e : Z) (l : location) :
  binary_round_aux prec emax (negb s) m e l = SFopp (binary_round_aux prec emax s m e l).
Proof.
  unfold binary_round_aux.
  destruct (shr_fexp prec emax m e l) as [mrs' e'].
  destruct (shr_fexp prec emax _ e' loc_Exact) as [mrs'' e''].
  destruct (shr_m mrs''); [reflexivity| |reflexivity].
  destruct (Z.leb e'' (Z.sub emax prec)); reflexivity.
Qed.

Lemma binary_round_opp (s : bool) (m : positive) (e : Z) :
  binary_round prec emax (negb s) m e = SFopp (binary_round prec emax s m e).
Proof.
  unfold binary_round. destruct (shl_align m e _) as [mz ez]. apply binary_round_aux_opp.
Qed.

Lemma binary_normalize_opp (m e : Z) :
  binary_normalize prec emax (- m) e false =
  match m with
  | Z0 => S754_zero false
  | _ => SFopp (binary_normalize prec emax m e false)
  end.
Proof.
  destruct m as [|q|q]; cbn [Z.opp binary_normalize]; [reflexivity| |].
  - exact (binary_round_opp false q e).
  - pose proof (binary_round_opp false q e) as H. cbn [negb] in H.
    now rewrite H, SFopp_involutive.
Qed.

(** Swapping the operands of a subtraction changes the sign of the
    difference, unless the difference is +0 or NaN both ways. *)
Lemma SFsub_swap (u v : spec_float) :
  SFsub prec emax v u = SFopp (SFsub prec emax u v)
  \/ (SFsub prec emax v u = SFsub prec emax u v
      /\ (SFsub prec emax u v = S754_zero false \/ SFsub prec emax u v = S754_nan)).
Proof.
  destruct u as [s1|s1| |s1 m1 e1], v as [s2|s2| |s2 m2 e2];
    try (destruct s1, s2; cbn; auto; fail);
    try (destruct s1; cbn; auto; fail);
    try (destruct s2; cbn; auto; fail);
    try (cbn; auto; fail).
  unfold SFsub. rewrite (Z.min_comm e2 e1).
    set (A := cond_Zopp s1 (Zpos (fst (shl_align m1 e1 (Z.min e1 e2))))).
    set (B := cond_Zopp s2 (Zpos (fst (shl_align m2 e2 (Z.min e1 e2))))).
    replace (Z.sub B A) with (- (Z.sub A B))%Z by lia.
    rewrite binary_normalize_opp.
    destruct (Z.sub A B); [right; split; [reflexivity|now left]|now left|now left].
Qed.

Lemma SFmul_opp_opp (u : spec_float) :
  SFmul prec emax (SFopp u) (SFopp u) = SFmul prec emax u u.
Proof.
  destruct u as [s|s| |s m e]; cbn; try reflexivity; now destruct s.
Qed.

Lemma SFsub_swap_square (u v : spec_float) :
  SFmul prec emax (SFsub prec emax v u) (SFsub prec emax v u) =
  SFmul prec emax (SFsub prec emax u v) (SFsub prec emax u v).
Proof.
  destruct (SFsub_swap u v) as [-> | [-> _]]; [apply SFmul_opp_opp|reflexivity].
Qed.

(** A square root is never below zero. *)
Lemma SFsqrt_not_below_zero (u : spec_float) (s0 : bool) :
  SFltb (SFsqrt prec emax u) (S754_zero s0) = false.
Proof.
  destruct u as [s|s| |s m e]; cbn [SFsqrt]; try reflexivity;
    try (destruct s; reflexivity).
  destruct s; [reflexivity|].
  destruct (SFsqrt_core_binary prec emax (Zpos m) e) as [[mz ez] lz].
  unfold binary_round_aux.
  destruct (shr_fexp prec emax mz ez lz) as [mrs' e'].
  destruct (shr_fexp prec emax _ e' loc_Exact) as [mrs'' e''].
  destruct (shr_m mrs''); [reflexivity| |reflexivity].
  destruct (Z.leb e'' (Z.sub emax prec)); reflexivity.
Qed.

Lemma is_finite_spec (a : float) : is_finite a = true -> F64.SFfinite (Prim2SF a).
Proof.
  unfold is_finite, PrimFloat.is_nan, is_infinity.
  rewrite !FloatAxioms.eqb_spec, FloatAxioms.abs_spec.
  change (Prim2SF infinity) with (S754_infinity false).
  destruct (Prim2SF a) as [[]|[]| |[] m e]; cbn; try discriminate; exact (fun _ => I).
Qed.

Lemma SFsub_diag (u : spec_float) :
  F64.SFfinite u -> SFsub prec emax u u = S754_zero false.
Proof.
  destruct u as [s|s| |s m e]; intros Hu; try (now destruct Hu).
  - now destruct s.
  - unfold SFsub. rewrite Z.sub_diag. reflexivity.
Qed.

Lemma SFmul_zero_finite (s : bool) (t : spec_float) :
  F64.SFfinite t -> exists s', SFmul prec emax (S754_zero s) t = S754_zero s'.
Proof.
  destruct t as [st|st| |st m e]; intros Ht; try (now destruct Ht); cbn; eexists; reflexivity.
Qed.

Lemma SFdiv_zero_nonzero (s : bool) (u : spec_float) :
  F64.SFnonzero u -> exists s', SFdiv prec emax (S754_zero s) u = S754_zero s'.
Proof.
  destruct u as [su|su| |su m e]; intros Hu; try (now destruct Hu); cbn; eexists; reflexivity.
Qed.

Lemma SFadd_zero_compare (s : bool) (w v : spec_float) :
  SFcompare w (SFadd prec emax (S754_zero s) v) = SFcompare w v.
Proof.
  destruct v as [sv|sv| |sv m e]; cbn [SFadd]; try reflexivity.
  destruct s, sv, w as [[]|[]| |[] mw ew]; reflexivity.
Qed.

Lemma SFnonzero_above_zero (u : spec_float) (s0 : bool) :
  SFltb (S754_zero s0) u = true -> F64.SFnonzero u /\ F64.SFnonzero (SFopp u).
Proof.
  destruct u as [[]|[]| |[] m e]; cbn; try discriminate; now split.
Qed.

Lemma SFsub_nonzero_swap (u v : spec_float) :
  SFltb (S754_zero false) (SFsub prec emax u v) = true ->
  F64.SFnonzero (SFsub prec emax u v) /\ F64.SFnonzero (SFsub prec emax v u).
Proof.
  intros Hpos. destruct (@SFnonzero_above_zero _ _ Hpos) as [H1 H2].
  split; [exact H1|].
  destruct (SFsub_swap u v) as [-> | [_ [Hz | Hz]]]; [exact H2| |];
    rewrite Hz in Hpos; discriminate.
Qed.
End Binary64Arithmetic.

(** ** The bounding rectangle of a manual object *)

Section BoundingRectangle.
Context {num : Type} {JN : JSNumber num} {JO : JSNumberOrder num}.
Local Open Scope js_scope.

(** X14.  The bounding rectangle of a manual object drawn through points
    none of whose coordinates is NaN starts at or before every point:
    [contour.x <= p.x] and [contour.y <= p.y].  Its width and height are
    [Math.max] minus [Math.min] of the coordinates, and [Math.max] is at or
    beyond every point.  The sum [contour.x + contour.width] is another
    number: in binary64 it can fall short of the greatest [x]
    ([bounding_rectangle_binary64]). *)
Theorem manual_bounding_box_corner (now : nat) (pts : list (Point num))
    (prev : State num) (p : Point num) :
  (3 <= List.length pts)%nat ->
  Forall (fun q => (x q <=? x q) = true /\ (y q <=? y q) = true) pts ->
  In p pts ->
  exists obj,
    objects (fst (finishManualObject now (Some pts) prev)) = objects prev ++ [Measured obj]
    /\ (rect_x (contour obj) <=? x p) = true
    /\ (rect_y (contour obj) <=? y p) = true
    /\ (x p <=? Math_max (map x pts)) = true
    /\ (y p <=? Math_max (map y pts)) = true
    /\ width (contour obj) = Math_max (map x pts) - rect_x (contour obj)
    /\ height (contour obj) = Math_max (map y pts) - rect_y (contour obj).
Proof.
  intros Hlen Hnum Hp.
  destruct (@finishManualObject_builds num JN now pts prev Hlen)
    as (newObj & Heq & _ & _ & _ & _ & _ & Hrect).
  rewrite Heq. cbn [fst objects]. eexists. split; [reflexivity|].
  assert (Hsame : contour (if truthy (ppm prev)
                           then applyPPMToObject newObj (ppm prev) else newObj)
                  = contour newObj).
  { destruct (truthy (ppm prev)); [|reflexivity].
    now destruct (applyPPMToObject_same_frame newObj (ppm prev)) as (_ & _ & _ & H & _). }
  rewrite Hsame, Hrect. cbn [rect_x rect_y width height].
  assert (Hx : Forall (fun v => (v <=? v) = true) (map x pts)).
  { apply Forall_forall. intros v Hv. apply in_map_iff in Hv.
    destruct Hv as (q & <- & Hq). rewrite Forall_forall in Hnum. now apply Hnum. }
  assert (Hy : Forall (fun v => (v <=? v) = true) (map y pts)).
  { apply Forall_forall. intros v Hv. apply in_map_iff in Hv.
    destruct Hv as (q & <- & Hq). rewrite Forall_forall in Hnum. now apply Hnum. }
  split; [exact (@Math_min_lower num JN JO _ _ Hx (in_map x pts p Hp))|].
  split; [exact (@Math_min_lower num JN JO _ _ Hy (in_map y pts p Hp))|].
  split; [exact (@Math_max_upper num JN JO _ _ Hx (in_map x pts p Hp))|].
  split; [exact (@Math_max_upper num JN JO _ _ Hy (in_map y pts p Hp))|].
  split; reflexivity.
Qed.
End BoundingRectangle.

(** ** Concrete inputs (binary64) *)

Section Checks.
Local Open Scope js_scope.

Lemma float_neq (a b : float) :
  PrimFloat.eqb a b = false -> PrimFloat.eqb b b = true -> a <> b.
Proof. intros Hab Hbb Heq. rewrite Heq, Hbb in Hab. discriminate. Qed.

(** 265 pixels across the coin are 10 pixels per millimetre; the sides of
    the 10-pixel square then measure 1 mm and its perimeter 4 mm. *)
Example round_trip_binary64 :
  (COIN_DIAMETER_MM : float) = 26.5%float
  /\ calculatePPM (lit 265) = (lit 10 : float)
  /\ map realLength
        (edges (applyPPMToObject Sample.square_object (Some (calculatePPM (lit 265)))))
     = [Some (lit 1); Some (lit 1); Some (lit 1); Some (lit 1)]
  /\ m_perimeter
        (measurements (applyPPMToObject Sample.square_object
                                        (Some (calculatePPM (lit 265)))))
     = Some (lit 4).
Proof. vm_compute. repeat split; reflexivity. Qed.

(** The round trip as the specification states it fails in binary64 (C2).
    First, the least positive binary64 number is above zero, its quotient
    by 26.5 is 0, and [applyPPMToObject] with that scale returns the object
    as it was: no edge gets a [realLength].  Second, the [realLength] can
    be more than 0.005 away from [L * 26.5 / pixelDistance]: the double
    nearest to 1.115 is [5021513584518103 * 2^-52], less than 1.115; at a
    pixel distance of 26.5 the scale is 1, the product by 100 rounds to
    111.5, and the edge gets [5044031582654956 * 2^-52], the double nearest
    to 1.12. *)
Lemma calibration_round_trip_counterexample :
  ((lit 0 <? Sample2.tiny) = true
   /\ calculatePPM Sample2.tiny = (lit 0 : float)
   /\ applyPPMToObject Sample.square_object (Some (calculatePPM Sample2.tiny))
      = Sample.square_object
   /\ map pixelLength (edges Sample.square_object) = [lit 10; lit 10; lit 10; lit 10]
   /\ map realLength
        (edges (applyPPMToObject Sample.square_object (Some (calculatePPM Sample2.tiny))))
      = [None; None; None; None])
  /\ ((lit 0 <? (dec 265 1 : float)) = true
      /\ calculatePPM (dec 265 1) = (lit 1 : float)
      /\ Prim2SF (pixelLength Sample2.short_edge)
         = S754_finite false 5021513584518103 (-52)
      /\ pixelLength Sample2.short_edge * lit 100 = dec 1115 1
      /\ nth_error (edges Sample2.short_object) 0 = Some Sample2.short_edge
      /\ option_map (fun e => option_map Prim2SF (realLength e))
           (nth_error (edges (applyPPMToObject Sample2.short_object
                                (Some (calculatePPM (dec 265 1))))) 0)
         = Some (Some (S754_finite false 5044031582654956 (-52)))
      /\ (2 ^ 52 < 200 * (5044031582654956 - 5021513584518103))%Z).
Proof. vm_compute. repeat split; reflexivity. Qed.

(** The bounding rectangle of a manual object need not reach its
    rightmost point.  Through points with the x coordinates 185.906, 837.6
    and 500 the rectangle starts at 185.906, and its width, the rounded
    difference, added to 185.906 gives a number below 837.6. *)
Example bounding_rectangle_binary64 :
  exists obj,
    objects (fst (finishManualObject 0 (Some Sample2.wide_clicks) Sample.fresh))
      = [Measured obj]
    /\ rect_x (contour obj) = dec 185906 3
    /\ width (contour obj) = dec 8376 1 - dec 185906 3
    /\ (rect_x (contour obj) + width (contour obj) <? dec 8376 1) = true.
Proof. eexists. vm_compute. repeat split; reflexivity. Qed.

(** Two different points at distance 0: the square of 2^-600 is below
    the least positive binary64 number. *)
Example pixel_distance_underflows :
  calculatePixelDistance (Sample.pt 0 0) Sample2.close_point = lit 0
  /\ (x (Sample.pt 0 0) <? x Sample2.close_point) = true.
Proof. vm_compute. split; reflexivity. Qed.

(** A point to the left of a rectangle that is answered to be inside:
    [point.y - yi] overflows on the left side, whose crossing abscissa
    becomes NaN, and the right side alone is counted. *)
Example hit_test_overflows :
  (x Sample2.far_left <? lit 0) = true
  /\ is_finite (y Sample2.far_left - (-0x1.ap1023)%float) = false
  /\ isPointInPolygon Sample2.far_left Sample2.tall_rectangle = true.
Proof. vm_compute. repeat split; reflexivity. Qed.

(** Lengths of 10 and 25 pixels keep their order under a scale of 3 pixels
    per millimetre: they become 3.33 mm and 8.33 mm. *)
Example order_kept_binary64 :
  round2 ((lit 10 : float) / lit 3) = dec 333 2
  /\ round2 ((lit 25 : float) / lit 3) = dec 833 2
  /\ (round2 ((lit 10 : float) / lit 3) <=? round2 ((lit 25 : float) / lit 3)) = true.
Proof. vm_compute. repeat split; reflexivity. Qed.

(** [applyScale(object, 0)] and [applyScale(object, -5)]. *)
Example noop_binary64 :
  applyPPMToObject Sample.square_object (Some (lit 0)) = Sample.square_object
  /\ applyPPMToObject Sample.square_object (Some (lit (-5))) = Sample.square_object.
Proof. split; reflexivity. Qed.

(** The square [(0,0), (10,0), (10,10), (0,10)]. *)
Example manual_square_binary64 :
  exists obj,
    fst (finishManualObject 0 (Some Sample.square10) Sample.fresh) =
    {| objects := [Measured obj]; ppm := None; coinDiameter := None; mode := select;
       manualCoinPoints := []; creatingPoints := [] |}
    /\ area obj = lit 100 /\ perimeter obj = lit 40
    /\ map pixelLength (edges obj) = [lit 10; lit 10; lit 10; lit 10]
    /\ contour obj = {| rect_x := lit 0; rect_y := lit 0;
                        width := lit 10; height := lit 10 |}.
Proof. eexists. vm_compute. repeat split; reflexivity. Qed.

(** Clicking [(0,0), (50,0), (50,50), (0,50), (2,1)]: the fifth click is
    [sqrt 5] pixels from the first, and the session ends with one object
    of four vertices and no alert. *)
Example closing_click_binary64 :
  exists obj,
    addManualObjectPoints 0 Sample.clicks Sample.fresh =
    ({| objects := [Measured obj]; ppm := None; coinDiameter := None; mode := select;
        manualCoinPoints := []; creatingPoints := [] |}, [])
    /\ points obj = firstn 4 Sample.clicks
    /\ List.length (points obj) = 4%nat
    /\ List.length (edges obj) = 4%nat.
Proof. eexists. vm_compute. repeat split; reflexivity. Qed.

(** A third click close to the first one also calls
    [finishManualObject], with the two points gathered before it: the
    alert is raised, the points are dropped and no object is made. *)
Example early_closing_click_binary64 :
  addManualObjectPoints 0 [Sample.pt 0 0; Sample.pt 50 0; Sample.pt 2 1] Sample.fresh =
  ({| objects := []; ppm := None; coinDiameter := None; mode := create_object;
      manualCoinPoints := []; creatingPoints := [] |},
   ["At least 3 points are needed to create an object"%string]).
Proof. vm_compute. reflexivity. Qed.

(** A bounding rectangle that starts in column 0 of a 500 x 500 image
    touches the border, whatever else is known about the contour. *)
Lemma column0_touches_border (rect : Rect float) :
  rect_x rect = lit 0 -> touches_border (lit 500) (lit 500) rect = true.
Proof. intros Hx. unfold touches_border. rewrite Hx. reflexivity. Qed.

(** The [perimeter] of a detected object need not be the sum of its edges
    (C4).  For the rectangle with a bump, [detectContours] returns one
    object whose [perimeter] is the arc length 602 of the traced outline,
    while the [pixelLength]s of its four edges add up to 600. *)
Lemma detectContours_perimeter_counterexample :
  exists o,
    detectContours (fun _ => 0%nat) (Traced (lit 500) (lit 500) [Sample.bumped_rectangle])
      = Returned [o]
    /\ List.length (edges o) = 4%nat
    /\ perimeter o = lit 602
    /\ sum_pixelLength (edges o) = lit 600
    /\ perimeter o <> sum_pixelLength (edges o).
Proof.
  eexists. split; [vm_compute; reflexivity|]. cbn [edges perimeter].
  split; [reflexivity|]. split; [reflexivity|]. split; [vm_compute; reflexivity|].
  apply float_neq; vm_compute; reflexivity.
Qed.
End Checks.

(** ** The theorems at concrete inputs *)

Section Instances.
Local Open Scope js_scope.

Lemma applyPPMToObject_scales_witness :
  (lit 0 <? (lit 10 : float)) = true
  /\ m_perimeter (measurements (applyPPMToObject Sample.square_object (Some (lit 10))))
     = Some (lit 4)
  /\ applyPPMToObject (applyPPMToObject Sample.square_object (Some (lit 2)))
                      (Some (lit 10))
     = applyPPMToObject Sample.square_object (Some (lit 10)).
Proof.
  assert (Hpos : (lit 0 <? (lit 10 : float)) = true) by reflexivity.
  split; [exact Hpos|].
  destruct (@applyPPMToObject_scales float _ _ Sample.square_object (lit 10) Hpos)
    as (_ & _ & Hper & _ & Hagain).
  split; [rewrite Hper; reflexivity|apply Hagain].
Defined.

Lemma applyPPMToObject_noop_witness :
  (forall p : float, Some (lit (-5)) = Some p -> (p <=? lit 0) = true)
  /\ applyPPMToObject Sample.square_object (Some (lit (-5))) = Sample.square_object.
Proof.
  assert (H : forall p : float, Some (lit (-5)) = Some p -> (p <=? lit 0) = true).
  { intros p Hp. injection Hp as <-. reflexivity. }
  split; [exact H|].
  exact (proj1 (@applyPPMToObject_noop float _ Sample.square_object (Some (lit (-5))) H)).
Defined.

Lemma applyPPMToObject_frame_witness :
  (lit 0 <? (lit 10 : float)) = true
  /\ perimeter (applyPPMToObject Sample.square_object (Some (lit 10))) = lit 40
  /\ map pixelLength (edges (applyPPMToObject Sample.square_object (Some (lit 10))))
     = [lit 10; lit 10; lit 10; lit 10].
Proof.
  assert (Hpos : (lit 0 <? (lit 10 : float)) = true) by reflexivity.
  split; [exact Hpos|].
  destruct (@applyPPMToObject_frame float _ Sample.square_object (lit 10) Hpos)
    as (_ & _ & _ & _ & _ & _ & Hper & _ & _ & _ & _ & Hpx).
  split; [rewrite Hper|rewrite Hpx]; reflexivity.
Defined.

Lemma calibration_composes_witness :
  (lit 0 <? calculatePPM (lit 265 : float)) = true
  /\ nth_error (edges Sample.square_object) 1
     = Some {| start := Sample.pt 10 0; end_ := Sample.pt 10 10;
               pixelLength := lit 10; realLength := None |}
  /\ nth_error (edges (applyPPMToObject Sample.square_object
                         (Some (calculatePPM (lit 265))))) 1
     = Some {| start := Sample.pt 10 0; end_ := Sample.pt 10 10;
               pixelLength := lit 10; realLength := Some (lit 1) |}.
Proof.
  assert (Hpos : (lit 0 <? calculatePPM (lit 265 : float)) = true)
    by (vm_compute; reflexivity).
  assert (Hi : nth_error (edges Sample.square_object) 1
               = Some {| start := Sample.pt 10 0; end_ := Sample.pt 10 10;
                         pixelLength := lit 10; realLength := None |})
    by (vm_compute; reflexivity).
  split; [exact Hpos|]. split; [exact Hi|].
  destruct (@calibration_composes float _ _ Sample.square_object (lit 265) 1 _ Hpos Hi)
    as (_ & He & _).
  rewrite He. vm_compute. reflexivity.
Defined.

Lemma round_trip_exact_instance :
  (0 < 53)%R
  /\ nth_error (edges Sample.triangle) 0 = Some Sample.triangle_base
  /\ calculatePPM 53%R = (53 / 26.5)%R
  /\ exists e' r,
       nth_error (edges (applyPPMToObject Sample.triangle (Some (calculatePPM 53%R)))) 0
         = Some e'
       /\ realLength e' = Some r
       /\ (Rabs (r - 30 * 26.5 / 53) <= 1 / 200)%R.
Proof.
  assert (Hpos : (0 < 53)%R) by lra.
  split; [exact Hpos|]. split; [reflexivity|].
  destruct (@round_trip_exact Sample.triangle 53%R 0 Sample.triangle_base
              Hpos eq_refl) as (Hppm & e' & r & He' & Hr & _ & _ & Hclose).
  split; [exact Hppm|]. exists e', r. repeat split; assumption.
Defined.

Lemma detectContours_perimeter_is_arcLength_witness :
  exists o,
    detectContours (fun _ => 0%nat) (Traced (lit 500) (lit 500) [Sample.bumped_rectangle])
      = Returned [o]
    /\ In o [o]
    /\ exists i c, nth_error [Sample.bumped_rectangle] i = Some c
                   /\ perimeter o = arcLength c.
Proof.
  eexists. split; [vm_compute; reflexivity|]. split; [now left|].
  match goal with
  | |- exists i c, _ /\ perimeter ?o = _ =>
      assert (Hrun : detectContours (fun _ => 0%nat)
                       (Traced (lit 500) (lit 500) [Sample.bumped_rectangle])
                     = Returned [o]) by (vm_compute; reflexivity);
      destruct (@detectContours_perimeter_is_arcLength float _ (lit 500) (lit 500)
                  (fun _ => 0%nat) [Sample.bumped_rectangle] [o] o Hrun
                  (or_introl eq_refl))
        as (i & c & Hi & Hper & _)
  end.
  exists i, c. split; assumption.
Defined.

Lemma detectCoin_not_found_witness :
  (forall c, In c [Sample.disc_at_column0] ->
             coin_candidate (lit 500) (lit 500) c = false)
  /\ detectCoin (Traced (lit 500) (lit 500) [Sample.disc_at_column0]) =
     Returned {| pixelDiameter := None; found := false;
                 message := "No suitable coin found for calibration." |}.
Proof.
  assert (H : forall c, In c [Sample.disc_at_column0] ->
                        coin_candidate (lit 500) (lit 500) c = false).
  { intros c [<-|[]]. reflexivity. }
  split; [exact H|].
  exact (@detectCoin_not_found float _ (lit 500) (lit 500) [Sample.disc_at_column0] H).
Defined.

Lemma finishManualObject_geometry_witness :
  (3 <= List.length Sample.square10)%nat
  /\ exists obj,
       objects (fst (finishManualObject 0 (Some Sample.square10) Sample.fresh))
         = [Measured obj]
       /\ area obj = lit 100
       /\ perimeter obj = lit 40
       /\ map pixelLength (edges obj) = [lit 10; lit 10; lit 10; lit 10].
Proof.
  assert (H : (3 <= List.length Sample.square10)%nat) by (cbn; lia).
  split; [exact H|].
  destruct (@finishManualObject_geometry float _ 0 Sample.square10 Sample.fresh H)
    as (obj & Hobjs & _ & _ & _ & Harea & Hper & _ & _ & Hpx & _).
  exists obj. rewrite Hobjs, Harea, Hper, Hpx.
  repeat split; vm_compute; reflexivity.
Defined.

Lemma finishManualObject_rejects_witness :
  (List.length [Sample.pt 0 0; Sample.pt 10 0] < 3)%nat
  /\ objects (fst (finishManualObject 0 (Some [Sample.pt 0 0; Sample.pt 10 0])
                                      Sample.fresh))
     = objects Sample.fresh
  /\ snd (finishManualObject 0 (Some [Sample.pt 0 0; Sample.pt 10 0]) Sample.fresh)
     = ["At least 3 points are needed to create an object"%string].
Proof.
  assert (H : (List.length [Sample.pt 0 0; Sample.pt 10 0] < 3)%nat) by (cbn; lia).
  split; [exact H|].
  destruct (@finishManualObject_rejects float _ 0
              (Some [Sample.pt 0 0; Sample.pt 10 0]) Sample.fresh H)
    as (Hobjs & Halert & _).
  split; assumption.
Defined.

Lemma addManualObjectPoint_closes_witness :
  creatingPoints Sample.four_clicked = Sample.pt 0 0 :: [Sample.pt 50 0; Sample.pt 50 50; Sample.pt 0 50]
  /\ (2 < List.length (creatingPoints Sample.four_clicked ++ [Sample.pt 2 1]))%nat
  /\ (Math_hypot (x (Sample.pt 2 1) - x (Sample.pt 0 0))
                 (y (Sample.pt 2 1) - y (Sample.pt 0 0)) <? lit 10) = true
  /\ exists obj,
       objects (fst (addManualObjectPoint 0 (Sample.pt 2 1) Sample.four_clicked))
         = [Measured obj]
       /\ points obj = [Sample.pt 0 0; Sample.pt 50 0; Sample.pt 50 50; Sample.pt 0 50].
Proof.
  assert (Hlen : (2 < List.length (creatingPoints Sample.four_clicked
                                   ++ [Sample.pt 2 1]))%nat) by (cbn; lia).
  assert (Hthree : (3 <= List.length (creatingPoints Sample.four_clicked))%nat)
    by (cbn; lia).
  assert (Hnear : (Math_hypot (x (Sample.pt 2 1) - x (Sample.pt 0 0))
                              (y (Sample.pt 2 1) - y (Sample.pt 0 0)) <? lit 10) = true)
    by (vm_compute; reflexivity).
  split; [reflexivity|]. split; [exact Hlen|]. split; [exact Hnear|].
  destruct (@addManualObjectPoint_closes float _ 0 (Sample.pt 2 1) (Sample.pt 0 0)
              [Sample.pt 50 0; Sample.pt 50 50; Sample.pt 0 50]
              Sample.four_clicked eq_refl Hlen Hnear) as (_ & Hobj).
  destruct (Hobj Hthree) as (obj & Hobjs & Hpts & _).
  exists obj. split; assumption.
Defined.

Lemma border_contour_rejected_witness :
  touches_border (lit 500) (lit 500) (boundingRect Sample.disc_at_column0) = true
  /\ detectContours (fun _ => 0%nat)
       (Traced (lit 500) (lit 500)
               ([Sample.bumped_rectangle] ++ Sample.disc_at_column0 :: [])) =
     detectContours (fun _ => 0%nat) (Traced (lit 500) (lit 500) [Sample.bumped_rectangle]).
Proof.
  assert (H : touches_border (lit 500) (lit 500) (boundingRect Sample.disc_at_column0)
              = true) by (apply column0_touches_border; reflexivity).
  split; [exact H|].
  rewrite (proj1 (@border_contour_rejected float _ (lit 500) (lit 500) (fun _ => 0%nat)
                    [Sample.bumped_rectangle] [] Sample.disc_at_column0 H)).
  reflexivity.
Defined.
End Instances.

(** * Further properties *)

(** ** Consistency of calibrated objects *)

Section ConsistencyProperties.
Context {num : Type} {JN : JSNumber num}.
Local Open Scope js_scope.

Lemma closed_pairs_length (pts : list (Point num)) :
  List.length (closed_pairs pts) = List.length pts.
Proof.
  destruct pts as [|first rest]; [reflexivity|].
  unfold closed_pairs. rewrite length_combine, length_app.
  cbn [List.length]. rewrite Nat.add_1_r. apply Nat.min_id.
Qed.

Lemma closed_edges_length (pts : list (Point num)) :
  List.length (closed_edges pts) = List.length pts.
Proof. unfold closed_edges. now rewrite length_map, closed_pairs_length. Qed.

Lemma closed_edges_uncalibrated (pts : list (Point num)) :
  Forall (fun e => realLength e = None) (closed_edges pts).
Proof.
  unfold closed_edges. apply Forall_forall. intros e He.
  apply in_map_iff in He. destruct He as (ab & <- & _). reflexivity.
Qed.

Lemma pixel_measures_mirror (es : list (Edge num)) :
  Forall (fun e => realLength e = None) es -> pixel_measures es = map measure_of es.
Proof.
  unfold pixel_measures. induction 1 as [|e es He _ IH]; [reflexivity|].
  cbn. rewrite IH. unfold measure_of. now rewrite He.
Qed.

Lemma applyPPMToObject_keeps_consistent (obj : DetectedObject num) (scale : option num) :
  consistent obj -> consistent (applyPPMToObject obj scale).
Proof.
  intros (Hlen & Hmirror & Hatomic). unfold applyPPMToObject.
  destruct scale as [p|]; [|now repeat split].
  destruct (falsy p || (p <=? lit 0)); [now repeat split|].
  unfold consistent. cbn. split; [now rewrite length_map|]. split; [reflexivity|].
  right. apply Forall_forall. intros e He. apply in_map_iff in He.
  destruct He as (e0 & <- & _). discriminate.
Qed.

(** X1.  [applyPPMToObject] keeps an object consistent, whatever the
    scale: one edge per point, [measurements.edges] repeating the edges,
    and the edges calibrated all together or not at all.  For a scale the
    guard lets through, every edge of the result is calibrated. *)
Theorem applyPPMToObject_consistent (obj : DetectedObject num) (scale : option num) :
  consistent obj ->
  consistent (applyPPMToObject obj scale)
  /\ (forall p, scale = Some p -> (falsy p || (p <=? lit 0)) = false ->
       Forall (fun e => realLength e <> None) (edges (applyPPMToObject obj scale))).
Proof.
  intros Hok. split; [now apply applyPPMToObject_keeps_consistent|].
  intros p -> Hguard. unfold applyPPMToObject. rewrite Hguard. cbn.
  apply Forall_forall. intros e He. apply in_map_iff in He.
  destruct He as (e0 & <- & _). discriminate.
Qed.
End ConsistencyProperties.

(** ** Real lengths and distances over the reals *)

Section ExactLengths.
Local Open Scope R_scope.





End ExactLengths.

(** ** Distances in binary64 *)

Section Binary64Distance.
Local Open Scope js_scope.

(** X3.  In binary64 [calculatePixelDistance] is symmetric in its two
    points and never below zero, and it is 0 between a point with finite
    coordinates and itself.  It can also be 0 between two different points
    ([pixel_distance_underflows]). *)
Theorem calculatePixelDistance_symmetric (p1 p2 : Point float) :
  calculatePixelDistance p1 p2 = calculatePixelDistance p2 p1
  /\ (calculatePixelDistance p1 p2 <? lit 0) = false
  /\ (is_finite (x p1) = true -> is_finite (y p1) = true ->
      calculatePixelDistance p1 p1 = lit 0).
Proof.
  unfold calculatePixelDistance. cbn [Math_sqrt nadd nmul nsub nlt lit float_number].
  split; [|split].
  - apply FloatAxioms.Prim2SF_inj.
    rewrite !FloatAxioms.sqrt_spec, !FloatAxioms.add_spec, !FloatAxioms.mul_spec,
      !FloatAxioms.sub_spec.
    unfold SF64sqrt, SF64add, SF64mul, SF64sub.
    now rewrite (SFsub_swap_square (Prim2SF (x p2)) (Prim2SF (x p1))),
      (SFsub_swap_square (Prim2SF (y p2)) (Prim2SF (y p1))).
  - rewrite FloatAxioms.ltb_spec, FloatAxioms.sqrt_spec.
    apply SFsqrt_not_below_zero.
  - intros Hx Hy. apply FloatAxioms.Prim2SF_inj.
    rewrite !FloatAxioms.sqrt_spec, !FloatAxioms.add_spec, !FloatAxioms.mul_spec,
      !FloatAxioms.sub_spec.
    unfold SF64sqrt, SF64add, SF64mul, SF64sub.
    rewrite (@SFsub_diag _ (@is_finite_spec _ Hx)), (@SFsub_diag _ (@is_finite_spec _ Hy)).
    reflexivity.
Qed.
End Binary64Distance.

(** ** What every detected object is like *)

Section DetectedObjects.
Context {num : Type} {JN : JSNumber num}.
Local Open Scope js_scope.

Variables canvasWidth canvasHeight : num.
Variable Date_now : nat -> nat.

Local Abbreviation step := (detectContours_step canvasWidth canvasHeight).
Local Abbreviation loop := (detectContours_loop canvasWidth canvasHeight Date_now).
Local Abbreviation pushed := (pushed_after canvasWidth canvasHeight).

Lemma detectContours_step_pushes (now : nat) (objects : list (DetectedObject num))
    (i : nat) (c : Contour num) :
  step now objects i c = objects
  \/ exists o, step now objects i c = objects ++ [o] /\ pushed objects o.
Proof.
  unfold detectContours_step.
  destruct ((contourArea c <? lit 3000)
            || (contourArea c >? canvasWidth * canvasHeight * dec 5 1)) eqn:Harea;
    [now left|].
  destruct (touches_border canvasWidth canvasHeight (boundingRect c)); [now left|].
  destruct ((width (boundingRect c) <? lit 30) || (height (boundingRect c) <? lit 30))
    eqn:Hsize; [now left|].
  apply orb_false_elim in Harea. destruct Harea as [Ha1 Ha2].
  apply orb_false_elim in Hsize. destruct Hsize as [Hs1 Hs2].
  right. eexists. split; [reflexivity|].
  unfold pushed_after, coin_tests, count_non_coins. cbn.
  rewrite build_edges_closed. repeat split; assumption || reflexivity.
Qed.

Lemma positions_after_push (P : list (DetectedObject num) -> DetectedObject num -> Prop)
    (objects : list (DetectedObject num)) (o : DetectedObject num) :
  (forall j o', nth_error objects j = Some o' -> P (firstn j objects) o') ->
  P objects o ->
  forall j o', nth_error (objects ++ [o]) j = Some o' -> P (firstn j (objects ++ [o])) o'.
Proof.
  intros Hold Hnew j o' Hj.
  destruct (Nat.lt_ge_cases j (List.length objects)) as [Hlt|Hge].
  - rewrite nth_error_app1 in Hj by exact Hlt.
    rewrite firstn_app. replace (j - List.length objects)%nat with 0%nat by lia.
    cbn [firstn]. rewrite app_nil_r. now apply Hold.
  - rewrite nth_error_app2 in Hj by exact Hge.
    destruct (j - List.length objects)%nat as [|k] eqn:Hk.
    + cbn in Hj. injection Hj as <-.
      rewrite firstn_app, Hk. cbn [firstn]. rewrite app_nil_r.
      rewrite firstn_all2 by lia. exact Hnew.
    + cbn in Hj. destruct k; discriminate.
Qed.

Lemma detectContours_loop_positions (contours : list (Contour num)) :
  forall (objects : list (DetectedObject num)) (i : nat),
    (forall j o, nth_error objects j = Some o -> pushed (firstn j objects) o) ->
    forall j o, nth_error (loop objects i contours) j = Some o ->
                pushed (firstn j (loop objects i contours)) o.
Proof.
  induction contours as [|c contours IH]; intros objects i Hold; cbn [detectContours_loop].
  - exact Hold.
  - apply IH.
    destruct (detectContours_step_pushes (Date_now i) objects i c)
      as [Heq | (o & Heq & Hnew)]; rewrite Heq; [exact Hold|].
    now apply positions_after_push.
Qed.

Lemma detectContours_positions (contours : list (Contour num))
    (result : list (DetectedObject num)) (j : nat) (o : DetectedObject num) :
  detectContours Date_now (Traced canvasWidth canvasHeight contours) = Returned result ->
  nth_error result j = Some o ->
  pushed (firstn j result) o.
Proof.
  intros Hresult Hj. cbn [detectContours] in Hresult. injection Hresult as <-.
  revert Hj. apply detectContours_loop_positions.
  intros k o' Hk. destruct k; discriminate.
Qed.

Lemma detectContours_loop_length (contours : list (Contour num)) :
  forall (objects : list (DetectedObject num)) (i : nat),
    (List.length objects <= List.length (loop objects i contours)
     <= List.length objects + List.length contours)%nat.
Proof.
  induction contours as [|c contours IH]; intros objects i; cbn [detectContours_loop].
  - cbn. lia.
  - specialize (IH (step (Date_now i) objects i c) (S i)).
    destruct (detectContours_step_pushes (Date_now i) objects i c)
      as [Heq | (o & Heq & _)]; rewrite Heq in *.
    + cbn [List.length]. lia.
    + rewrite length_app in IH. cbn [List.length] in *. lia.
Qed.

(** X4.  In the list [detectContours] returns, the object at position [j]
    has the colour [j mod 8] of the palette; a coin is named "Coin", and any
    other object "Object k" where [k - 1] is the number of objects before it
    that are not coins.  The list is never longer than the list of
    contours. *)
Theorem detectContours_names_and_colours (contours : list (Contour num))
    (result : list (DetectedObject num)) (j : nat) (o : DetectedObject num) :
  detectContours Date_now (Traced canvasWidth canvasHeight contours) = Returned result ->
  nth_error result j = Some o ->
  color o = nth (j mod 8) palette8 EmptyString
  /\ (isCoin o = true -> name o = "Coin"%string)
  /\ (isCoin o = false ->
      name o = ("Object " ++ string_of_nat (count_non_coins (firstn j result) + 1))%string)
  /\ (List.length result <= List.length contours)%nat.
Proof.
  intros Hresult Hj.
  destruct (detectContours_positions _ Hresult Hj) as (Hcolor & Hname & _).
  assert (Hlen : List.length (firstn j result) = j).
  { apply firstn_length_le. apply Nat.lt_le_incl. apply nth_error_Some. now rewrite Hj. }
  rewrite Hlen in Hcolor. split; [exact Hcolor|].
  split; [intros Hc; now rewrite Hc in Hname|].
  split; [intros Hc; now rewrite Hc in Hname|].
  cbn [detectContours] in Hresult. injection Hresult as <-.
  pose proof (detectContours_loop_length contours [] 0) as H. cbn [List.length] in H. lia.
Qed.

(** X5.  No object [detectContours] returns is below the thresholds of the
    pass: its area is neither under 3000 nor over half the image, and its
    bounding rectangle is neither narrower nor lower than 30 pixels. *)
Theorem detectContours_thresholds (contours : list (Contour num))
    (result : list (DetectedObject num)) (o : DetectedObject num) :
  detectContours Date_now (Traced canvasWidth canvasHeight contours) = Returned result ->
  In o result ->
  (area o <? lit 3000) = false
  /\ (area o >? canvasWidth * canvasHeight * dec 5 1) = false
  /\ (width (contour o) <? lit 30) = false
  /\ (height (contour o) <? lit 30) = false.
Proof.
  intros Hresult Hin. apply In_nth_error in Hin. destruct Hin as [j Hj].
  destruct (detectContours_positions _ Hresult Hj)
    as (_ & _ & _ & H1 & H2 & H3 & H4 & _).
  repeat split; assumption.
Qed.

(** X6.  Every object [detectContours] returns is uncalibrated and
    consistent: one edge per point, no [realLength] on any edge,
    [measurements.edges] repeating the pixel lengths of the edges, and
    [measurements.perimeter] null. *)
Theorem detectContours_uncalibrated (contours : list (Contour num))
    (result : list (DetectedObject num)) (o : DetectedObject num) :
  detectContours Date_now (Traced canvasWidth canvasHeight contours) = Returned result ->
  In o result ->
  consistent o
  /\ Forall (fun e => realLength e = None) (edges o)
  /\ Forall (fun m => m_realLength m = None) (m_edges (measurements o))
  /\ map (@m_pixelLength num) (m_edges (measurements o)) = map pixelLength (edges o)
  /\ m_perimeter (measurements o) = None.
Proof.
  intros Hresult Hin. apply In_nth_error in Hin. destruct Hin as [j Hj].
  destruct (detectContours_positions _ Hresult Hj)
    as (_ & _ & _ & _ & _ & _ & _ & Hedges & Hm).
  assert (Hnone : Forall (fun e => realLength e = None) (edges o))
    by (rewrite Hedges; apply closed_edges_uncalibrated).
  split; [|split; [exact Hnone|]].
  - unfold consistent. rewrite Hm. cbn [m_edges].
    split; [rewrite Hedges; apply closed_edges_length|].
    split; [now apply pixel_measures_mirror|now left].
  - rewrite Hm. cbn [m_edges m_perimeter]. unfold pixel_measures.
    split; [|split; [|reflexivity]].
    + apply Forall_forall. intros m Hm'. apply in_map_iff in Hm'.
      destruct Hm' as (e & <- & _). reflexivity.
    + rewrite map_map. reflexivity.
Qed.

(** X7.  An object [detectContours] returns is marked as a coin exactly
    when its own fields pass the five tests of the coin check: circularity
    above 0.60, area above 2500 and below 40 percent of the image, and the
    ratio of width to height of its bounding rectangle between 0.65 and
    1.35. *)
Theorem detectContours_coin_mark (contours : list (Contour num))
    (result : list (DetectedObject num)) (o : DetectedObject num) :
  detectContours Date_now (Traced canvasWidth canvasHeight contours) = Returned result ->
  In o result ->
  isCoin o = coin_tests canvasWidth canvasHeight o
  /\ exists i c, nth_error contours i = Some c
                 /\ circularity o = Some (circularity_of c)
                 /\ area o = contourArea c /\ contour o = boundingRect c.
Proof.
  intros Hresult Hin. pose proof Hin as Hin'.
  apply In_nth_error in Hin. destruct Hin as [j Hj].
  destruct (detectContours_positions _ Hresult Hj) as (_ & _ & Hcoin & _).
  split; [exact Hcoin|].
  cbn [detectContours] in Hresult. injection Hresult as <-.
  apply detectContours_loop_provenance in Hin'.
  destruct Hin' as [[] | (i & c & Hi & _ & _ & Hrect & _ & _ & _ & Harea & _ & Hcirc)].
  exists i, c. repeat split; assumption.
Qed.
End DetectedObjects.

(** ** Which contour the coin search takes *)

Section CoinChoice.
Context {num : Type} {JN : JSNumber num}.
Local Open Scope js_scope.

Lemma detectCoin_step_candidate (canvasWidth canvasHeight : num)
    (st : option num * num) (c : Contour num) :
  coin_candidate canvasWidth canvasHeight c = true ->
  detectCoin_step canvasWidth canvasHeight st c =
  if circularity_of c >? snd st
  then (Some (Math_max [width (boundingRect c); height (boundingRect c)]),
        circularity_of c)
  else st.
Proof.
  unfold coin_candidate, detectCoin_step, circularity_of. destruct st as [coinDiameter best].
  destruct ((contourArea c <? lit 3000)
            || (contourArea c >? canvasWidth * canvasHeight * dec 4 1));
    [discriminate|].
  destruct ((width (boundingRect c) <? lit 40) || (height (boundingRect c) <? lit 40));
    [discriminate|].
  destruct (touches_border canvasWidth canvasHeight (boundingRect c)); [discriminate|].
  cbn [negb andb snd]. intros ->. reflexivity.
Qed.

Lemma detectCoin_loop_picks (canvasWidth canvasHeight : num)
    (contours : list (Contour num)) :
  forall (seen : list (Contour num)) (st : option num * num),
    (fst st = None
     \/ exists c, In c seen /\ coin_candidate canvasWidth canvasHeight c = true
                  /\ fst st = Some (Math_max [width (boundingRect c);
                                              height (boundingRect c)])) ->
    let st' := fold_left (detectCoin_step canvasWidth canvasHeight) contours st in
    fst st' = None
    \/ exists c, In c (seen ++ contours)
                 /\ coin_candidate canvasWidth canvasHeight c = true
                 /\ fst st' = Some (Math_max [width (boundingRect c);
                                              height (boundingRect c)]).
Proof.
  induction contours as [|c contours IH]; intros seen st Hst; cbn [fold_left].
  - cbv zeta. now rewrite app_nil_r.
  - replace (seen ++ c :: contours) with ((seen ++ [c]) ++ contours)
      by (now rewrite <- app_assoc).
    apply IH.
    destruct (coin_candidate canvasWidth canvasHeight c) eqn:Hc.
    + rewrite detectCoin_step_candidate by exact Hc.
      destruct (circularity_of c >? snd st).
      * right. exists c. cbn [fst]. repeat split; [apply in_or_app; right; now left|exact Hc].
      * destruct Hst as [Hnone | (c' & Hin & Hc' & Hfst)]; [now left|].
        right. exists c'. repeat split; [apply in_or_app; now left|exact Hc'|exact Hfst].
    + rewrite detectCoin_step_skips by exact Hc.
      destruct Hst as [Hnone | (c' & Hin & Hc' & Hfst)]; [now left|].
      right. exists c'. repeat split; [apply in_or_app; now left|exact Hc'|exact Hfst].
Qed.

(** X10.  When [detectCoin] reports a coin, the diameter it returns is
    [Math.max(rect.width, rect.height)] of the bounding rectangle of one of
    the traced contours, and that contour passes every filter of the
    search. *)
Theorem detectCoin_diameter_source (canvasWidth canvasHeight : num)
    (contours : list (Contour num)) (r : CoinResult num) :
  detectCoin (Traced canvasWidth canvasHeight contours) = Returned r ->
  found r = true ->
  exists c, In c contours
            /\ coin_candidate canvasWidth canvasHeight c = true
            /\ pixelDiameter r =
               Some (Math_max [width (boundingRect c); height (boundingRect c)]).
Proof.
  intros Hr Hfound. cbn [detectCoin] in Hr.
  pose proof (@detectCoin_loop_picks canvasWidth canvasHeight contours [] (None, lit 0)
                (or_introl eq_refl)) as Hpick.
  cbv zeta in Hpick. cbn [app] in Hpick.
  destruct (fold_left (detectCoin_step canvasWidth canvasHeight) contours (None, lit 0))
    as [coinDiameter best].
  cbn [fst] in Hpick.
  destruct (truthy coinDiameter) eqn:Htruthy; injection Hr as <-; cbn in Hfound |- *;
    [|discriminate].
  destruct Hpick as [-> | Hpick]; [discriminate|exact Hpick].
Qed.
End CoinChoice.

Section MostCircular.
Context {num : Type} {JN : JSNumber num} {JO : JSNumberOrder num}.
Local Open Scope js_scope.

(** The invariant of the search: no candidate met so far has a circularity
    above [bestCircularity], and the diameter kept, if any, is that of a
    candidate whose circularity is [bestCircularity]. *)
Lemma detectCoin_loop_best (canvasWidth canvasHeight : num)
    (contours : list (Contour num)) :
  forall (seen : list (Contour num)) (st : option num * num),
    (forall c', In c' seen -> coin_candidate canvasWidth canvasHeight c' = true ->
                (snd st <? circularity_of c') = false) ->
    (fst st = None
     \/ exists c, In c seen /\ coin_candidate canvasWidth canvasHeight c = true
                  /\ st = (Some (Math_max [width (boundingRect c);
                                           height (boundingRect c)]),
                           circularity_of c)) ->
    let st' := fold_left (detectCoin_step canvasWidth canvasHeight) contours st in
    (forall c', In c' (seen ++ contours) ->
                coin_candidate canvasWidth canvasHeight c' = true ->
                (snd st' <? circularity_of c') = false)
    /\ (fst st' = None
        \/ exists c, In c (seen ++ contours)
                     /\ coin_candidate canvasWidth canvasHeight c = true
                     /\ st' = (Some (Math_max [width (boundingRect c);
                                               height (boundingRect c)]),
                               circularity_of c)).
Proof.
  induction contours as [|c contours IH]; intros seen st Hbest Hst; cbn [fold_left].
  - cbv zeta. rewrite app_nil_r. now split.
  - replace (seen ++ c :: contours) with ((seen ++ [c]) ++ contours)
      by (now rewrite <- app_assoc).
    destruct (coin_candidate canvasWidth canvasHeight c) eqn:Hc.
    + rewrite (@detectCoin_step_candidate num JN canvasWidth canvasHeight st c Hc).
      destruct (circularity_of c >? snd st) eqn:Hcmp.
      * apply IH; cbn [fst snd].
        -- intros c' Hin' Hc'. apply in_app_or in Hin'.
           destruct Hin' as [Hin' | [<- | []]]; [|apply nlt_irrefl].
           destruct (circularity_of c <? circularity_of c') eqn:Hlt; [|reflexivity].
           specialize (Hbest c' Hin' Hc').
           rewrite (@nlt_trans num JN JO _ _ _ Hcmp Hlt) in Hbest. discriminate.
        -- right. exists c. split; [apply in_or_app; right; now left|]. now split.
      * apply IH.
        -- intros c' Hin' Hc'. apply in_app_or in Hin'.
           destruct Hin' as [Hin' | [<- | []]]; [now apply Hbest|exact Hcmp].
        -- destruct Hst as [Hnone | (c0 & Hin & Hc0 & Hst)]; [now left|].
           right. exists c0. split; [apply in_or_app; now left|]. now split.
    + rewrite (@detectCoin_step_skips num JN canvasWidth canvasHeight st c Hc).
      apply IH.
      * intros c' Hin' Hc'. apply in_app_or in Hin'.
        destruct Hin' as [Hin' | [<- | []]]; [now apply Hbest|congruence].
      * destruct Hst as [Hnone | (c0 & Hin & Hc0 & Hst)]; [now left|].
        right. exists c0. split; [apply in_or_app; now left|]. now split.
Qed.

(** X11.  When [detectCoin] reports a coin, the contour whose diameter it
    returns is the most circular of those that pass the filters: no
    traced contour that passes has a circularity above its own, wherever
    it stands in the list. *)
Theorem detectCoin_most_circular (canvasWidth canvasHeight : num)
    (contours : list (Contour num)) (r : CoinResult num) :
  detectCoin (Traced canvasWidth canvasHeight contours) = Returned r ->
  found r = true ->
  exists c,
    In c contours
    /\ coin_candidate canvasWidth canvasHeight c = true
    /\ pixelDiameter r =
       Some (Math_max [width (boundingRect c); height (boundingRect c)])
    /\ forall c', In c' contours -> coin_candidate canvasWidth canvasHeight c' = true ->
                  (circularity_of c <? circularity_of c') = false.
Proof.
  intros Hr Hfound. cbn [detectCoin] in Hr.
  pose proof (@detectCoin_loop_best canvasWidth canvasHeight contours [] (None, lit 0)
                (fun c' (H : In c' []) => match H with end) (or_introl eq_refl))
    as Hloop.
  cbv zeta in Hloop. cbn [app] in Hloop.
  destruct (fold_left (detectCoin_step canvasWidth canvasHeight) contours (None, lit 0))
    as [coinDiameter best].
  destruct Hloop as [Hbest Hpick]. cbn [fst snd] in Hbest, Hpick.
  destruct (truthy coinDiameter) eqn:Htruthy; injection Hr as <-; cbn in Hfound |- *;
    [|discriminate].
  destruct Hpick as [-> | (c & Hin & Hc & Hst)]; [discriminate|].
  injection Hst as -> ->. exists c. now repeat split.
Qed.
End MostCircular.

(** ** The detection pass over the reals *)

Section ExactDetection.
Local Open Scope R_scope.



Lemma Exact_leb_true (a b : R) : Exact.leb a b = true <-> a <= b.
Proof. unfold Exact.leb. destruct (Rle_dec a b); split; intros; congruence || lra. Qed.


End ExactDetection.

(** ** The older coin search *)

Section LegacyCoinSearch.
Context {num : Type} {JN : JSNumber num}.
Local Open Scope js_scope.

Lemma legacy_detectCoin_loop_skips (contours rest : list (Contour num)) :
  (forall c, In c contours -> legacy_candidate c = false) ->
  Legacy.detectCoin_loop (contours ++ rest) = Legacy.detectCoin_loop rest.
Proof.
  induction contours as [|c contours IH]; intros Hnone; [reflexivity|].
  cbn [app Legacy.detectCoin_loop].
  assert (Hc : legacy_candidate c = false) by (apply Hnone; now left).
  unfold legacy_candidate, circularity_of in Hc.
  destruct ((contourArea c <? lit 1000) || (contourArea c >? lit 50000)).
  - apply IH. intros c' Hin. apply Hnone. now right.
  - cbn [negb andb] in Hc. rewrite Hc. apply IH. intros c' Hin. apply Hnone. now right.
Qed.

(** X12.  The older [detectCoin] takes the first contour whose area lies in
    [1000, 50000] and whose circularity is above 0.7, and looks no further:
    what follows it in the list has no influence on the diameter. *)
Theorem legacy_detectCoin_first_match (before after : list (Contour num))
    (c : Contour num) :
  (forall c', In c' before -> legacy_candidate c' = false) ->
  legacy_candidate c = true ->
  Legacy.detectCoin_loop (before ++ c :: after) =
  Some (Math_max [width (boundingRect c); height (boundingRect c)]).
Proof.
  intros Hnone Hc. rewrite legacy_detectCoin_loop_skips by exact Hnone.
  cbn [Legacy.detectCoin_loop]. unfold legacy_candidate, circularity_of in Hc.
  destruct ((contourArea c <? lit 1000) || (contourArea c >? lit 50000));
    [discriminate|].
  cbn [negb andb] in Hc. rewrite Hc. reflexivity.
Qed.

(** X13.  When no contour has an area in [1000, 50000] together with a
    circularity above 0.7, the older [detectCoin] does not return: it
    rejects with the error "No coin detected". *)
Theorem legacy_detectCoin_throws (contours : list (Contour num)) :
  (forall c, In c contours -> legacy_candidate c = false) ->
  Legacy.detectCoin contours = Thrown "No coin detected".
Proof.
  intros Hnone. unfold Legacy.detectCoin.
  rewrite <- (app_nil_r contours), legacy_detectCoin_loop_skips by exact Hnone.
  reflexivity.
Qed.
End LegacyCoinSearch.

(** ** The session: calibration by two clicks, new objects, undo, delete *)

Section SessionActionProperties.
Context {num : Type} {JN : JSNumber num}.
Local Open Scope js_scope.

(** The object [finishManualObject] builds from [pts] in state [prev],
    before a scale is applied to it. *)
Lemma finishManualObject_new_object (now : nat) (pts : list (Point num))
    (prev : State num) :
  (3 <= List.length pts)%nat ->
  let k := List.length (filter (fun o => negb (so_isCoin o)) (objects prev)) in
  let newObj :=
    {| id := "manual_" ++ string_of_nat now ++ "_" ++ string_of_nat (k + 1);
       name := "Object " ++ string_of_nat (k + 1);
       color := nth ((k + 1) mod 5) palette5 EmptyString;
       contour := {| rect_x := Math_min (map x pts); rect_y := Math_min (map y pts);
                     width := Math_max (map x pts) - Math_min (map x pts);
                     height := Math_max (map y pts) - Math_min (map y pts) |};
       points := pts;
       edges := closed_edges pts;
       area := Math_abs (shoelace_sum pts) / lit 2;
       perimeter := sum_pixelLength (closed_edges pts);
       isCoin := false;
       circularity := None;
       measurements :=
         {| m_edges := pixel_measures (closed_edges pts);
            m_perimeter := Some (sum_pixelLength (closed_edges pts)) |} |}%string in
  finishManualObject now (Some pts) prev =
  ({| objects :=
        objects prev ++
        [Measured (if truthy (ppm prev) then applyPPMToObject newObj (ppm prev)
                   else newObj)];
      ppm := ppm prev; coinDiameter := coinDiameter prev; mode := select;
      manualCoinPoints := manualCoinPoints prev; creatingPoints := [] |}, []).
Proof.
  intros Hlen k newObj. subst k newObj. unfold finishManualObject.
  assert (Hge : (List.length pts <? 3)%nat = false) by (apply Nat.ltb_ge; lia).
  rewrite Hge, perimeter_loop_closed, shoelace_loop_closed. reflexivity.
Qed.

(** X17.  In a session calibrated with a scale above zero,
    [finishManualObject] calibrates the object it creates: every edge
    carries [Math.round((pixelLength / ppm) * 100) / 100] and
    [measurements.perimeter] is the rounded quotient of the pixel perimeter
    by the scale. *)
Theorem finishManualObject_calibrates {JL : JSNumberLaws num} (now : nat)
    (pts : list (Point num)) (prev : State num) (scale : num) :
  (3 <= List.length pts)%nat ->
  ppm prev = Some scale ->
  (lit 0 <? scale) = true ->
  exists obj,
    objects (fst (finishManualObject now (Some pts) prev)) = objects prev ++ [Measured obj]
    /\ edges obj =
       map (fun e => with_realLength e (round2 (pixelLength e / scale))) (closed_edges pts)
    /\ m_edges (measurements obj) = map measure_of (edges obj)
    /\ m_perimeter (measurements obj) =
       Some (round2 (sum_pixelLength (closed_edges pts) / scale)).
Proof.
  intros Hlen Hppm Hpos.
  rewrite (@finishManualObject_new_object now pts prev Hlen). cbv zeta.
  rewrite Hppm. cbn [truthy fst objects]. rewrite (pos_truthy _ Hpos). cbn [negb].
  eexists. split; [reflexivity|].
  rewrite (@applyPPMToObject_pos num JN JL _ scale Hpos). cbn.
  repeat split; reflexivity.
Qed.

(** X18.  In a session without a usable scale ([ppm] null, zero or NaN)
    the object [finishManualObject] creates has no [realLength] on any edge,
    and its [measurements.perimeter] is not null: it holds the perimeter in
    pixels. *)
Theorem finishManualObject_uncalibrated (now : nat) (pts : list (Point num))
    (prev : State num) :
  (3 <= List.length pts)%nat ->
  truthy (ppm prev) = false ->
  exists obj,
    objects (fst (finishManualObject now (Some pts) prev)) = objects prev ++ [Measured obj]
    /\ Forall (fun e => realLength e = None) (edges obj)
    /\ m_perimeter (measurements obj) = Some (perimeter obj)
    /\ perimeter obj = sum_pixelLength (closed_edges pts).
Proof.
  intros Hlen Hppm.
  rewrite (@finishManualObject_new_object now pts prev Hlen). cbv zeta.
  rewrite Hppm. cbn [fst objects]. eexists. split; [reflexivity|]. cbn.
  split; [apply closed_edges_uncalibrated|]. split; reflexivity.
Qed.

(** X19.  The name, the identifier and the colour of a manual object come
    from the number [k] of objects in the collection that are not coins at
    the time it is made: "Object k+1", "manual_<now>_<k+1>" and entry
    [(k + 1) mod 5] of the five-colour palette.  Objects deleted earlier are
    not counted, so a name can be given twice. *)
Theorem finishManualObject_numbering (now : nat) (pts : list (Point num))
    (prev : State num) :
  (3 <= List.length pts)%nat ->
  let k := List.length (filter (fun o => negb (so_isCoin o)) (objects prev)) in
  exists obj,
    objects (fst (finishManualObject now (Some pts) prev)) = objects prev ++ [Measured obj]
    /\ name obj = ("Object " ++ string_of_nat (k + 1))%string
    /\ id obj = ("manual_" ++ string_of_nat now ++ "_" ++ string_of_nat (k + 1))%string
    /\ color obj = nth ((k + 1) mod 5) palette5 EmptyString.
Proof.
  intros Hlen k. subst k.
  rewrite (@finishManualObject_new_object now pts prev Hlen). cbv zeta.
  cbn [fst objects]. eexists. split; [reflexivity|].
  destruct (truthy (ppm prev)).
  - match goal with
    | |- context [applyPPMToObject ?o ?s] =>
        destruct (applyPPMToObject_same_frame o s) as (Hid & Hname & Hcolor & _)
    end.
    cbv zeta in Hid, Hname, Hcolor. rewrite Hid, Hname, Hcolor. cbn.
    repeat split; reflexivity.
  - cbn. repeat split; reflexivity.
Qed.
End SessionActionProperties.

(** ** Calibration by two clicks *)

Section TwoClickCalibration.
Context {num : Type} {JN : JSNumber num}.
Local Open Scope js_scope.

Lemma setManualCoinPoints_first (now : nat) (p : Point num) (prev : State num) :
  manualCoinPoints prev = [] ->
  setManualCoinPoints now p prev =
  {| objects := objects prev; ppm := ppm prev; coinDiameter := coinDiameter prev;
     mode := mode prev; manualCoinPoints := [p]; creatingPoints := creatingPoints prev |}.
Proof.
  intros Hnone. unfold setManualCoinPoints. rewrite Hnone. cbn.
  destruct p; reflexivity.
Qed.

Lemma setManualCoinPoints_second (now : nat) (p0 p1 : Point num) (prev : State num) :
  manualCoinPoints prev = [p0] ->
  setManualCoinPoints now p1 prev =
  {| objects :=
       Reference {| ref_id := "coin_" ++ string_of_nat now;
                    ref_name := "Coin (Reference)";
                    ref_color := "#F59E0B";
                    ref_pixelDistance := calculatePixelDistance p0 p1;
                    ref_center := Some {| x := (x p0 + x p1) / lit 2;
                                          y := (y p0 + y p1) / lit 2 |} |}
       :: calibrated_members (Some (calculatePPM (calculatePixelDistance p0 p1)))
                             (objects prev);
     ppm := Some (calculatePPM (calculatePixelDistance p0 p1));
     coinDiameter := Some (calculatePixelDistance p0 p1);
     mode := select; manualCoinPoints := [];
     creatingPoints := creatingPoints prev |}%string.
Proof.
  intros Hone. unfold setManualCoinPoints. rewrite Hone. cbn.
  destruct p1; reflexivity.
Qed.

Lemma calibrated_member_inv (scale : option num) (members : list (SessionObject num))
    (obj : DetectedObject num) :
  In (Measured obj) (calibrated_members scale members) ->
  exists obj0, In (Measured obj0) members /\ isCoin obj0 = false
               /\ obj = applyPPMToObject obj0 scale.
Proof.
  unfold calibrated_members. intros Hin. apply in_map_iff in Hin.
  destruct Hin as (o & Ho & Hin). apply filter_In in Hin. destruct Hin as [Hin Hcoin].
  destruct o as [coin|obj0]; [discriminate|]. cbn in Ho, Hcoin.
  injection Ho as <-. exists obj0. apply negb_true_iff in Hcoin. now repeat split.
Qed.

(** X15.  The second calibration click, at a distance from the first that
    gives a scale above zero, recalibrates the whole session at once: the
    scale and the coin diameter are stored, the collection becomes one new
    coin reference followed by every object that is not a coin, each with
    all its real lengths and its measured perimeter computed from the new
    scale; earlier references are dropped and the mode returns to
    ['select']. *)
Theorem manual_calibration_recalibrates {JL : JSNumberLaws num} (now0 now1 : nat)
    (p0 p1 : Point num) (prev : State num) :
  manualCoinPoints prev = [] ->
  (lit 0 <? calculatePPM (calculatePixelDistance p0 p1)) = true ->
  let scale := calculatePPM (calculatePixelDistance p0 p1) in
  let s := setManualCoinPoints now1 p1 (setManualCoinPoints now0 p0 prev) in
  ppm s = Some scale
  /\ coinDiameter s = Some (calculatePixelDistance p0 p1)
  /\ mode s = select /\ manualCoinPoints s = []
  /\ creatingPoints s = creatingPoints prev
  /\ (exists coin, objects s = Reference coin :: calibrated_members (Some scale) (objects prev)
                   /\ ref_pixelDistance coin = calculatePixelDistance p0 p1)
  /\ (forall obj, In (Measured obj) (objects s) ->
        isCoin obj = false
        /\ Forall (fun e => realLength e = Some (round2 (pixelLength e / scale))) (edges obj)
        /\ m_perimeter (measurements obj) = Some (round2 (perimeter obj / scale)))
  /\ (forall obj, In (Measured obj) (objects prev) -> isCoin obj = false ->
        In (Measured (applyPPMToObject obj (Some scale))) (objects s))
  /\ List.length (objects s) =
     S (List.length (filter (fun o => negb (so_isCoin o)) (objects prev))).
Proof.
  intros Hnone Hpos scale s. subst s.
  rewrite (@setManualCoinPoints_first now0 p0 prev Hnone).
  erewrite (@setManualCoinPoints_second now1 p0 p1) by reflexivity.
  cbn [ppm coinDiameter mode manualCoinPoints creatingPoints objects]. fold scale.
  split; [reflexivity|]. split; [reflexivity|]. split; [reflexivity|].
  split; [reflexivity|]. split; [reflexivity|].
  split; [eexists; split; reflexivity|].
  split; [|split].
  - intros obj [Hin|Hin]; [discriminate|].
    apply calibrated_member_inv in Hin. destruct Hin as (obj0 & _ & Hcoin & ->).
    rewrite (@applyPPMToObject_pos num JN JL obj0 scale Hpos). cbn.
    split; [exact Hcoin|]. split; [|reflexivity].
    apply Forall_forall. intros e He. apply in_map_iff in He.
    destruct He as (e0 & <- & _). reflexivity.
  - intros obj Hin Hcoin. right. unfold calibrated_members.
    apply in_map_iff. exists (Measured obj). split; [reflexivity|].
    apply filter_In. split; [exact Hin|]. cbn. now rewrite Hcoin.
  - cbn [List.length]. unfold calibrated_members. now rewrite length_map.
Qed.

Lemma handleClicks_in_select (now : nat) (clicks : list (Point num)) (s : State num)
    (alerts : list string) :
  mode s = select ->
  fold_left
    (fun (acc : State num * list string) p =>
       let '(s', alerts') := handleClick now p (fst acc) in
       (s', snd acc ++ alerts'))
    clicks (s, alerts) = (s, alerts).
Proof.
  intros Hsel. induction clicks as [|p clicks IH]; [reflexivity|].
  cbn [fold_left fst snd]. unfold handleClick at 2. rewrite Hsel.
  rewrite app_nil_r. exact IH.
Qed.

(** X23.  In mode ['manual_coin'] with no point picked yet, the first two
    canvas clicks calibrate the session and every later click is ignored,
    the mode having returned to ['select']. *)
Theorem clicks_after_calibration_ignored (now : nat) (p0 p1 : Point num)
    (more : list (Point num)) (s : State num) :
  mode s = manual_coin ->
  manualCoinPoints s = [] ->
  handleClicks now (p0 :: p1 :: more) s =
  (setManualCoinPoints now p1 (setManualCoinPoints now p0 s), []).
Proof.
  intros Hmode Hnone.
  assert (Hmode1 : mode (setManualCoinPoints now p0 s) = manual_coin)
    by (rewrite (@setManualCoinPoints_first now p0 s Hnone); exact Hmode).
  assert (Hmode2 : mode (setManualCoinPoints now p1 (setManualCoinPoints now p0 s))
                   = select).
  { rewrite (@setManualCoinPoints_first now p0 s Hnone).
    erewrite (@setManualCoinPoints_second now p0 p1) by reflexivity. reflexivity. }
  assert (Hstep : forall p s0, mode s0 = manual_coin ->
                    handleClick now p s0 = (setManualCoinPoints now p s0, []))
    by (intros p s0 H0; unfold handleClick; now rewrite H0).
  unfold handleClicks. cbn [fold_left fst snd].
  rewrite (Hstep p0 s Hmode). cbn [fst snd app].
  rewrite (Hstep p1 _ Hmode1). cbn [fst snd app].
  now apply handleClicks_in_select.
Qed.
End TwoClickCalibration.

(** ** The session keeps its objects consistent *)

Section SessionInvariant.
Context {num : Type} {JN : JSNumber num}.
Local Open Scope js_scope.

Lemma addManualObjectPoint_cases (now : nat) (p : Point num) (prev : State num) :
  addManualObjectPoint now p prev =
    ({| objects := objects prev; ppm := ppm prev; coinDiameter := coinDiameter prev;
        mode := mode prev; manualCoinPoints := manualCoinPoints prev;
        creatingPoints := creatingPoints prev ++ [p] |}, [])
  \/ addManualObjectPoint now p prev =
       finishManualObject now (Some (creatingPoints prev))
         {| objects := objects prev; ppm := ppm prev; coinDiameter := coinDiameter prev;
            mode := mode prev; manualCoinPoints := manualCoinPoints prev;
            creatingPoints := [] |}.
Proof.
  unfold addManualObjectPoint, addManualObjectPoint_updater.
  destruct (2 <? List.length (creatingPoints prev ++ [p]))%nat; [|now left].
  destruct (creatingPoints prev ++ [p]) as [|first l] eqn:Hpts; [now left|].
  destruct (Math_hypot (x p - x first) (y p - y first) <? lit 10); [|now left].
  right. cbn [fold_left fst snd app]. rewrite <- Hpts, removelast_last.
  destruct (finishManualObject now (Some (creatingPoints prev)) _). reflexivity.
Qed.

Lemma finishManualObject_keeps_consistent (now : nat)
    (given : option (list (Point num))) (prev : State num) :
  Forall member_consistent (objects prev) ->
  Forall member_consistent (objects (fst (finishManualObject now given prev))).
Proof.
  intros Hok.
  set (pts := match given with Some l => l | None => creatingPoints prev end).
  destruct (Nat.lt_ge_cases (List.length pts) 3) as [Hshort|Hlong].
  - rewrite finishManualObject_short by exact Hshort. exact Hok.
  - assert (Heq : finishManualObject now given prev =
                  finishManualObject now (Some pts) prev)
      by (destruct given; reflexivity).
    rewrite Heq, (@finishManualObject_new_object num JN now pts prev Hlong). cbv zeta.
    cbn [fst objects]. apply Forall_app. split; [exact Hok|].
    constructor; [|constructor]. cbn [member_consistent].
    match goal with
    | |- consistent (if _ then applyPPMToObject ?o _ else _) =>
        assert (Hnew : consistent o)
    end.
    { unfold consistent. cbn [edges points measurements m_edges].
      split; [apply closed_edges_length|].
      split; [apply pixel_measures_mirror, closed_edges_uncalibrated|].
      left. apply closed_edges_uncalibrated. }
    destruct (truthy (ppm prev)); [now apply applyPPMToObject_keeps_consistent|exact Hnew].
Qed.
End SessionInvariant.

Section SessionInvariantTheorems.
Context {num : Type} {JN : JSNumber num}.
Local Open Scope js_scope.

Lemma calibrated_members_consistent (scale : option num)
    (members : list (SessionObject num)) :
  Forall member_consistent members ->
  Forall member_consistent (calibrated_members scale members).
Proof.
  intros Hok. unfold calibrated_members. apply Forall_forall. intros o Ho.
  apply in_map_iff in Ho. destruct Ho as (o0 & <- & Hin).
  apply filter_In in Hin. destruct Hin as [Hin _].
  rewrite Forall_forall in Hok. specialize (Hok o0 Hin).
  destruct o0 as [coin|obj]; [exact I|].
  cbn [calibrate_member member_consistent] in *.
  now apply applyPPMToObject_keeps_consistent.
Qed.

Lemma setManualCoinPoints_objects (now : nat) (p : Point num) (prev : State num) :
  objects (setManualCoinPoints now p prev) = objects prev
  \/ exists coin scale,
       objects (setManualCoinPoints now p prev) =
       Reference coin :: calibrated_members scale (objects prev).
Proof.
  unfold setManualCoinPoints.
  destruct (List.length (manualCoinPoints prev ++ [ {| x := x p; y := y p |} ]) =? 2)%nat;
    [right; do 2 eexists; reflexivity|now left].
Qed.

(** X20.  Every updater of the session keeps the collection consistent: if
    each object has one edge per point, [measurements.edges] repeating its
    edges, and its edges calibrated all together or not at all, the same
    holds after [finishManualObject], [addManualObjectPoint],
    [setManualCoinPoints], [deleteObject], [undoLastPoint] and a canvas
    click. *)
Theorem session_stays_consistent (now : nat) (p : Point num)
    (given : option (list (Point num))) (target : string) (s : State num) :
  Forall member_consistent (objects s) ->
  Forall member_consistent (objects (fst (finishManualObject now given s)))
  /\ Forall member_consistent (objects (fst (addManualObjectPoint now p s)))
  /\ Forall member_consistent (objects (setManualCoinPoints now p s))
  /\ Forall member_consistent (objects (deleteObject target s))
  /\ Forall member_consistent (objects (undoLastPoint s))
  /\ Forall member_consistent (objects (fst (handleClick now p s))).
Proof.
  intros Hok.
  assert (Hadd : Forall member_consistent (objects (fst (addManualObjectPoint now p s)))).
  { destruct (addManualObjectPoint_cases now p s) as [-> | ->]; [exact Hok|].
    now apply finishManualObject_keeps_consistent. }
  assert (Hcoin : Forall member_consistent (objects (setManualCoinPoints now p s))).
  { destruct (setManualCoinPoints_objects now p s) as [-> | (coin & scale & ->)];
      [exact Hok|].
    constructor; [exact I|now apply calibrated_members_consistent]. }
  split; [now apply finishManualObject_keeps_consistent|].
  split; [exact Hadd|]. split; [exact Hcoin|].
  split; [|split; [exact Hok|]].
  - cbn [deleteObject objects]. apply Forall_forall. intros o Ho.
    apply filter_In in Ho. destruct Ho as [Ho _].
    rewrite Forall_forall in Hok. now apply Hok.
  - unfold handleClick. destruct (mode s); [exact Hok|exact Hcoin|exact Hadd].
Qed.

(** X21.  [undoLastPoint] takes back a click that did not close the
    polygon: after [addManualObjectPoint] has only appended the point, the
    state is the one before the click.  With no point gathered it changes
    nothing. *)
Theorem undoLastPoint_takes_back (now : nat) (p : Point num) (s : State num) :
  ((List.length (creatingPoints s ++ [p]) <= 2)%nat
   \/ forall first, hd_error (creatingPoints s ++ [p]) = Some first ->
                    (Math_hypot (x p - x first) (y p - y first) <? lit 10) = false) ->
  undoLastPoint (fst (addManualObjectPoint now p s)) = s
  /\ (creatingPoints s = [] -> undoLastPoint s = s).
Proof.
  intros Hkeep. split.
  - unfold addManualObjectPoint, addManualObjectPoint_updater.
    destruct (2 <? List.length (creatingPoints s ++ [p]))%nat eqn:Hmany.
    + destruct (creatingPoints s ++ [p]) as [|first l] eqn:Hpts.
      * destruct (creatingPoints s); discriminate.
      * assert (Hfar : (Math_hypot (x p - x first) (y p - y first) <? lit 10) = false).
        { destruct Hkeep as [Hfew | Hfar]; [|now apply Hfar].
          apply Nat.ltb_lt in Hmany. lia. }
        rewrite Hfar. cbn [fold_left fst]. unfold undoLastPoint.
        cbn [objects ppm coinDiameter mode manualCoinPoints creatingPoints].
        rewrite <- Hpts, removelast_last. destruct s; reflexivity.
    + cbn [fold_left fst]. unfold undoLastPoint.
      cbn [objects ppm coinDiameter mode manualCoinPoints creatingPoints].
      rewrite removelast_last. destruct s; reflexivity.
  - intros Hnone. unfold undoLastPoint. rewrite Hnone. cbn.
    destruct s; cbn in *; now subst.
Qed.

(** X22.  [deleteObject(id)] removes every member with that identifier and
    nothing else: the others stay, in order; deleting again, or deleting an
    identifier that is not there, changes nothing; the scale and the coin
    diameter stay as they are, also when the member deleted is the coin
    reference. *)
Theorem deleteObject_spec (target : string) (s : State num) :
  (forall o, In o (objects (deleteObject target s)) <->
             In o (objects s) /\ so_id o <> target)
  /\ (exists keep, objects (deleteObject target s) =
                   filter keep (objects s))
  /\ deleteObject target (deleteObject target s) = deleteObject target s
  /\ ((forall o, In o (objects s) -> so_id o <> target) -> deleteObject target s = s)
  /\ ppm (deleteObject target s) = ppm s
  /\ coinDiameter (deleteObject target s) = coinDiameter s.
Proof.
  split; [|split; [|split; [|split]]].
  - intros o. cbn [deleteObject objects]. rewrite filter_In.
    rewrite negb_true_iff. split; intros [Hin Hne]; split; try exact Hin.
    + intros Heq. apply String.eqb_eq in Heq. congruence.
    + apply String.eqb_neq. exact Hne.
  - eexists. reflexivity.
  - unfold deleteObject. cbn. f_equal.
    induction (objects s) as [|o l IH]; [reflexivity|].
    cbn [filter]. destruct (negb (String.eqb (so_id o) target)) eqn:Ho; [|exact IH].
    cbn [filter]. rewrite Ho. now f_equal.
  - intros Habsent. unfold deleteObject.
    assert (Hsame : filter (fun o => negb (String.eqb (so_id o) target)) (objects s)
                    = objects s).
    { induction (objects s) as [|o l IH]; [reflexivity|].
      cbn [filter].
      assert (Ho : String.eqb (so_id o) target = false)
        by (apply String.eqb_neq, Habsent; now left).
      rewrite Ho. cbn [negb]. f_equal. apply IH. intros o' Hin. apply Habsent. now right. }
    rewrite Hsame. destruct s; reflexivity.
  - split; reflexivity.
Qed.
End SessionInvariantTheorems.

(** ** The session over the reals *)

Section ExactSession.
Local Open Scope R_scope.



End ExactSession.

(** ** Hit testing *)

Section HitTestProperties.
Context {num : Type} {JN : JSNumber num}.
Local Open Scope js_scope.

Lemma isPointInPolygon_no_crossing (point : Point num) (polygon : list (Point num))
    (side : bool) :
  (forall v, In v polygon -> (y v >? y point) = side) ->
  forall (l : list nat) (j : nat),
    (forall i, In i l -> (i < List.length polygon)%nat) ->
    (j < List.length polygon)%nat ->
    fst (fold_left (isPointInPolygon_step point polygon) l (false, j)) = false.
Proof.
  intros Hside l. induction l as [|i l IH]; intros j Hl Hj; [reflexivity|].
  cbn [fold_left isPointInPolygon_step]. unfold intersect.
  rewrite (Hside (nth i polygon origin)) by (apply nth_In, Hl; now left).
  rewrite (Hside (nth j polygon origin)) by (apply nth_In, Hj).
  rewrite xorb_nilpotent. cbn [andb].
  apply IH; [intros k Hk; apply Hl; now right|apply Hl; now left].
Qed.
End HitTestProperties.

Section HitTestTheorems.
Context {num : Type} {JN : JSNumber num}.
Local Open Scope js_scope.

(** X24.  [isPointInPolygon] answers false when every vertex lies on the
    same side of the horizontal line through the point, that is, when the
    test [yi > point.y] has the same outcome for all of them; in particular
    for the empty polygon. *)
Theorem isPointInPolygon_outside_band (point : Point num) (polygon : list (Point num))
    (side : bool) :
  (forall v, In v polygon -> (y v >? y point) = side) ->
  isPointInPolygon point polygon = false.
Proof.
  intros Hside. unfold isPointInPolygon.
  destruct polygon as [|v0 rest] eqn:Hpoly; [reflexivity|]. rewrite <- Hpoly in *.
  apply (isPointInPolygon_no_crossing point polygon Hside).
  - intros i Hi. apply in_seq in Hi. lia.
  - rewrite Hpoly. cbn [List.length]. lia.
Qed.
End HitTestTheorems.

Section Binary64HitTest.
Local Open Scope js_scope.

(** Where the two ends of a side have the same finite [x], the crossing
    abscissa [(xj - xi) * (point.y - yi) / (yj - yi) + xi] compares as
    [xi] does, provided [point.y - yi] is finite and [yj - yi] is neither
    zero nor NaN. *)
Lemma vertical_side_crossing (a py yi yj px : float) :
  is_finite a = true -> is_finite (py - yi) = true -> F64.SFnonzero (Prim2SF (yj - yi)) ->
  (px <? (a - a) * (py - yi) / (yj - yi) + a) = (px <? a).
Proof.
  intros Ha Hoff Hside. cbn [nlt nadd nsub nmul ndiv float_number] in *.
  rewrite !FloatAxioms.ltb_spec. unfold SFltb.
  rewrite FloatAxioms.add_spec, FloatAxioms.div_spec, FloatAxioms.mul_spec,
    (FloatAxioms.sub_spec a a).
  unfold SF64add, SF64div, SF64mul, SF64sub.
  rewrite (@SFsub_diag _ (@is_finite_spec _ Ha)).
  destruct (@SFmul_zero_finite false _ (@is_finite_spec _ Hoff)) as [s1 ->].
  destruct (@SFdiv_zero_nonzero s1 _ Hside) as [s2 ->].
  now rewrite SFadd_zero_compare.
Qed.

(** X25.  In binary64, for the rectangle with corners [(a,b)], [(c,b)],
    [(c,d)], [(a,d)], where [a < c] are finite, [b < d] and the height
    [d - b] is computed above zero, and for a point whose offsets
    [point.y - b] and [point.y - d] are finite, [isPointInPolygon] answers
    [!(x < a) && x < c && !(y < b) && y < d]: the sides [x = a] and [y = b]
    belong to the rectangle, the sides [x = c] and [y = d] do not.  Where
    an offset overflows the answer can be wrong
    ([hit_test_overflows]). *)
Theorem isPointInPolygon_rectangle (a b c d : float) (p : Point float) :
  is_finite a = true -> is_finite c = true ->
  (a <? c) = true -> (b <? d) = true -> (lit 0 <? d - b) = true ->
  is_finite (y p - b) = true -> is_finite (y p - d) = true ->
  isPointInPolygon p [ {| x := a; y := b |}; {| x := c; y := b |};
                       {| x := c; y := d |}; {| x := a; y := d |} ] =
  negb (x p <? a) && (x p <? c) && (negb (y p <? b) && (y p <? d)).
Proof.
  intros Ha Hc Hac Hbd Hheight Hoffb Hoffd. destruct p as [px py]. cbn [x y] in *.
  assert (Hsides : F64.SFnonzero (Prim2SF (d - b)) /\ F64.SFnonzero (Prim2SF (b - d))).
  { cbn [nlt nsub lit float_number] in *. rewrite FloatAxioms.ltb_spec in Hheight.
    rewrite (FloatAxioms.sub_spec d b), (FloatAxioms.sub_spec b d) in *.
    apply SFsub_nonzero_swap. exact Hheight. }
  destruct Hsides as [Hdb Hbd'].
  unfold isPointInPolygon.
  cbn [List.length seq fold_left isPointInPolygon_step nth Nat.sub fst].
  unfold intersect. cbn [x y].
  rewrite (@vertical_side_crossing a py b d px Ha Hoffb Hdb),
    (@vertical_side_crossing c py d b px Hc Hoffd Hbd').
  assert (Hx : (px <? a) = true -> (px <? c) = true)
    by (intros H; exact (@F64_ltb_trans _ _ _ H Hac)).
  assert (Hy : (py <? b) = true -> (py <? d) = true)
    by (intros H; exact (@F64_ltb_trans _ _ _ H Hbd)).
  destruct (px <? a), (px <? c), (py <? b), (py <? d); cbn;
    try reflexivity; try (now discriminate Hx); now discriminate Hy.
Qed.
End Binary64HitTest.

(** ** The further properties at concrete inputs *)

Section MoreInstances.
Local Open Scope js_scope.

Lemma square_object_consistent : consistent Sample.square_object.
Proof.
  unfold consistent. split; [reflexivity|]. split; [reflexivity|].
  left. repeat constructor.
Qed.

Lemma applyPPMToObject_consistent_witness :
  consistent Sample.square_object
  /\ consistent (applyPPMToObject Sample.square_object (Some (lit 10))).
Proof.
  split; [exact square_object_consistent|].
  exact (proj1 (@applyPPMToObject_consistent float _ Sample.square_object
                  (Some (lit 10)) square_object_consistent)).
Defined.


(** The pass on the bumped rectangle and the disc returns two objects,
    the second one marked as a coin. *)
Lemma two_contours_run :
  exists o1 o2,
    detectContours (fun _ => 0%nat) (Traced (lit 500) (lit 500) Sample2.two_contours)
      = Returned [o1; o2]
    /\ isCoin o1 = false /\ isCoin o2 = true.
Proof. do 2 eexists. split; [vm_compute; reflexivity|]. split; reflexivity. Qed.

Lemma detectContours_names_and_colours_witness :
  exists result o,
    detectContours (fun _ => 0%nat) (Traced (lit 500) (lit 500) Sample2.two_contours)
      = Returned result
    /\ nth_error result 1 = Some o
    /\ color o = "#EF4444"%string
    /\ (isCoin o = true -> name o = "Coin"%string).
Proof.
  destruct two_contours_run as (o1 & o2 & Hrun & _ & _).
  exists [o1; o2], o2. split; [exact Hrun|]. split; [reflexivity|].
  destruct (@detectContours_names_and_colours float _ (lit 500) (lit 500) (fun _ => 0%nat)
              Sample2.two_contours [o1; o2] 1 o2 Hrun eq_refl)
    as (Hcolor & Hcoin & _).
  split; [exact Hcolor|exact Hcoin].
Defined.

Lemma detectContours_thresholds_witness :
  exists result o,
    detectContours (fun _ => 0%nat) (Traced (lit 500) (lit 500) Sample2.two_contours)
      = Returned result
    /\ In o result
    /\ (area o <? lit 3000) = false
    /\ (width (contour o) <? lit 30) = false.
Proof.
  destruct two_contours_run as (o1 & o2 & Hrun & _ & _).
  exists [o1; o2], o1. split; [exact Hrun|]. split; [now left|].
  destruct (@detectContours_thresholds float _ (lit 500) (lit 500) (fun _ => 0%nat)
              Sample2.two_contours [o1; o2] o1 Hrun (or_introl eq_refl))
    as (H1 & _ & H3 & _).
  split; assumption.
Defined.

Lemma detectContours_uncalibrated_witness :
  exists result o,
    detectContours (fun _ => 0%nat) (Traced (lit 500) (lit 500) Sample2.two_contours)
      = Returned result
    /\ In o result
    /\ consistent o
    /\ m_perimeter (measurements o) = None.
Proof.
  destruct two_contours_run as (o1 & o2 & Hrun & _ & _).
  exists [o1; o2], o1. split; [exact Hrun|]. split; [now left|].
  destruct (@detectContours_uncalibrated float _ (lit 500) (lit 500) (fun _ => 0%nat)
              Sample2.two_contours [o1; o2] o1 Hrun (or_introl eq_refl))
    as (H1 & _ & _ & _ & H5).
  split; assumption.
Defined.

Lemma detectContours_coin_mark_witness :
  exists result o,
    detectContours (fun _ => 0%nat) (Traced (lit 500) (lit 500) Sample2.two_contours)
      = Returned result
    /\ In o result
    /\ isCoin o = coin_tests (lit 500) (lit 500) o.
Proof.
  destruct two_contours_run as (o1 & o2 & Hrun & _ & _).
  exists [o1; o2], o2. split; [exact Hrun|]. split; [right; now left|].
  exact (proj1 (@detectContours_coin_mark float _ (lit 500) (lit 500) (fun _ => 0%nat)
                  Sample2.two_contours [o1; o2] o2 Hrun (or_intror (or_introl eq_refl)))).
Defined.
End MoreInstances.

Section MoreInstancesCoin.
Local Open Scope js_scope.



(** The same square in binary64: its circularity is computed as
    0.78539816339744828 and it is returned as the coin. *)
Example square_binary64 :
  exists o,
    detectContours (fun _ => 0%nat) (Traced (lit 500) (lit 500) [Sample2.square])
      = Returned [o]
    /\ isCoin o = true /\ name o = "Coin"%string
    /\ circularity o = Some 0x1.921fb54442d18p-1%float.
Proof. eexists. vm_compute. repeat split; reflexivity. Qed.

Lemma detectCoin_returns_witness :
  (forall m, ProcessingThrew "out of memory" <> @InitRejected float m)
  /\ exists r, detectCoin (@ProcessingThrew float "out of memory") = Returned r
               /\ found r = false.
Proof.
  assert (H : forall m, ProcessingThrew "out of memory" <> @InitRejected float m)
    by (intros m; discriminate).
  split; [exact H|].
  destruct (@detectCoin_returns float _ (ProcessingThrew "out of memory") H)
    as (r & Hr & _).
  exists r. split; [exact Hr|].
  cbn in Hr. injection Hr as <-. reflexivity.
Defined.

Lemma disc_run :
  exists r, detectCoin (Traced (lit 500) (lit 500) [Sample2.disc]) = Returned r
            /\ found r = true /\ pixelDiameter r = Some (lit 120 : float).
Proof. eexists. split; [vm_compute; reflexivity|]. split; reflexivity. Qed.

Lemma detectCoin_diameter_source_witness :
  exists r,
    detectCoin (Traced (lit 500) (lit 500) [Sample2.disc]) = Returned r
    /\ found r = true
    /\ exists c, In c [Sample2.disc]
                 /\ pixelDiameter r =
                    Some (Math_max [width (boundingRect c); height (boundingRect c)]).
Proof.
  destruct disc_run as (r & Hr & Hfound & _).
  exists r. split; [exact Hr|]. split; [exact Hfound|].
  destruct (@detectCoin_diameter_source float _ (lit 500) (lit 500) [Sample2.disc] r
              Hr Hfound) as (c & Hin & _ & Hd).
  exists c. split; assumption.
Defined.

(** The square comes first and passes the filters, the rectangle does not
    pass, and the disc, which comes last, is the more circular. *)
Lemma three_contours_search :
  exists r,
    detectCoin (Traced (lit 500) (lit 500)
                  [Sample2.square; Sample.bumped_rectangle; Sample2.disc]) = Returned r
    /\ found r = true /\ pixelDiameter r = Some (lit 120 : float).
Proof. eexists. split; [vm_compute; reflexivity|]. split; reflexivity. Qed.

Lemma detectCoin_most_circular_witness :
  coin_candidate (lit 500) (lit 500) Sample2.square = true
  /\ coin_candidate (lit 500) (lit 500) Sample2.disc = true
  /\ exists r c,
       detectCoin (Traced (lit 500) (lit 500)
                     [Sample2.square; Sample.bumped_rectangle; Sample2.disc]) = Returned r
       /\ found r = true
       /\ pixelDiameter r = Some (lit 120 : float)
       /\ pixelDiameter r =
          Some (Math_max [width (boundingRect c); height (boundingRect c)])
       /\ (circularity_of c <? circularity_of Sample2.square) = false
       /\ (circularity_of c <? circularity_of Sample2.disc) = false.
Proof.
  assert (Hsquare : coin_candidate (lit 500) (lit 500) Sample2.square = true)
    by (vm_compute; reflexivity).
  assert (Hdisc : coin_candidate (lit 500) (lit 500) Sample2.disc = true)
    by (vm_compute; reflexivity).
  split; [exact Hsquare|]. split; [exact Hdisc|].
  destruct three_contours_search as (r & Hr & Hfound & Hd).
  destruct (@detectCoin_most_circular float _ _ (lit 500) (lit 500)
              [Sample2.square; Sample.bumped_rectangle; Sample2.disc] r Hr Hfound)
    as (c & _ & _ & Hc & Hmax).
  exists r, c. split; [exact Hr|]. split; [exact Hfound|]. split; [exact Hd|].
  split; [exact Hc|]. split.
  - apply Hmax; [now left|exact Hsquare].
  - apply Hmax; [right; right; now left|exact Hdisc].
Defined.

Lemma legacy_detectCoin_first_match_witness :
  (forall c', In c' (@nil (Contour float)) -> legacy_candidate c' = false)
  /\ legacy_candidate Sample2.disc = true
  /\ Legacy.detectCoin_loop ([] ++ Sample2.disc :: [Sample.disc_at_column0])
     = Some (lit 120 : float).
Proof.
  assert (Hnone : forall c', In c' (@nil (Contour float)) -> legacy_candidate c' = false)
    by (intros c' []).
  assert (Hc : legacy_candidate Sample2.disc = true) by (vm_compute; reflexivity).
  split; [exact Hnone|]. split; [exact Hc|].
  rewrite (@legacy_detectCoin_first_match float _ [] [Sample.disc_at_column0]
             Sample2.disc Hnone Hc).
  vm_compute. reflexivity.
Defined.

Lemma legacy_detectCoin_throws_witness :
  (forall c, In c [Sample.bumped_rectangle] -> legacy_candidate c = false)
  /\ Legacy.detectCoin [Sample.bumped_rectangle] = Thrown "No coin detected".
Proof.
  assert (Hnone : forall c, In c [Sample.bumped_rectangle] -> legacy_candidate c = false)
    by (intros c [<-|[]]; vm_compute; reflexivity).
  split; [exact Hnone|].
  exact (@legacy_detectCoin_throws float _ [Sample.bumped_rectangle] Hnone).
Defined.
End MoreInstancesCoin.

Section MoreInstancesSession.
Local Open Scope js_scope.

Lemma manual_bounding_box_corner_witness :
  (3 <= List.length Sample2.wide_clicks)%nat
  /\ Forall (fun q : Point float => (x q <=? x q) = true /\ (y q <=? y q) = true)
       Sample2.wide_clicks
  /\ In {| x := dec 8376 1; y := lit 20 |} Sample2.wide_clicks
  /\ exists obj,
       objects (fst (finishManualObject 0 (Some Sample2.wide_clicks) Sample.fresh))
         = [Measured obj]
       /\ (rect_x (contour obj) <=? dec 8376 1) = true
       /\ (dec 8376 1 <=? Math_max (map x Sample2.wide_clicks)) = true.
Proof.
  assert (Hlen : (3 <= List.length Sample2.wide_clicks)%nat) by (cbn; lia).
  assert (Hnum : Forall (fun q : Point float =>
                           (x q <=? x q) = true /\ (y q <=? y q) = true)
                        Sample2.wide_clicks)
    by (repeat constructor).
  assert (Hin : In {| x := dec 8376 1; y := lit 20 |} Sample2.wide_clicks)
    by (right; now left).
  split; [exact Hlen|]. split; [exact Hnum|]. split; [exact Hin|].
  destruct (@manual_bounding_box_corner float _ _ 0 Sample2.wide_clicks Sample.fresh
              _ Hlen Hnum Hin) as (obj & Hobj & Hx & _ & Hmax & _).
  exists obj. split; [exact Hobj|]. split; [exact Hx|exact Hmax].
Defined.

Lemma finishManualObject_calibrates_witness :
  (3 <= List.length Sample.square10)%nat
  /\ ppm Sample2.calibrated = Some (lit 10)
  /\ (lit 0 <? (lit 10 : float)) = true
  /\ exists obj,
       objects (fst (finishManualObject 7 (Some Sample.square10) Sample2.calibrated))
         = [Measured obj]
       /\ m_perimeter (measurements obj) = Some (lit 4).
Proof.
  assert (Hlen : (3 <= List.length Sample.square10)%nat) by (cbn; lia).
  assert (Hppm : ppm Sample2.calibrated = Some (lit 10)) by reflexivity.
  assert (Hpos : (lit 0 <? (lit 10 : float)) = true) by reflexivity.
  split; [exact Hlen|]. split; [exact Hppm|]. split; [exact Hpos|].
  destruct (@finishManualObject_calibrates float _ _ 7 Sample.square10 Sample2.calibrated
              (lit 10) Hlen Hppm Hpos) as (obj & Hobj & _ & _ & Hper).
  exists obj. split; [exact Hobj|]. rewrite Hper. vm_compute. reflexivity.
Defined.

Lemma finishManualObject_uncalibrated_witness :
  (3 <= List.length Sample.square10)%nat
  /\ truthy (ppm Sample.fresh) = false
  /\ exists obj,
       objects (fst (finishManualObject 7 (Some Sample.square10) Sample.fresh))
         = [Measured obj]
       /\ Forall (fun e => realLength e = None) (edges obj)
       /\ m_perimeter (measurements obj) = Some (lit 40).
Proof.
  assert (Hlen : (3 <= List.length Sample.square10)%nat) by (cbn; lia).
  assert (Hppm : truthy (ppm Sample.fresh) = false) by reflexivity.
  split; [exact Hlen|]. split; [exact Hppm|].
  destruct (@finishManualObject_uncalibrated float _ 7 Sample.square10 Sample.fresh
              Hlen Hppm) as (obj & Hobj & Hnone & Hper & Hsum).
  exists obj. split; [exact Hobj|]. split; [exact Hnone|].
  rewrite Hper, Hsum. vm_compute. reflexivity.
Defined.

Lemma finishManualObject_numbering_witness :
  (3 <= List.length Sample.square10)%nat
  /\ exists obj,
       objects (fst (finishManualObject 7 (Some Sample.square10) Sample2.calibrating))
         = [Measured Sample.square_object; Measured obj]
       /\ name obj = "Object 2"%string
       /\ id obj = "manual_7_2"%string
       /\ color obj = "#10B981"%string.
Proof.
  assert (Hlen : (3 <= List.length Sample.square10)%nat) by (cbn; lia).
  split; [exact Hlen|].
  destruct (@finishManualObject_numbering float _ 7 Sample.square10 Sample2.calibrating
              Hlen) as (obj & Hobj & Hname & Hid & Hcolor).
  exists obj. split; [exact Hobj|]. split; [exact Hname|]. split; [exact Hid|exact Hcolor].
Defined.

Lemma manual_calibration_recalibrates_witness :
  manualCoinPoints Sample2.calibrating = []
  /\ (lit 0 <? calculatePPM (calculatePixelDistance (Sample.pt 0 0) (Sample.pt 265 0)))
     = true
  /\ ppm (setManualCoinPoints 2 (Sample.pt 265 0)
            (setManualCoinPoints 1 (Sample.pt 0 0) Sample2.calibrating))
     = Some (lit 10)
  /\ List.length (objects (setManualCoinPoints 2 (Sample.pt 265 0)
                             (setManualCoinPoints 1 (Sample.pt 0 0) Sample2.calibrating)))
     = 2%nat.
Proof.
  assert (Hnone : manualCoinPoints Sample2.calibrating = []) by reflexivity.
  assert (Hpos : (lit 0 <? calculatePPM (calculatePixelDistance (Sample.pt 0 0)
                                           (Sample.pt 265 0))) = true)
    by (vm_compute; reflexivity).
  split; [exact Hnone|]. split; [exact Hpos|].
  destruct (@manual_calibration_recalibrates float _ _ 1%nat 2%nat (Sample.pt 0 0)
              (Sample.pt 265 0) Sample2.calibrating Hnone Hpos)
    as (Hppm & _ & _ & _ & _ & _ & _ & _ & Hcount).
  split.
  - rewrite Hppm. vm_compute. reflexivity.
  - rewrite Hcount. reflexivity.
Defined.

Lemma clicks_after_calibration_ignored_witness :
  mode Sample2.calibrating = manual_coin
  /\ manualCoinPoints Sample2.calibrating = []
  /\ handleClicks 1 [Sample.pt 0 0; Sample.pt 265 0; Sample.pt 5 5; Sample.pt 9 9]
       Sample2.calibrating =
     (setManualCoinPoints 1 (Sample.pt 265 0)
        (setManualCoinPoints 1 (Sample.pt 0 0) Sample2.calibrating), []).
Proof.
  assert (Hmode : mode Sample2.calibrating = manual_coin) by reflexivity.
  assert (Hnone : manualCoinPoints Sample2.calibrating = []) by reflexivity.
  split; [exact Hmode|]. split; [exact Hnone|].
  exact (@clicks_after_calibration_ignored float _ 1%nat (Sample.pt 0 0) (Sample.pt 265 0)
           [Sample.pt 5 5; Sample.pt 9 9] Sample2.calibrating Hmode Hnone).
Defined.

Lemma calibrating_consistent : Forall member_consistent (objects Sample2.calibrating).
Proof.
  constructor; [|constructor]. cbn [member_consistent]. unfold consistent.
  split; [reflexivity|]. split; [reflexivity|]. left. repeat constructor.
Qed.

Lemma session_stays_consistent_witness :
  Forall member_consistent (objects Sample2.calibrating)
  /\ Forall member_consistent
       (objects (fst (handleClick 1 (Sample.pt 3 4) Sample2.calibrating))).
Proof.
  split; [exact calibrating_consistent|].
  destruct (@session_stays_consistent float _ 1%nat (Sample.pt 3 4) None "obj_0_0"
              Sample2.calibrating calibrating_consistent) as (_ & _ & _ & _ & _ & H).
  exact H.
Defined.

Lemma undoLastPoint_takes_back_witness :
  ((List.length (creatingPoints Sample.fresh ++ [Sample.pt 3 4]) <= 2)%nat
   \/ forall first,
        hd_error (creatingPoints Sample.fresh ++ [Sample.pt 3 4]) = Some first ->
        (Math_hypot (x (Sample.pt 3 4) - x first) (y (Sample.pt 3 4) - y first) <? lit 10)
        = false)
  /\ undoLastPoint (fst (addManualObjectPoint 1 (Sample.pt 3 4) Sample.fresh))
     = Sample.fresh.
Proof.
  assert (Hkeep :
    (List.length (creatingPoints Sample.fresh ++ [Sample.pt 3 4]) <= 2)%nat
    \/ forall first,
         hd_error (creatingPoints Sample.fresh ++ [Sample.pt 3 4]) = Some first ->
         (Math_hypot (x (Sample.pt 3 4) - x first) (y (Sample.pt 3 4) - y first) <? lit 10)
         = false)
    by (left; cbn; lia).
  split; [exact Hkeep|].
  exact (proj1 (@undoLastPoint_takes_back float _ 1%nat (Sample.pt 3 4) Sample.fresh Hkeep)).
Defined.


Lemma isPointInPolygon_outside_band_witness :
  (forall v, In v Sample.square10 -> (y v >? y (Sample.pt 5 20)) = false)
  /\ isPointInPolygon (Sample.pt 5 20) Sample.square10 = false.
Proof.
  assert (Hside : forall v, In v Sample.square10 -> (y v >? y (Sample.pt 5 20)) = false)
    by (intros v [<-|[<-|[<-|[<-|[]]]]]; vm_compute; reflexivity).
  split; [exact Hside|].
  exact (@isPointInPolygon_outside_band float _ (Sample.pt 5 20) Sample.square10 false
           Hside).
Defined.

Lemma isPointInPolygon_rectangle_witness :
  is_finite (lit 0 : float) = true /\ is_finite (lit 10 : float) = true
  /\ (lit 0 <? (lit 10 : float)) = true /\ (lit 0 <? (lit 20 : float)) = true
  /\ (lit 0 <? (lit 20 : float) - lit 0) = true
  /\ is_finite (y (Sample.pt 0 5) - lit 0) = true
  /\ is_finite (y (Sample.pt 0 5) - lit 20) = true
  /\ isPointInPolygon (Sample.pt 0 5)
       [Sample.pt 0 0; Sample.pt 10 0; Sample.pt 10 20; Sample.pt 0 20] = true
  /\ isPointInPolygon (Sample.pt 10 5)
       [Sample.pt 0 0; Sample.pt 10 0; Sample.pt 10 20; Sample.pt 0 20] = false.
Proof.
  assert (Ha : is_finite (lit 0 : float) = true) by reflexivity.
  assert (Hc : is_finite (lit 10 : float) = true) by reflexivity.
  assert (Hac : (lit 0 <? (lit 10 : float)) = true) by reflexivity.
  assert (Hbd : (lit 0 <? (lit 20 : float)) = true) by reflexivity.
  assert (Hheight : (lit 0 <? (lit 20 : float) - lit 0) = true) by reflexivity.
  assert (Hoffb : is_finite (y (Sample.pt 0 5) - lit 0) = true) by reflexivity.
  assert (Hoffd : is_finite (y (Sample.pt 0 5) - lit 20) = true) by reflexivity.
  split; [exact Ha|]. split; [exact Hc|]. split; [exact Hac|]. split; [exact Hbd|].
  split; [exact Hheight|]. split; [exact Hoffb|]. split; [exact Hoffd|]. split.
  - etransitivity;
      [exact (@isPointInPolygon_rectangle (lit 0) (lit 0) (lit 10) (lit 20)
                (Sample.pt 0 5) Ha Hc Hac Hbd Hheight Hoffb Hoffd)|reflexivity].
  - etransitivity;
      [exact (@isPointInPolygon_rectangle (lit 0) (lit 0) (lit 10) (lit 20)
                (Sample.pt 10 5) Ha Hc Hac Hbd Hheight Hoffb Hoffd)|reflexivity].
Defined.
End MoreInstancesSession.
